(** * Loris resolvers: identifiers to cached image paths

    A shallow embedding of [loris/resolver.py].  Python byte strings are
    [string]s, dictionaries are [gmap]s, raised exceptions are the [Raise]
    branch of [result], and everything that touches the disk, the network
    or the logger is a computation over an explicit [World]. *)

From Stdlib Require Import ZArith NArith Ascii String List Lia Bool.
From Stdlib Require Import DecimalString.
From stdpp Require Import gmap strings list.

Local Open Scope string_scope.

(** ** Exceptions *)

Inductive exn : Type :=
| ResolverException (http_status : N) (message : string)
| NameError (name : string)
| OSError (errno : N) (filename : string)
| MissingSchema (message : string)
| TypeError (message : string)
| ValueError (message : string)
| KeyError (key : string).

Inductive result (A : Type) : Type :=
| Ok (a : A)
| Raise (e : exn).
Arguments Ok {A} a.
Arguments Raise {A} e.

Definition is_ok {A} (r : result A) : bool :=
  match r with Ok _ => true | Raise _ => false end.

(** ** Python string primitives *)

Module Py.

(** [s.lower()] on a byte string: only ASCII capitals change. *)
Definition lower_char (c : ascii) : ascii :=
  let n := nat_of_ascii c in
  if (65 <=? n)%nat && (n <=? 90)%nat then ascii_of_nat (n + 32) else c.

Fixpoint lower (s : string) : string :=
  match s with
  | EmptyString => EmptyString
  | String c s' => String (lower_char c) (lower s')
  end.

(** [c in s] for a one-character [c]. *)
Fixpoint contains (c : ascii) (s : string) : bool :=
  match s with
  | EmptyString => false
  | String d s' => if Ascii.eqb d c then true else contains c s'
  end.

(** [s.rfind(c)]: the highest index of [c], or [-1]. *)
Fixpoint rfind_from (c : ascii) (i : Z) (best : Z) (s : string) : Z :=
  match s with
  | EmptyString => best
  | String d s' =>
      rfind_from c (i + 1) (if Ascii.eqb d c then i else best) s'
  end.

Definition rfind (c : ascii) (s : string) : Z := rfind_from c 0 (-1) s.

(** [s.split(c)] for a one-character separator: never empty, one more
    piece than there are separators. *)
Fixpoint split_acc (c : ascii) (acc : string) (s : string) : list string :=
  match s with
  | EmptyString => [acc]
  | String d s' =>
      if Ascii.eqb d c then acc :: split_acc c EmptyString s'
      else split_acc c (acc +:+ String d EmptyString) s'
  end.

Definition split (c : ascii) (s : string) : list string :=
  split_acc c EmptyString s.

(** [l[-1]] on a list known to be non-empty ([default] is never used
    on the result of [split]). *)
Definition last_piece (l : list string) : string := List.last l EmptyString.

(** [s.split(c, 1)]: cut at the first separator only. *)
Fixpoint split_once_acc (c : ascii) (acc : string) (s : string)
  : option (string * string) :=
  match s with
  | EmptyString => None
  | String d s' =>
      if Ascii.eqb d c then Some (acc, s')
      else split_once_acc c (acc +:+ String d EmptyString) s'
  end.

Definition split_once (c : ascii) (s : string) : option (string * string) :=
  split_once_acc c EmptyString s.

(** [s.split(sep)] for an arbitrary separator; the empty separator is a
    [ValueError].  [skip] counts the separator characters still to be
    dropped after a match. *)
Fixpoint split_str_acc (sep : string) (skip : nat) (acc : string)
    (s : string) : list string :=
  match s with
  | EmptyString => [acc]
  | String d s' =>
      match skip with
      | S k => split_str_acc sep k acc s'
      | O =>
          if String.prefix sep s
          then acc :: split_str_acc sep (String.length sep - 1) EmptyString s'
          else split_str_acc sep 0 (acc +:+ String d EmptyString) s'
      end
  end.

Definition split_str (sep : string) (s : string) : result (list string) :=
  match sep with
  | EmptyString => Raise (ValueError "empty separator")
  | _ => Ok (split_str_acc sep 0 EmptyString s)
  end.

(** [s.startswith(p)] and the slice [s[0:n]]. *)
Definition startswith (p s : string) : bool := String.prefix p s.
Definition slice (i j : nat) (s : string) : string :=
  String.substring i (j - i) s.

(** ['%s' % n] for a non-negative integer. *)
Definition str_of_N (n : N) : string :=
  NilEmpty.string_of_uint (N.to_uint n).

(** [s.strip()]. *)
Fixpoint lstrip (s : string) : string :=
  match s with
  | String c s' => if Ascii.is_space c then lstrip s' else s
  | EmptyString => EmptyString
  end.
Definition strip (s : string) : string :=
  String.rev (lstrip (String.rev (lstrip s))).

End Py.

(** ** [urllib]: percent-decoding and re-encoding *)

Module Urllib.

Definition hexval (c : ascii) : option N :=
  let n := N_of_ascii c in
  if (48 <=? n)%N && (n <=? 57)%N then Some (n - 48)%N
  else if (65 <=? n)%N && (n <=? 70)%N then Some (n - 55)%N
  else if (97 <=? n)%N && (n <=? 102)%N then Some (n - 87)%N
  else None.

(** One element of [s.split('%')[1:]]: two leading hex digits become a
    byte, anything else keeps its percent sign. *)
Definition unquote_item (item : string) : string :=
  match item with
  | String a (String b rest) =>
      match hexval a, hexval b with
      | Some x, Some y => String (ascii_of_N (16 * x + y)) rest
      | _, _ => "%" +:+ item
      end
  | _ => "%" +:+ item
  end.

Definition unquote (s : string) : string :=
  match Py.split "%" s with
  | [] | [_] => s
  | bit0 :: items => String.concat "" (bit0 :: map unquote_item items)
  end.

Definition always_safe : string :=
  "ABCDEFGHIJKLMNOPQRSTUVWXYZabcdefghijklmnopqrstuvwxyz0123456789_.-".

Definition upper_hex_digit (n : N) : ascii :=
  if (n <? 10)%N then ascii_of_N (48 + n) else ascii_of_N (55 + n).

Definition percent_escape (c : ascii) : string :=
  let n := N_of_ascii c in
  String "%" (String (upper_hex_digit (n / 16))
                (String (upper_hex_digit (n mod 16)) EmptyString)).

Definition quoter (safe : string) (c : ascii) : string :=
  if Py.contains c always_safe || Py.contains c safe
  then String c EmptyString else percent_escape c.

Fixpoint all_chars (p : ascii -> bool) (s : string) : bool :=
  match s with
  | EmptyString => true
  | String c s' => p c && all_chars p s'
  end.

Fixpoint map_join (f : ascii -> string) (s : string) : string :=
  match s with
  | EmptyString => EmptyString
  | String c s' => f c +:+ map_join f s'
  end.

Definition quote (s : string) (safe : string) : string :=
  match s with
  | EmptyString => s
  | _ =>
      if all_chars (fun c => Py.contains c always_safe || Py.contains c safe) s
      then s
      else map_join (quoter safe) s
  end.

Fixpoint replace_char (a b : ascii) (s : string) : string :=
  match s with
  | EmptyString => EmptyString
  | String c s' => String (if Ascii.eqb c a then b else c) (replace_char a b s')
  end.

Definition quote_plus (s : string) : string :=
  if Py.contains " " s then replace_char " " "+" (quote s " ")
  else quote s "".

End Urllib.

(** ** [os.path.join] on POSIX, two arguments *)

Fixpoint endswith_slash (s : string) : bool :=
  match s with
  | EmptyString => false
  | String c EmptyString => Ascii.eqb c "/"
  | String _ s' => endswith_slash s'
  end.

Definition join (a b : string) : string :=
  if Py.startswith "/" b then b
  else if String.eqb a "" || endswith_slash a then a +:+ b
  else a +:+ "/" +:+ b.

(** ** [hashlib.md5(...).hexdigest()] *)

Module MD5.
Local Open Scope Z_scope.

Definition w32 (x : Z) : Z := x mod 2 ^ 32.
Definition rotl (x c : Z) : Z :=
  Z.lor (w32 (Z.shiftl x c)) (Z.shiftr (w32 x) (32 - c)).
Definition not32 (x : Z) : Z := Z.lxor (w32 x) 4294967295.

Definition S_tab : list Z :=
  [7;12;17;22;7;12;17;22;7;12;17;22;7;12;17;22;
   5;9;14;20;5;9;14;20;5;9;14;20;5;9;14;20;
   4;11;16;23;4;11;16;23;4;11;16;23;4;11;16;23;
   6;10;15;21;6;10;15;21;6;10;15;21;6;10;15;21].

Definition K_tab : list Z :=
  [0xd76aa478;0xe8c7b756;0x242070db;0xc1bdceee;0xf57c0faf;0x4787c62a;
   0xa8304613;0xfd469501;0x698098d8;0x8b44f7af;0xffff5bb1;0x895cd7be;
   0x6b901122;0xfd987193;0xa679438e;0x49b40821;0xf61e2562;0xc040b340;
   0x265e5a51;0xe9b6c7aa;0xd62f105d;0x02441453;0xd8a1e681;0xe7d3fbc8;
   0x21e1cde6;0xc33707d6;0xf4d50d87;0x455a14ed;0xa9e3e905;0xfcefa3f8;
   0x676f02d9;0x8d2a4c8a;0xfffa3942;0x8771f681;0x6d9d6122;0xfde5380c;
   0xa4beea44;0x4bdecfa9;0xf6bb4b60;0xbebfbc70;0x289b7ec6;0xeaa127fa;
   0xd4ef3085;0x04881d05;0xd9d4d039;0xe6db99e5;0x1fa27cf8;0xc4ac5665;
   0xf4292244;0x432aff97;0xab9423a7;0xfc93a039;0x655b59c3;0x8f0ccc92;
   0xffeff47d;0x85845dd1;0x6fa87e4f;0xfe2ce6e0;0xa3014314;0x4e0811a1;
   0xf7537e82;0xbd3af235;0x2ad7d2bb;0xeb86d391].

Record state := St { rA : Z; rB : Z; rC : Z; rD : Z }.

Definition init : state :=
  St 0x67452301 0xefcdab89 0x98badcfe 0x10325476.

Definition round (M : list Z) (st : state) (i : nat) : state :=
  let '(St a b c d) := st in
  let iz := Z.of_nat i in
  let '(f, g) :=
    if iz <? 16 then (Z.lor (Z.land b c) (Z.land (not32 b) d), iz)
    else if iz <? 32 then
      (Z.lor (Z.land d b) (Z.land (not32 d) c), (5 * iz + 1) mod 16)
    else if iz <? 48 then (Z.lxor b (Z.lxor c d), (3 * iz + 5) mod 16)
    else (Z.lxor c (Z.lor b (not32 d)), (7 * iz) mod 16) in
  let f := w32 (f + a + nth i K_tab 0 + nth (Z.to_nat g) M 0) in
  St d (w32 (b + rotl f (nth i S_tab 0))) b c.

Definition compress (st : state) (M : list Z) : state :=
  let '(St a b c d) := fold_left (round M) (seq 0 64) st in
  St (w32 (rA st + a)) (w32 (rB st + b)) (w32 (rC st + c)) (w32 (rD st + d)).

Fixpoint bytes_of_string (s : string) : list Z :=
  match s with
  | EmptyString => []
  | String c s' => Z.of_N (N_of_ascii c) :: bytes_of_string s'
  end.

Fixpoint le_bytes (n : nat) (x : Z) : list Z :=
  match n with
  | O => []
  | S n' => x mod 256 :: le_bytes n' (x / 256)
  end.

Definition pad (msg : list Z) : list Z :=
  let len := Z.of_nat (length msg) in
  msg ++ [128] ++ repeat 0 (Z.to_nat ((55 - len) mod 64))
      ++ le_bytes 8 ((8 * len) mod 2 ^ 64).

Fixpoint word_of_le (bs : list Z) : Z :=
  match bs with
  | [] => 0
  | b :: bs' => b + 256 * word_of_le bs'
  end.

Fixpoint chunks {A} (fuel n : nat) (l : list A) : list (list A) :=
  match fuel with
  | O => []
  | S fuel' =>
      match l with
      | [] => []
      | _ => firstn n l :: chunks fuel' n (skipn n l)
      end
  end.

Definition words_of_block (block : list Z) : list Z :=
  map word_of_le (chunks 16 4 block).

Definition digest (s : string) : state :=
  let bytes := pad (bytes_of_string s) in
  fold_left compress (map words_of_block (chunks (length bytes) 64 bytes)) init.

Definition hex_digit (n : Z) : ascii :=
  let n := n mod 16 in
  if n <? 10 then ascii_of_N (Z.to_N (48 + n)) else ascii_of_N (Z.to_N (87 + n)).

Definition hex_byte (b : Z) (rest : string) : string :=
  String (hex_digit (b / 16)) (String (hex_digit b) rest).

Definition hex_word (w : Z) (rest : string) : string :=
  fold_right hex_byte rest (le_bytes 4 w).

Definition hexdigest (s : string) : string :=
  let '(St a b c d) := digest s in
  hex_word a (hex_word b (hex_word c (hex_word d EmptyString))).

End MD5.

(** ** [constants] *)

(** Modelled from the spec: the module [constants] is not part of the
    sources; its extension table is the one of section 4.2, [tiff] to [tif]
    and [jpeg] to [jpg]. *)
Definition EXTENSION_MAP : gmap string string :=
  list_to_map [("jpeg", "jpg"); ("tiff", "tif")].

(** ** [_AbstractResolver] *)

Definition format_undetermined (ident : string) : exn :=
  ResolverException 404 ("Format could not be determined for: " +:+ ident +:+ ".").

Definition format_from_ident (ident : string) : result string :=
  if negb (Py.rfind "." ident =? -1)%Z then
    let extension := Py.last_piece (Py.split "." ident) in
    if (String.length extension <? 5)%nat then
      let extension := Py.lower extension in
      Ok (default extension (EXTENSION_MAP !! extension))
    else Raise (format_undetermined ident)
  else Raise (format_undetermined ident).

(** ** The file system

    Paths are compared by their components: repeated slashes and [.]
    components do not matter, there are no symbolic links, and the working
    directory is the root.  Two things the operating system does are left
    out: a [..] component is an ordinary name here, not a step up, and a
    slash after the name of a file is dropped, where the operating system
    answers [ENOTDIR].  On a path with either, [exists_] and the operations
    below can differ from the real ones. *)

Module FS.

Definition path : Type := list string.

Definition keep_component (c : string) : bool :=
  negb (String.eqb c "") && negb (String.eqb c ".").

Definition of_string (s : string) : path :=
  List.filter keep_component (Py.split "/" s).

Record t : Type := Mk { dirs : gset path; files : gmap path string }.

Definition empty : t := Mk ∅ ∅.

Definition is_dir (fs : t) (p : path) : bool :=
  match p with
  | [] => true
  | _ => bool_decide (p ∈ dirs fs)
  end.

Definition is_file (fs : t) (p : path) : bool :=
  match files fs !! p with Some _ => true | None => false end.

Definition lexists (fs : t) (p : path) : bool := is_dir fs p || is_file fs p.

(** [os.path.exists(s)] *)
Definition exists_ (fs : t) (s : string) : bool :=
  negb (String.eqb s "") && lexists fs (of_string s).

Definition parent (p : path) : path := removelast p.

Definition EEXIST : N := 17.
Definition ENOENT : N := 2.
Definition ENOTDIR : N := 20.
Definition EISDIR : N := 21.

Definition show (p : path) : string := "/" +:+ String.concat "/" p.

(** [os.mkdir] *)
Definition mkdir (fs : t) (p : path) : result t :=
  if lexists fs p then Raise (OSError EEXIST (show p))
  else if is_file fs (parent p) then Raise (OSError ENOTDIR (show p))
  else if negb (is_dir fs (parent p)) then Raise (OSError ENOENT (show p))
  else Ok (Mk ({[p]} ∪ dirs fs) (files fs)).

(** [os.makedirs] (Python 2: no [exist_ok]); the path is given leaf
    first.  A missing head is created recursively, forgiving only
    [EEXIST] there; the leaf itself goes through [mkdir] unguarded. *)
Fixpoint makedirs_rev (fs : t) (rp : list string) : result t :=
  match rp with
  | [] => mkdir fs []
  | _ :: rhead =>
      if negb (lexists fs (rev rhead)) then
        match makedirs_rev fs rhead with
        | Ok fs' => mkdir fs' (rev rp)
        | Raise (OSError errno f) =>
            if (errno =? EEXIST)%N then mkdir fs (rev rp)
            else Raise (OSError errno f)
        | Raise e => Raise e
        end
      else mkdir fs (rev rp)
  end.

(** [os.makedirs(s)]; the empty name ends in [mkdir('')], which is
    [ENOENT]. *)
Definition makedirs (fs : t) (s : string) : result t :=
  if String.eqb s "" then Raise (OSError ENOENT s)
  else makedirs_rev fs (rev (of_string s)).

(** Names of the entries of a directory, [os.listdir] (in no
    particular order). *)
Definition entries (fs : t) : list path :=
  elements (dirs fs) ++ (map_to_list (files fs)).*1.

Definition child_of (d : path) (p : path) : option string :=
  match rev p with
  | name :: rparent => if bool_decide (rev rparent = d) then Some name else None
  | [] => None
  end.

Definition listdir (fs : t) (d : path) : list string :=
  omap (child_of d) (entries fs).

(** [tempfile.mkstemp(dir=d)] picks a name that is not taken; here, one
    longer than every entry of the file system. *)
Definition longest (l : list path) : nat :=
  list_max (map (fun p => String.length (Py.last_piece p)) l).

Definition fresh_name (fs : t) : string :=
  "tmp" +:+ String.concat "" (repeat "_" (S (longest (entries fs)))).

Definition mkstemp (fs : t) (dir : string) : result (string * t) :=
  let d := of_string dir in
  if negb (is_dir fs d) then Raise (OSError ENOENT dir)
  else
    let name := fresh_name fs in
    Ok (join dir name, Mk (dirs fs) (<[(d ++ [name])%list := ""]> (files fs))).

(** [f.write(chunk)] on an open file appends. *)
Definition append (fs : t) (p : path) (chunk : string) : t :=
  Mk (dirs fs) (alter (fun old => old +:+ chunk) p (files fs)).

(** [os.remove] *)
Definition remove (fs : t) (s : string) : result t :=
  let p := of_string s in
  if is_file fs p then Ok (Mk (dirs fs) (delete p (files fs)))
  else if is_dir fs p then Raise (OSError EISDIR s)
  else Raise (OSError ENOENT s).

(** [os.rename] of a file, POSIX: an existing destination file is
    replaced. *)
Definition rename (fs : t) (src dst : string) : result t :=
  let s := of_string src in
  let d := of_string dst in
  match files fs !! s with
  | None => Raise (OSError ENOENT src)
  | Some content =>
      if is_dir fs d then Raise (OSError EISDIR dst)
      else if negb (is_dir fs (parent d)) then Raise (OSError ENOENT dst)
      else Ok (Mk (dirs fs) (<[d := content]> (delete s (files fs))))
  end.

(** [shutil.copy(src, dst)]: into [dst] when it is a directory, onto
    it otherwise. *)
Definition copy (fs : t) (src dst : string) : result t :=
  let s := of_string src in
  let d := of_string dst in
  let d := if is_dir fs d then (d ++ [Py.last_piece s])%list else d in
  match files fs !! s with
  | None => Raise (OSError ENOENT src)
  | Some content =>
      if is_dir fs d then Raise (OSError EISDIR dst)
      else if negb (is_dir fs (parent d)) then Raise (OSError ENOENT dst)
      else Ok (Mk (dirs fs) (<[d := content]> (files fs)))
  end.

Definition read (fs : t) (s : string) : option string :=
  files fs !! of_string s.

End FS.

(** ** [fnmatch] and [glob] *)

Module Glob.

Definition has_magic (s : string) : bool :=
  Py.contains "*" s || Py.contains "?" s || Py.contains "[" s.

Inductive tok : Type :=
| TStar
| TAny
| TClass (negated : bool) (stuff : string)
| TLit (c : ascii).

(** The scan for the bracket that closes a character class: an
    immediately following bracket is part of the class. *)
Fixpoint until_close (acc : string) (s : string) : option (string * string) :=
  match s with
  | EmptyString => None
  | String "]" rest => Some (acc, rest)
  | String c rest => until_close (acc +:+ String c EmptyString) rest
  end.

Definition class_body (s : string) : option (bool * string * string) :=
  let '(neg, s1) :=
    match s with
    | String "!" s' => (true, s')
    | _ => (false, s)
    end in
  match s1 with
  | String "]" s2 =>
      match until_close "]" s2 with
      | Some (stuff, rest) => Some (neg, stuff, rest)
      | None => None
      end
  | _ =>
      match until_close "" s1 with
      | Some (stuff, rest) => Some (neg, stuff, rest)
      | None => None
      end
  end.

Fixpoint translate (fuel : nat) (pat : string) : list tok :=
  match fuel, pat with
  | S fuel', String "*" rest => TStar :: translate fuel' rest
  | S fuel', String "?" rest => TAny :: translate fuel' rest
  | S fuel', String "[" rest =>
      match class_body rest with
      | Some (neg, stuff, rest') => TClass neg stuff :: translate fuel' rest'
      | None => TLit "[" :: translate fuel' rest
      end
  | S fuel', String c rest => TLit c :: translate fuel' rest
  | _, _ => []
  end.

Definition char_le (a b : ascii) : bool :=
  (N_of_ascii a <=? N_of_ascii b)%N.

Fixpoint in_class (stuff : string) (c : ascii) : bool :=
  match stuff with
  | String a (String "-" (String b rest)) =>
      (char_le a c && char_le c b) || in_class rest c
  | String a rest => Ascii.eqb a c || in_class rest c
  | EmptyString => false
  end.

Fixpoint tmatch (ts : list tok) : string -> bool :=
  match ts with
  | [] => fun s => String.eqb s ""
  | TStar :: ts' =>
      let rest := tmatch ts' in
      fix star (s : string) : bool :=
        rest s || match s with
                  | String _ s' => star s'
                  | EmptyString => false
                  end
  | TAny :: ts' =>
      fun s => match s with
               | String _ s' => tmatch ts' s'
               | EmptyString => false
               end
  | TClass neg stuff :: ts' =>
      fun s => match s with
               | String c s' => xorb neg (in_class stuff c) && tmatch ts' s'
               | EmptyString => false
               end
  | TLit a :: ts' =>
      fun s => match s with
               | String c s' => Ascii.eqb a c && tmatch ts' s'
               | EmptyString => false
               end
  end.

Definition fnmatch (name pat : string) : bool :=
  tmatch (translate (String.length pat) pat) name.

Definition isdir (fs : FS.t) (s : string) : bool :=
  negb (String.eqb s "") && FS.is_dir fs (FS.of_string s).

Definition glob1 (fs : FS.t) (dirname pattern : string) : list string :=
  let names := if isdir fs dirname then FS.listdir fs (FS.of_string dirname) else [] in
  let names :=
    if Py.startswith "." pattern then names
    else List.filter (fun x => negb (Py.startswith "." x)) names in
  List.filter (fun x => fnmatch x pattern) names.

Definition glob0 (fs : FS.t) (dirname basename : string) : list string :=
  if String.eqb basename "" then
    if isdir fs dirname then [basename] else []
  else if FS.exists_ fs (join dirname basename) then [basename] else [].

(** [os.path.split] *)
Fixpoint rstrip_slash_rev (r : string) : string :=
  match r with
  | String "/" r' => rstrip_slash_rev r'
  | _ => r
  end.

Definition rstrip_slash (s : string) : string :=
  String.rev (rstrip_slash_rev (String.rev s)).

Definition path_split (p : string) : string * string :=
  let i := Z.to_nat (Py.rfind "/" p + 1) in
  let head := String.substring 0 i p in
  let tail := String.substring i (String.length p - i) p in
  let head := if String.eqb (rstrip_slash head) "" then head else rstrip_slash head in
  (head, tail).

Fixpoint iglob (fuel : nat) (fs : FS.t) (pathname : string) : list string :=
  match fuel with
  | O => []
  | S fuel' =>
      let '(dirname, basename) := path_split pathname in
      if negb (has_magic pathname) then
        if negb (String.eqb basename "") then
          if FS.exists_ fs pathname then [pathname] else []
        else if isdir fs dirname then [pathname] else []
      else if String.eqb dirname "" then glob1 fs "." basename
      else
        let dirs :=
          if negb (String.eqb dirname pathname) && has_magic dirname
          then iglob fuel' fs dirname else [dirname] in
        let glob_in_dir := if has_magic basename then glob1 else glob0 in
        flat_map (fun d => map (join d) (glob_in_dir fs d basename)) dirs
  end.

Definition glob (fs : FS.t) (pathname : string) : list string :=
  iglob (S (String.length pathname)) fs pathname.

End Glob.

(** ** The HTTP client ([requests]) and the world outside *)

Record RequestOptions : Type := MkOptions {
  opt_cert : option (string * string);
  opt_auth : option (string * string);
  opt_verify : option bool
}.

(** The empty dictionary [{}]. *)
Definition no_options : RequestOptions := MkOptions None None None.

Inductive http_method : Type := HEAD | GET.

Record Request : Type := MkRequest {
  req_method : http_method;
  req_url : string;
  req_options : RequestOptions
}.

(** Header names are lower-cased, as [requests] compares them without
    regard to case. *)
Record Response : Type := MkResponse {
  status_code : N;
  headers : gmap string string;
  content : string
}.

(** [response.ok]: the status is not a 4xx or 5xx. *)
Definition ok (r : Response) : bool :=
  negb ((400 <=? status_code r)%N && (status_code r <? 600)%N).

Inductive log_level : Type := DEBUG | INFO | WARN | ERROR.

(** The origin servers answer the [n]-th request of a run as they like;
    [sent] and [logged] are kept latest first. *)
Record World : Type := MkWorld {
  fs : FS.t;
  server : nat -> Request -> Response;
  sent : list Request;
  logged : list (log_level * string)
}.

Definition M (A : Type) : Type := World -> result A * World.

Definition ret {A} (a : A) : M A := fun w => (Ok a, w).
Definition raise {A} (e : exn) : M A := fun w => (Raise e, w).
Definition bind {A B} (m : M A) (k : A -> M B) : M B :=
  fun w => match m w with
           | (Ok a, w') => k a w'
           | (Raise e, w') => (Raise e, w')
           end.

#[global] Instance M_ret : MRet M := @ret.
#[global] Instance M_bind : MBind M := fun A B k m => bind m k.

Definition lift {A} (r : result A) : M A := fun w => (r, w).

Definition get_fs : M FS.t := fun w => (Ok (fs w), w).
Definition put_fs (f : FS.t) : M unit :=
  fun w => (Ok tt, MkWorld f (server w) (sent w) (logged w)).

(** A file-system call that may fail and changes the disk. *)
Definition fs_update (op : FS.t -> result FS.t) : M unit :=
  f ← get_fs; f' ← lift (op f); put_fs f'.

Definition exists_ (p : string) : M bool :=
  f ← get_fs; ret (FS.exists_ f p).

Definition logger (lvl : log_level) (msg : string) : M unit :=
  fun w => (Ok tt, MkWorld (fs w) (server w) (sent w) ((lvl, msg) :: logged w)).

(** [requests.head(url, **options)] and [requests.get(url, stream=True,
    **options)].  A URL of [None] is rejected before anything is sent. *)
Definition requests (method : http_method) (url : option string)
    (options : RequestOptions) : M Response :=
  match url with
  | None =>
      raise (MissingSchema
        "Invalid URL 'None': No schema supplied. Perhaps you meant http://None?")
  | Some u =>
      fun w =>
        let rq := MkRequest method u options in
        (Ok (server w (length (sent w)) rq),
         MkWorld (fs w) (server w) (rq :: sent w) (logged w))
  end.

(** Reading a name in a scope that may not bind it. *)
Definition name_lookup (scope : gmap string string) (x : string) : M string :=
  match scope !! x with
  | Some v => ret v
  | None => raise (NameError ("global name '" +:+ x +:+ "' is not defined"))
  end.

(** The GET requests among those sent. *)
Definition gets (w : World) : list Request :=
  List.filter (fun r => match req_method r with GET => true | HEAD => false end) (sent w).

(** ** The configuration mapping

    A value of the mapping is a string, a boolean or a sub-section (one
    per template).  The mapping itself has one field per key the resolvers
    read by name, [None] for a key that is not there, and [cfg_other] for
    every other key, whatever it holds. *)

Record TemplateConf : Type := MkTemplateConf {
  t_url : option string;
  t_user : option string;
  t_pw : option string;
  t_cert : option string;
  t_key : option string;
  t_ssl_check : option bool
}.

Inductive value : Type :=
  | VStr (s : string)
  | VBool (b : bool)
  | VSection (conf : TemplateConf).

Record Config : Type := MkConfig {
  cfg_cache_root : option string;
  cfg_source_root : option string;
  cfg_source_prefix : option string;
  cfg_source_suffix : option string;
  cfg_default_format : option string;
  cfg_head_resolvable : option bool;
  cfg_uri_resolvable : option bool;
  cfg_user : option string;
  cfg_pw : option string;
  cfg_cert : option string;
  cfg_key : option string;
  cfg_ssl_check : option bool;
  cfg_ident_regex : option string;
  cfg_templates : option string;
  cfg_delimiter : option string;
  cfg_other : gmap string value
}.

(** The keys that have a field of their own, with what they hold. *)
Definition settings (c : Config) : list (string * option value) :=
  [ ("cache_root", VStr <$> cfg_cache_root c);
    ("source_root", VStr <$> cfg_source_root c);
    ("source_prefix", VStr <$> cfg_source_prefix c);
    ("source_suffix", VStr <$> cfg_source_suffix c);
    ("default_format", VStr <$> cfg_default_format c);
    ("head_resolvable", VBool <$> cfg_head_resolvable c);
    ("uri_resolvable", VBool <$> cfg_uri_resolvable c);
    ("user", VStr <$> cfg_user c);
    ("pw", VStr <$> cfg_pw c);
    ("cert", VStr <$> cfg_cert c);
    ("key", VStr <$> cfg_key c);
    ("ssl_check", VBool <$> cfg_ssl_check c);
    ("ident_regex", VStr <$> cfg_ident_regex c);
    ("templates", VStr <$> cfg_templates c);
    ("delimiter", VStr <$> cfg_delimiter c) ].

(** [config.get(name, None)] on the whole mapping: a key with a field of
    its own is read from that field, any other key from [cfg_other]. *)
Definition config_get (c : Config) (name : string) : option value :=
  match List.find (fun kv => String.eqb (fst kv) name) (settings c) with
  | Some (_, v) => v
  | None => cfg_other c !! name
  end.

(** ** Library pieces the resolvers are parametric in

    [constants.FORMATS_BY_MEDIA_TYPE] (the module is not part of the
    sources), [re.compile(p).match(s)], the string operator [%] and
    [str(d)] of a dictionary. *)

Class Lib : Type := MkLib {
  FORMATS_BY_MEDIA_TYPE : gmap string string;
  re_match : string -> string -> bool;
  percent_format : string -> list string -> result string;
  str_of_dict : gmap string value -> string
}.

(** [config['uri_resolvable'] = v] *)
Definition set_uri_resolvable (v : bool) (c : Config) : Config :=
  MkConfig (cfg_cache_root c) (cfg_source_root c) (cfg_source_prefix c)
    (cfg_source_suffix c) (cfg_default_format c) (cfg_head_resolvable c)
    (Some v) (cfg_user c) (cfg_pw c) (cfg_cert c) (cfg_key c)
    (cfg_ssl_check c) (cfg_ident_regex c) (cfg_templates c)
    (cfg_delimiter c) (cfg_other c).

Definition empty_config : Config :=
  MkConfig None None None None None None None None None None None None None
    None None ∅.

(** ** [SimpleHTTPResolver] *)

Module SimpleHTTPResolver.

Record t : Type := Mk {
  config : Config;
  source_prefix : string;
  source_suffix : string;
  default_format : option string;
  head_resolvable : bool;
  uri_resolvable : bool;
  user : option string;
  pw : option string;
  cert : option string;
  key : option string;
  ssl_check : bool;
  ident_regex : option string;
  cache_root : string
}.

Definition missing_cache_root : string :=
  "Server Side Error: Configuration incomplete and cannot resolve. Missing setting for cache_root.".

Definition missing_source : string :=
  "Server Side Error: Configuration incomplete and cannot resolve. Must either set uri_resolvable or source_prefix settings.".

Definition __init__ (config : Config) : M t :=
  let source_prefix := default "" (cfg_source_prefix config) in
  let source_suffix := default "" (cfg_source_suffix config) in
  let default_format := cfg_default_format config in
  let head_resolvable := default false (cfg_head_resolvable config) in
  let uri_resolvable := default false (cfg_uri_resolvable config) in
  let user := cfg_user config in
  let pw := cfg_pw config in
  let cert := cfg_cert config in
  let key := cfg_key config in
  let ssl_check := default true (cfg_ssl_check config) in
  let ident_regex := cfg_ident_regex config in
  match cfg_cache_root config with
  | Some cache_root =>
      if negb uri_resolvable && String.eqb source_prefix "" then
        logger ERROR missing_source;;
        raise (ResolverException 500 missing_source)
      else
        ret (Mk config source_prefix source_suffix default_format
               head_resolvable uri_resolvable user pw cert key ssl_check
               ident_regex cache_root)
  | None =>
      logger ERROR missing_cache_root;;
      raise (ResolverException 500 missing_cache_root)
  end.

Definition request_options (self : t) : RequestOptions :=
  MkOptions
    (match cert self, key self with
     | Some c, Some k => Some (c, k)
     | _, _ => None
     end)
    (match user self, pw self with
     | Some u, Some p => Some (u, p)
     | _, _ => None
     end)
    (Some (ssl_check self)).

Definition get_format (self : t) (ident : string)
    (potential_format : option string) : result string :=
  match default_format self with
  | Some f => Ok f
  | None =>
      match potential_format with
      | Some f => Ok f
      | None => format_from_ident ident
      end
  end.

Definition is_http (s : string) : bool :=
  Py.startswith "http://" s || Py.startswith "https://" s.

Definition bad_url_message (ident : string) : string :=
  "Bad URL request made for identifier: " +:+ ident +:+ ".".

(** The names a statement of [_web_request_url] can read: its two
    locals.  The module binds only imports, [logger] and the classes. *)
Definition web_request_scope (ident url : string) : gmap string string :=
  {[ "ident" := ident; "url" := url ]}.

Definition _web_request_url (self : t) (ident : string)
  : M (option string * RequestOptions) :=
  let url :=
    if is_http ident && uri_resolvable self then ident
    else source_prefix self +:+ ident +:+ source_suffix self in
  if negb (is_http url) then
    source_url ← name_lookup (web_request_scope ident url) "source_url";
    logger WARN ("Bad URL request at " +:+ source_url
                   +:+ " for identifier: " +:+ ident +:+ ".");;
    raise (ResolverException 404 (bad_url_message ident))
  else ret (Some url, request_options self).

(** [range(start, stop, 3)] *)
Fixpoint range3 (fuel start stop : nat) : list nat :=
  match fuel with
  | O => []
  | S fuel' =>
      if (start <? stop)%nat then start :: range3 fuel' (start + 3) stop
      else []
  end.

Definition _ident_file_structure (ident : string) : string :=
  let ident_hash := MD5.hexdigest (Urllib.quote_plus ident) in
  let n := String.length ident_hash in
  let file_structure_list :=
    Py.slice 0 2 ident_hash
      :: map (fun i => Py.slice i (i + 3) ident_hash) (range3 n 2 n) in
  fold_left join file_structure_list "".

Definition is_http_like (ident : string) : bool :=
  String.eqb (Py.slice 0 6 ident) "http:/"
  || String.eqb (Py.slice 0 7 ident) "https:/".

Definition _cache_subroot (ident : string) : string :=
  let cache_subroot :=
    if negb (String.eqb (Py.slice 0 6 ident) "http:/")
       && negb (String.eqb (Py.slice 0 7 ident) "https:/")
       && (1 <? length (Py.split ":" ident))%nat
    then fold_left join (removelast (Py.split ":" ident)) ""
    else if is_http_like ident then "http"
    else "" in
  join cache_subroot (_ident_file_structure ident).

Definition cache_dir_path (self : t) (ident : string) : string :=
  let ident := Urllib.unquote ident in
  join (cache_root self) (_cache_subroot ident).

Definition raise_404_for_ident {A} (ident : string) : M A :=
  raise (ResolverException 404 ("Image not found for identifier: " +:+ ident +:+ ".")).

Definition cached_file_for_ident (self : t) (ident : string) : M (option string) :=
  let cache_dir := cache_dir_path self ident in
  e ← exists_ cache_dir;
  if (e : bool) then
    f ← get_fs;
    match Glob.glob f (join cache_dir "loris_cache.*") with
    | file0 :: _ => ret (Some file0)
    | [] => ret None
    end
  else ret None.

Definition cache_file_extension `{Lib} (self : t) (ident : string)
    (response : Response) : M string :=
  match headers response !! "content-type" with
  | Some ct =>
      match FORMATS_BY_MEDIA_TYPE !! ct with
      | Some f => lift (get_format self ident (Some f))
      | None =>
          logger WARN ("Your server may be responding with incorrect content-types. Reported "
                         +:+ ct +:+ " for ident " +:+ ident +:+ ".");;
          lift (get_format self ident None)
      end
  | None => lift (get_format self ident None)
  end.

Definition _create_cache_dir (cache_dir : string) : M unit :=
  fun w =>
    match fs_update (fun f => FS.makedirs f cache_dir) w with
    | (Raise (OSError errno f), w') =>
        if (errno =? FS.EEXIST)%N then (Ok tt, w')
        else (Raise (OSError errno f), w')
    | r => r
    end.

End SimpleHTTPResolver.

(** ** The methods [TemplateHTTPResolver] inherits

    [is_resolvable], [copy_to_cache] and [resolve] call
    [self._web_request_url], which the subclass overrides: they are written
    once, over any resolver that has the base fields and that method. *)

Class HTTPResolver (S : Type) : Type := MkHTTPResolver {
  base : S -> SimpleHTTPResolver.t;
  web_request_url : S -> string -> M (option string * RequestOptions)
}.

#[global] Instance SimpleHTTPResolver_dispatch : HTTPResolver SimpleHTTPResolver.t :=
  MkHTTPResolver SimpleHTTPResolver.t (fun self => self)
    SimpleHTTPResolver._web_request_url.

(** [response.iter_content(n)]: the body, [n] bytes at a time. *)
Fixpoint iter_content_fuel (fuel n : nat) (body : string) : list string :=
  match fuel with
  | O => []
  | S fuel' =>
      match body with
      | EmptyString => []
      | _ => String.substring 0 n body
               :: iter_content_fuel fuel' n
                    (String.substring n (String.length body - n) body)
      end
  end.

Definition iter_content (n : nat) (body : string) : list string :=
  iter_content_fuel (String.length body) n body.

(** [tempfile.NamedTemporaryFile(dir=..., delete=False)]: the name of a
    new, empty file. *)
Definition NamedTemporaryFile (dir : string) : M string :=
  f ← get_fs;
  '(name, f') ← lift (FS.mkstemp f dir);
  put_fs f';; ret name.

Definition write (name : string) (chunk : string) : M unit :=
  f ← get_fs; put_fs (FS.append f (FS.of_string name) chunk).

Fixpoint write_all (name : string) (chunks : list string) : M unit :=
  match chunks with
  | [] => ret tt
  | chunk :: rest => write name chunk;; write_all name rest
  end.

Section Inherited.
Context `{Lib} {S : Type} `{HTTPResolver S}.

Definition is_resolvable (self : S) (ident : string) : M bool :=
  let me := base self in
  let ident := Urllib.unquote ident in
  let rejected :=
    match SimpleHTTPResolver.ident_regex me with
    | Some rx => negb (String.eqb rx "") && negb (re_match rx ident)
    | None => false
    end in
  if rejected then ret false
  else
    let fp := join (SimpleHTTPResolver.cache_root me)
                   (SimpleHTTPResolver._cache_subroot ident) in
    e ← exists_ fp;
    if (e : bool) then ret true
    else
      '(url, options) ← web_request_url self ident;
      if SimpleHTTPResolver.head_resolvable me then
        response ← requests HEAD url options;
        if ok response then ret true else ret false
      else
        response ← requests GET url options;
        if ok response then ret true else ret false.

Definition source_not_found_public (ident : string) (code : N) : string :=
  "Source image not found for identifier: " +:+ ident
    +:+ ". Status code returned: " +:+ Py.str_of_N code.

Definition source_not_found_log (source_url ident : string) (code : N) : string :=
  "Source image not found at " +:+ source_url +:+ " for identifier: "
    +:+ ident +:+ ". Status code returned: " +:+ Py.str_of_N code.

(** [copy_to_cache] up to the end of the [with tempfile...] block: the
    source URL, the canonical name and the name of the temporary file
    that holds the body.  [ident] is already decoded here. *)
Definition download (self : S) (ident : string) : M (string * string * string) :=
  let me := base self in
  let cache_dir := SimpleHTTPResolver.cache_dir_path me ident in
  SimpleHTTPResolver._create_cache_dir cache_dir;;
  '(source_url, options) ← web_request_url self ident;
  response ← requests GET source_url options;
  if negb (ok response) then
    let public_message := source_not_found_public ident (status_code response) in
    let log_message :=
      source_not_found_log (default "None" source_url) ident (status_code response) in
    logger WARN log_message;;
    raise (ResolverException 404 public_message)
  else
    extension ← SimpleHTTPResolver.cache_file_extension me ident response;
    let local_fp := join cache_dir ("loris_cache." +:+ extension) in
    tmp_file ← NamedTemporaryFile cache_dir;
    write_all tmp_file (iter_content 2048 (content response));;
    ret (default "None" source_url, local_fp, tmp_file).

(** The rest of [copy_to_cache], given what [exists(local_fp)] found. *)
Definition publish (source_url local_fp tmp_file : string) (found : bool) : M unit :=
  if found then
    logger INFO ("another process downloaded src image " +:+ local_fp);;
    fs_update (fun f => FS.remove f tmp_file)
  else
    fs_update (fun f => FS.rename f tmp_file local_fp);;
    logger INFO ("Copied " +:+ source_url +:+ " to " +:+ local_fp).

Definition copy_to_cache (self : S) (ident : string) : M string :=
  let ident := Urllib.unquote ident in
  '(source_url, local_fp, tmp_file) ← download self ident;
  found ← exists_ local_fp;
  publish source_url local_fp tmp_file found;;
  ret local_fp.

Definition resolve (self : S) (ident : string) : M (string * string) :=
  let me := base self in
  cached ← SimpleHTTPResolver.cached_file_for_ident me ident;
  cached_file_path ←
    match cached with
    | Some p => if String.eqb p "" then copy_to_cache self ident else ret p
    | None => copy_to_cache self ident
    end;
  format_ ← lift (SimpleHTTPResolver.get_format me cached_file_path None);
  ret (cached_file_path, format_).

End Inherited.

(** ** [TemplateHTTPResolver] *)

Module TemplateHTTPResolver.

Record t : Type := Mk {
  super : SimpleHTTPResolver.t;
  templates : gmap string value
}.

(** The loop over [templates.split(',')].  [self.config.get(name, None)]
    reads the whole mapping: a listed name that is the key of a setting is
    registered with that setting's value. *)
Fixpoint load_templates (config : Config) (names : list string)
    (acc : gmap string value) : M (gmap string value) :=
  match names with
  | [] => ret acc
  | name :: rest =>
      let name := Py.strip name in
      match config_get config name with
      | None =>
          logger WARN ("No configuration specified for resolver template " +:+ name);;
          load_templates config rest acc
      | Some cfg => load_templates config rest (<[name := cfg]> acc)
      end
  end.

(** The first component is the caller's mapping after the call: it is
    written to before anything can fail. *)
Definition __init__ `{Lib} (config : Config) : Config * M t :=
  let config := set_uri_resolvable true config in
  (config,
   self ← SimpleHTTPResolver.__init__ config;
   let templates := default "" (cfg_templates (SimpleHTTPResolver.config self)) in
   (if String.eqb templates "" then logger WARN "No templates specified in configuration"
    else ret tt);;
   loaded ← load_templates (SimpleHTTPResolver.config self) (Py.split "," templates) ∅;
   logger DEBUG ("TemplateHTTPResolver templates: " +:+ str_of_dict loaded);;
   ret (Mk self loaded)).

(** [self.templates[prefix]['url']]: a sub-section is asked for its
    [url]; a string or a boolean cannot be indexed by a name. *)
Definition template_url (v : value) : result string :=
  match v with
  | VSection conf =>
      match t_url conf with
      | Some u => Ok u
      | None => Raise (KeyError "url")
      end
  | VStr _ => Raise (TypeError "string indices must be integers, not str")
  | VBool _ => Raise (TypeError "'bool' object has no attribute '__getitem__'")
  end.

Definition _web_request_url `{Lib} (self : t) (ident : string)
  : M (option string * RequestOptions) :=
  if negb (Py.contains ":" ident) then ret (None, no_options)
  else
    match Py.split_once ":" ident with
    | None => ret (None, no_options)
    | Some (prefix, ident) =>
        url ←
          match cfg_delimiter (SimpleHTTPResolver.config (super self)) with
          | Some delimiter =>
              ident_components ← lift (Py.split_str delimiter ident);
              match templates self !! prefix with
              | Some conf =>
                  pattern ← lift (template_url conf);
                  u ← lift (percent_format pattern ident_components);
                  ret (Some u)
              | None => ret None
              end
          | None =>
              match templates self !! prefix with
              | Some conf =>
                  pattern ← lift (template_url conf);
                  u ← lift (percent_format pattern [ident]);
                  ret (Some u)
              | None => ret None
              end
          end;
        match url, templates self !! prefix with
        | Some u, Some (VSection conf) =>
            let options := SimpleHTTPResolver.request_options (super self) in
            let options :=
              match t_cert conf, t_key conf with
              | Some c, Some k => MkOptions (Some (c, k)) (opt_auth options) (opt_verify options)
              | _, _ => options
              end in
            let options :=
              match t_user conf, t_pw conf with
              | Some u', Some p => MkOptions (opt_cert options) (Some (u', p)) (opt_verify options)
              | _, _ => options
              end in
            let options :=
              match t_ssl_check conf with
              | Some v => MkOptions (opt_cert options) (opt_auth options) (Some v)
              | None => options
              end in
            ret (Some u, options)
        | Some u, Some (VStr _) =>
            (* not reached: a URL was built, so ['url'] did not raise *)
            raise (TypeError "string indices must be integers, not str")
        | Some u, Some (VBool _) =>
            (* not reached, for the same reason *)
            raise (TypeError "argument of type 'bool' is not iterable")
        | _, _ => ret (None, no_options)
        end
    end.

End TemplateHTTPResolver.

#[global] Instance TemplateHTTPResolver_dispatch `{Lib}
  : HTTPResolver TemplateHTTPResolver.t :=
  MkHTTPResolver TemplateHTTPResolver.t TemplateHTTPResolver.super
    TemplateHTTPResolver._web_request_url.

(** ** [SourceImageCachingResolver] *)

Module SourceImageCachingResolver.

Record t : Type := Mk {
  config : Config;
  cache_root : string;
  source_root : string
}.

Definition __init__ (config : Config) : M t :=
  match cfg_cache_root config with
  | None => raise (KeyError "cache_root")
  | Some cache_root =>
      match cfg_source_root config with
      | None => raise (KeyError "source_root")
      | Some source_root => ret (Mk config cache_root source_root)
      end
  end.

Definition source_file_path (self : t) (ident : string) : string :=
  let ident := Urllib.unquote ident in
  join (source_root self) ident.

Definition cache_file_path (self : t) (ident : string) : string :=
  let ident := Urllib.unquote ident in
  join (cache_root self) ident.

Definition is_resolvable (self : t) (ident : string) : M bool :=
  exists_ (source_file_path self ident).

Definition in_cache (self : t) (ident : string) : M bool :=
  exists_ (cache_file_path self ident).

(** [os.path.dirname] *)
Definition dirname (p : string) : string := fst (Glob.path_split p).

Definition copy_to_cache (self : t) (ident : string) : M unit :=
  let source_fp := source_file_path self ident in
  let cache_fp := cache_file_path self ident in
  fs_update (fun f => FS.makedirs f (dirname cache_fp));;
  fs_update (fun f => FS.copy f source_fp cache_fp);;
  logger INFO ("Copied " +:+ source_fp +:+ " to " +:+ cache_fp).

Definition raise_404_for_ident {A} (self : t) (ident : string) : M A :=
  let source_fp := source_file_path self ident in
  let public_message := "Source image not found for identifier: " +:+ ident +:+ "." in
  let log_message := "Source image not found at " +:+ source_fp
                       +:+ " for identifier: " +:+ ident +:+ "." in
  logger WARN log_message;;
  raise (ResolverException 404 public_message).

Definition resolve (self : t) (ident : string) : M (string * string) :=
  resolvable ← is_resolvable self ident;
  (if (resolvable : bool) then ret tt else raise_404_for_ident self ident);;
  cached ← in_cache self ident;
  (if (cached : bool) then ret tt else copy_to_cache self ident);;
  let cache_fp := cache_file_path self ident in
  logger DEBUG ("Image Served from local cache: " +:+ cache_fp);;
  format_ ← lift (format_from_ident ident);
  ret (cache_fp, format_).

End SourceImageCachingResolver.

(** ** Concurrent populators

    [copy_to_cache] touches the shared disk three times: the download
    into a private temporary file, the test [exists(local_fp)], and the
    removal or rename that the test selected.  Other processes may run
    between any two of them. *)

Inductive populator : Type :=
| Called (ident : string)
| Downloaded (source_url local_fp tmp_file : string)
| Checked (source_url local_fp tmp_file : string) (found : bool)
| Returned (local_fp : string)
| Raised (e : exn).

Section Interleaving.
Context `{Lib} {S : Type} `{HTTPResolver S}.

Definition catch (m : M populator) : M populator :=
  fun w => match m w with
           | (Raise e, w') => (Ok (Raised e), w')
           | r => r
           end.

Definition step (self : S) (p : populator) : M populator :=
  match p with
  | Called ident =>
      catch ('(source_url, local_fp, tmp_file) ← download self (Urllib.unquote ident);
             ret (Downloaded source_url local_fp tmp_file))
  | Downloaded source_url local_fp tmp_file =>
      found ← exists_ local_fp;
      ret (Checked source_url local_fp tmp_file found)
  | Checked source_url local_fp tmp_file found =>
      catch (publish source_url local_fp tmp_file found;;
             ret (Returned local_fp))
  | Returned _ | Raised _ => ret p
  end.

(** One process takes one step. *)
Definition schedule_step (self : S) (ps : list populator) (i : nat)
  : M (list populator) :=
  match ps !! i with
  | Some p => p' ← step self p; ret (<[i := p']> ps)
  | None => ret ps
  end.

Fixpoint run (self : S) (ps : list populator) (schedule : list nat)
  : M (list populator) :=
  match schedule with
  | [] => ret ps
  | i :: rest => ps' ← schedule_step self ps i; run self ps' rest
  end.

End Interleaving.

(** ** The specification's own words

    Section 4.2, [fromIdentifier]: the substring after the last dot, and
    the fixed table. *)

Module Spec.

Fixpoint after_last (c : ascii) (s : string) : option string :=
  match s with
  | EmptyString => None
  | String d s' =>
      match after_last c s' with
      | Some t => Some t
      | None => if Ascii.eqb d c then Some s' else None
      end
  end.

Definition extension_table (e : string) : string :=
  if String.eqb e "tiff" then "tif"
  else if String.eqb e "jpeg" then "jpg"
  else e.

Definition fromIdentifier (ident : string) : result string :=
  match after_last "." ident with
  | Some ext =>
      if (String.length ext <? 5)%nat then Ok (extension_table (Py.lower ext))
      else Raise (format_undetermined ident)
  | None => Raise (format_undetermined ident)
  end.

(** Section 4.1 step 4: the digest cut after two characters and then
    every three. *)
Definition hash_pieces (h : string) : list string :=
  Py.slice 0 2 h
    :: map (fun i => Py.slice i (i + 3) h) [2; 5; 8; 11; 14; 17; 20; 23; 26; 29].

(** [u] occurs in [m]. *)
Definition occurs_in (u m : string) : Prop :=
  exists l r, m = l +:+ u +:+ r.



End Spec.

(** ** The URL [_web_request_url] builds *)

Definition request_url (self : SimpleHTTPResolver.t) (ident : string) : string :=
  if SimpleHTTPResolver.is_http ident && SimpleHTTPResolver.uri_resolvable self
  then ident
  else SimpleHTTPResolver.source_prefix self +:+ ident
         +:+ SimpleHTTPResolver.source_suffix self.

(** ** Sample resolvers and worlds *)

Definition ftp_resolver : SimpleHTTPResolver.t :=
  SimpleHTTPResolver.Mk empty_config "ftp://images.example.org/" "" None
    false false None None None None true None "/cache".

Definition empty_world : World :=
  MkWorld FS.empty (fun _ _ => MkResponse 200 ∅ "") [] [].


Definition mounted_resolver : SourceImageCachingResolver.t :=
  SourceImageCachingResolver.Mk empty_config "/cache" "/src".

(** The cache root is there, and so is the source image. *)
Definition mounted_world : World :=
  MkWorld (FS.Mk {[ ["cache"]; ["src"] ]} {[ ["src"; "a.jpg"] := "image bytes" ]})
    (fun _ _ => MkResponse 200 ∅ "") [] [].

(** ** Identifiers the templated strategy cannot route *)

Definition unroutable (self : TemplateHTTPResolver.t) (ident : string) : Prop :=
  Py.contains ":" ident = false \/
  exists prefix rest,
    Py.split_once ":" ident = Some (prefix, rest) /\
    TemplateHTTPResolver.templates self !! prefix = None /\
    cfg_delimiter (SimpleHTTPResolver.config (TemplateHTTPResolver.super self))
    <> Some "".

Definition is_resolver_exception (e : exn) : bool :=
  match e with ResolverException _ _ => true | _ => false end.

Definition missing_schema : exn :=
  MissingSchema "Invalid URL 'None': No schema supplied. Perhaps you meant http://None?".

(** A library instance for the examples: no media types known, every
    pattern matches, [%] substitutes nothing. *)
Definition sample_lib : Lib :=
  MkLib ∅ (fun _ _ => true) (fun pattern _ => Ok pattern) (fun _ => "{...}").

Definition site1 : TemplateConf :=
  MkTemplateConf (Some "http://ex.org/%s") None None None None None.

Definition template_resolver : TemplateHTTPResolver.t :=
  TemplateHTTPResolver.Mk
    (SimpleHTTPResolver.Mk (set_uri_resolvable true empty_config) "" "" None
       false true None None None None true None "/cache")
    {[ "site1" := VSection site1 ]}.

(** Only the cache root exists; every request is answered 200 with the
    same body. *)
Definition fresh_cache : World :=
  MkWorld (FS.Mk {[ ["cache"] ]} ∅) (fun _ _ => MkResponse 200 ∅ "image bytes") [] [].

(** ** Path components without a slash *)

Definition no_slash (s : string) : Prop := Py.contains "/" s = false.

(** A component [join] simply appends after a slash. *)
Definition plain (p : string) : Prop := p <> "" /\ no_slash p.

(** ** Counting a character *)

Fixpoint count_char (c : ascii) (s : string) : nat :=
  match s with
  | EmptyString => 0
  | String d s' => (if Ascii.eqb d c then 1 else 0) + count_char c s'
  end.

(** ** More sample resolvers and worlds *)

(** [uri_resolvable] set, no prefix: identifiers may be whole URLs. *)
Definition uri_resolver : SimpleHTTPResolver.t :=
  SimpleHTTPResolver.Mk (set_uri_resolvable true empty_config) "" "" None
    false true None None None None true None "/cache".

(** The usual set-up: a source prefix, nothing else. *)
Definition prefix_resolver : SimpleHTTPResolver.t :=
  SimpleHTTPResolver.Mk empty_config "http://src/" "" None
    false false None None None None true None "/cache".

(** Only the cache root exists; the origin answers 404 to everything. *)
Definition not_found_world : World :=
  MkWorld (FS.Mk {[ ["cache"] ]} ∅) (fun _ _ => MkResponse 404 ∅ "") [] [].

(** Only the cache root exists; the origin answers 200, and the body it
    sends changes after the first request. *)
Definition changing_origin : World :=
  MkWorld (FS.Mk {[ ["cache"] ]} ∅)
    (fun n _ => MkResponse 200 ∅ (match n with 0 => "first" | _ => "second" end))
    [] [].

(** The canonical cache file of ["img.jpg"] under [/cache]. *)
Definition img_cache_file : string :=
  "/cache/82/341/a6c/6f0/3e3/af2/61a/95b/a81/050/c0a/loris_cache.jpg".

(** Two processes populate the cache for the same identifier. *)
Definition two_populators : list populator := [Called "img.jpg"; Called "img.jpg"].

(** Both download and test before either publishes. *)
Definition racing_schedule : list nat := [0; 0; 1; 1; 0; 1].

(** ** Computations that send nothing *)

Definition net_unchanged {A} (m : M A) : Prop :=
  forall w, sent (snd (m w)) = sent w.

(** A library instance that knows two media types. *)
Definition media_lib : Lib :=
  MkLib {[ "image/jpeg" := "jpg"; "image/png" := "png" ]}
    (fun _ _ => true) (fun pattern _ => Ok pattern) (fun _ => "{...}").

(** Only the cache root exists; the origin labels its first answer
    [image/jpeg] and the later ones [image/png]. *)
Definition relabelling_origin : World :=
  MkWorld (FS.Mk {[ ["cache"] ]} ∅)
    (fun n _ =>
       MkResponse 200
         {[ "content-type" := match n with 0 => "image/jpeg" | _ => "image/png" end ]}
         "image bytes")
    [] [].

(** A configuration with a cache root and nothing else. *)
Definition only_cache_root : Config :=
  MkConfig (Some "/cache") None None None None None None None None None None
    None None None None ∅.

(** ** Computations that leave the disk, or at least its files, alone *)

Definition fs_unchanged {A} (m : M A) : Prop :=
  forall w, fs (snd (m w)) = fs w.

(** ** [SimpleFSResolver] *)

Module SimpleFSResolver.

(** The two keys this class reads from the configuration mapping. *)
Record FSConfig : Type := MkFSConfig {
  cfg_src_img_roots : option (list string);
  cfg_src_img_root : option string
}.

Record t : Type := Mk {
  config : FSConfig;
  source_roots : list string
}.

Definition __init__ (config : FSConfig) : M t :=
  match cfg_src_img_roots config with
  | Some roots => ret (Mk config roots)
  | None =>
      match cfg_src_img_root config with
      | Some root => ret (Mk config [root])
      | None => raise (KeyError "src_img_root")
      end
  end.

Definition not_found_message (ident : string) : string :=
  "Source image not found for identifier: " +:+ ident +:+ ".".

Definition raise_404_for_ident {A} (ident : string) : M A :=
  let message := not_found_message ident in
  logger WARN message;;
  raise (ResolverException 404 message).

(** The loop over [self.source_roots]; falling off its end is [None]. *)
Fixpoint first_existing (roots : list string) (ident : string) : M (option string) :=
  match roots with
  | [] => ret None
  | directory :: rest =>
      let fp := join directory ident in
      e ← exists_ fp;
      if (e : bool) then ret (Some fp) else first_existing rest ident
  end.

Definition source_file_path (self : t) (ident : string) : M (option string) :=
  let ident := Urllib.unquote ident in
  first_existing (source_roots self) ident.

Definition is_resolvable (self : t) (ident : string) : M bool :=
  found ← source_file_path self ident;
  ret (match found with Some _ => true | None => false end).

(** ['%s' % (x,)] for a string or [None]. *)
Definition str_of_option (x : option string) : string := default "None" x.

Definition resolve (self : t) (ident : string) : M (option string * string) :=
  resolvable ← is_resolvable self ident;
  (if (resolvable : bool) then ret tt else raise_404_for_ident ident);;
  source_fp ← source_file_path self ident;
  logger DEBUG ("src image: " +:+ str_of_option source_fp);;
  format_ ← lift (format_from_ident ident);
  ret (source_fp, format_).

End SimpleFSResolver.

(** Two roots; the image is under the second only, and a file outside
    both exists as well. *)
Definition two_roots : SimpleFSResolver.t :=
  SimpleFSResolver.Mk (SimpleFSResolver.MkFSConfig (Some ["/a"; "/b"]) None) ["/a"; "/b"].

Definition two_roots_world : World :=
  MkWorld (FS.Mk {[ ["a"]; ["b"]; ["etc"] ]}
             {[ ["b"; "img.jpg"] := "image bytes"; ["etc"; "secret.jpg"] := "secret" ]})
    (fun _ _ => MkResponse 200 ∅ "") [] [].

(** ** The templated strategy on identifiers it can route *)

(** What is substituted into the URL pattern: the part after the first
    colon as one value, or cut at the configured delimiter. *)
Definition template_arguments (delimiter : option string) (rest : string) : list string :=
  match delimiter with
  | Some d => Py.split_str_acc d 0 "" rest
  | None => [rest]
  end.

(** A [%] that knows one conversion: the first [%s] takes the first
    argument. *)
Fixpoint substitute_first (pattern arg : string) : string :=
  match pattern with
  | String "%" (String "s" rest) => arg +:+ rest
  | String c rest => String c (substitute_first rest arg)
  | EmptyString => EmptyString
  end.

Definition substituting_lib : Lib :=
  MkLib ∅ (fun _ _ => true)
    (fun pattern args =>
       match args with
       | [arg] => Ok (substitute_first pattern arg)
       | _ => Raise (TypeError "not all arguments converted during string formatting")
       end)
    (fun _ => "{...}").

(** A template that brings its own credentials and switches certificate
    checking off, on a resolver with global credentials. *)
Definition site2 : TemplateConf :=
  MkTemplateConf (Some "http://ex.org/%s") (Some "tu") (Some "tp") None None (Some false).

Definition credentialed_template_resolver : TemplateHTTPResolver.t :=
  TemplateHTTPResolver.Mk
    (SimpleHTTPResolver.Mk (set_uri_resolvable true empty_config) "" "" None
       false true (Some "gu") (Some "gp") (Some "gc") (Some "gk") true None "/cache")
    {[ "site1" := VSection site1; "site2" := VSection site2 ]}.

(** A template whose pattern is the bare conversion: the part of the
    identifier after the colon is the URL. *)
Definition echo_site : TemplateConf :=
  MkTemplateConf (Some "%s") None None None None None.

Definition echo_resolver : TemplateHTTPResolver.t :=
  TemplateHTTPResolver.Mk
    (SimpleHTTPResolver.Mk (set_uri_resolvable true empty_config) "" "" None
       false true None None None None true None "/cache")
    {[ "site1" := VSection echo_site ]}.


(** A configuration that lists four names: two have a sub-section, one
    has nothing, and one is the key of a setting.  There is also a
    sub-section for a template that is not listed. *)
Definition listed_names : Config :=
  MkConfig (Some "/cache") None None None None None None None None None None
    None None (Some "site1, ghost ,site2,cache_root") None
    {[ "site1" := VSection site1; "site2" := VSection site2;
       "unlisted" := VSection site1 ]}.

(** ** Reading [quote_plus] backwards, one character at a time *)

(** What [quote_plus] makes of a single character. *)
Definition quote_plus_char (c : ascii) : string :=
  if Ascii.eqb c " " then "+" else Urllib.quoter "" c.

(** The character the front of an encoded string stands for, and what
    follows it. *)
Definition unquote_plus_front (s : string) : option (ascii * string) :=
  match s with
  | EmptyString => None
  | String "%" (String a (String b rest)) =>
      match Urllib.hexval a, Urllib.hexval b with
      | Some x, Some y => Some (ascii_of_N (16 * x + y), rest)
      | _, _ => None
      end
  | String "+" rest => Some (" "%char, rest)
  | String c rest => Some (c, rest)
  end.

(** The cache root is there and the source image lies in a directory
    that the cache does not have yet. *)
Definition nested_source_world : World :=
  MkWorld (FS.Mk {[ ["cache"]; ["src"]; ["src"; "d"] ]}
             {[ ["src"; "d"; "a.jpg"] := "image bytes" ]})
    (fun _ _ => MkResponse 200 ∅ "") [] [].
(** * Properties *)

(** ** Test vectors for the library models *)

Example md5_empty : MD5.hexdigest "" = "d41d8cd98f00b204e9800998ecf8427e".
Proof. vm_compute. reflexivity. Qed.

Example md5_abc : MD5.hexdigest "abc" = "900150983cd24fb0d6963f7d28e17f72".
Proof. vm_compute. reflexivity. Qed.

Example md5_two_blocks :
  MD5.hexdigest
    "12345678901234567890123456789012345678901234567890123456789012345678901234567890"
  = "57edf4a22be3c955ac49da2e2107b67a".
Proof. vm_compute. reflexivity. Qed.

Example fnmatch_cache_file : Glob.fnmatch "loris_cache.jpg" "loris_cache.*" = true.
Proof. reflexivity. Qed.

Example fnmatch_class : Glob.fnmatch "a[b]" "a[b]" = false.
Proof. reflexivity. Qed.

Example path_split_ex : Glob.path_split "/cache/ab/loris_cache.*" = ("/cache/ab", "loris_cache.*").
Proof. reflexivity. Qed.

Example unquote_once : Urllib.unquote "img%2541.jpg" = "img%41.jpg".
Proof. reflexivity. Qed.

Example unquote_twice : Urllib.unquote (Urllib.unquote "img%2541.jpg") = "imgA.jpg".
Proof. reflexivity. Qed.

Example unquote_malformed : Urllib.unquote "abc%zz%4" = "abc%zz%4".
Proof. reflexivity. Qed.

Example quote_plus_sample : Urllib.quote_plus "a b:c/d.jpg" = "a+b%3Ac%2Fd.jpg".
Proof. reflexivity. Qed.

Example join_absolute : join "/cache" "/etc" = "/etc".
Proof. reflexivity. Qed.

Example join_trailing_slash : join "/cache/" "ab" = "/cache/ab".
Proof. reflexivity. Qed.

(** ** Strings *)

Lemma app_cons (c : ascii) (s t : string) : String c s +:+ t = String c (s +:+ t).
Proof. reflexivity. Qed.

Lemma app_nil_r_s (s : string) : s +:+ "" = s.
Proof. induction s as [|c s IH]; [reflexivity|]. rewrite app_cons, IH. reflexivity. Qed.

Lemma app_assoc_s (s t u : string) : (s +:+ t) +:+ u = s +:+ (t +:+ u).
Proof.
  induction s as [|c s IH]; [reflexivity|].
  rewrite !app_cons, IH. reflexivity.
Qed.

Lemma length_app_s (s t : string) :
  String.length (s +:+ t) = String.length s + String.length t.
Proof.
  induction s as [|c s IH]; [reflexivity|].
  rewrite app_cons. simpl. rewrite IH. reflexivity.
Qed.

(** ** [format_from_ident] *)

Lemma rfind_from_spec (c : ascii) (s : string) :
  forall i best,
    (Py.contains c s = false -> Py.rfind_from c i best s = best) /\
    (Py.contains c s = true -> (i <= Py.rfind_from c i best s)%Z).
Proof.
  induction s as [|d s IH]; intros i best; simpl.
  - split; [reflexivity | discriminate].
  - destruct (Ascii.eqb d c) eqn:E.
    + split; [discriminate|]. intros _.
      destruct (Py.contains c s) eqn:Hc.
      * pose proof (proj2 (IH (i + 1)%Z i) eq_refl). lia.
      * rewrite (proj1 (IH (i + 1)%Z i) eq_refl). lia.
    + split; intros Hc.
      * apply (proj1 (IH (i + 1)%Z best) Hc).
      * pose proof (proj2 (IH (i + 1)%Z best) Hc). lia.
Qed.

Lemma rfind_contains (c : ascii) (s : string) :
  (Py.rfind c s =? -1)%Z = negb (Py.contains c s).
Proof.
  unfold Py.rfind. destruct (Py.contains c s) eqn:Hc; simpl.
  - pose proof (proj2 (rfind_from_spec c s 0 (-1)) Hc). apply Z.eqb_neq. lia.
  - rewrite (proj1 (rfind_from_spec c s 0 (-1)) Hc). reflexivity.
Qed.

Lemma after_last_contains (c : ascii) (s : string) :
  Spec.after_last c s = None <-> Py.contains c s = false.
Proof.
  induction s as [|d s IH]; simpl; [tauto|].
  destruct (Spec.after_last c s) as [t|].
  - destruct (Ascii.eqb d c); split; try discriminate.
    intros Hc. apply IH in Hc. discriminate.
  - destruct (Ascii.eqb d c); split; try discriminate; try tauto.
Qed.

Lemma split_acc_nonempty (c : ascii) (s : string) :
  forall acc, Py.split_acc c acc s <> [].
Proof.
  induction s as [|d s IH]; intros acc; simpl; [discriminate|].
  destruct (Ascii.eqb d c); [discriminate | apply IH].
Qed.

Lemma last_cons_nonempty {A} (x d : A) (l : list A) :
  l <> [] -> List.last (x :: l) d = List.last l d.
Proof. destruct l; [congruence | reflexivity]. Qed.

Lemma last_split_acc (c : ascii) (s : string) :
  forall acc,
    Py.last_piece (Py.split_acc c acc s)
    = match Spec.after_last c s with
      | Some t => t
      | None => acc +:+ s
      end.
Proof.
  unfold Py.last_piece.
  induction s as [|d s IH]; intros acc; cbn [Py.split_acc Spec.after_last].
  - rewrite app_nil_r_s. reflexivity.
  - destruct (Ascii.eqb d c) eqn:E.
    + rewrite last_cons_nonempty by apply split_acc_nonempty.
      rewrite IH.
      destruct (Spec.after_last c s); reflexivity.
    + rewrite IH. destruct (Spec.after_last c s); [reflexivity|].
      rewrite app_assoc_s. reflexivity.
Qed.

Lemma extension_map_table (e : string) :
  default e (EXTENSION_MAP !! e) = Spec.extension_table e.
Proof.
  unfold EXTENSION_MAP, Spec.extension_table. simpl.
  destruct (String.eqb_spec e "tiff") as [->|Ht].
  - reflexivity.
  - destruct (String.eqb_spec e "jpeg") as [->|Hj].
    + reflexivity.
    + rewrite lookup_insert_ne by congruence.
      rewrite lookup_insert_ne by congruence.
      reflexivity.
Qed.

Lemma format_from_ident_refines (ident : string) :
  format_from_ident ident = Spec.fromIdentifier ident.
Proof.
  unfold format_from_ident, Spec.fromIdentifier, Py.split.
  rewrite rfind_contains, negb_involutive, last_split_acc.
  destruct (Py.contains "." ident) eqn:Hc.
  - destruct (Spec.after_last "." ident) as [ext|] eqn:Ha.
    + destruct (String.length ext <? 5)%nat; [|reflexivity].
      rewrite extension_map_table. reflexivity.
    + apply after_last_contains in Ha. congruence.
  - apply after_last_contains in Hc. rewrite Hc. reflexivity.
Qed.

(** [Spec.after_last] is what its name says: the part after a separator
    that does not occur again. *)
Lemma after_last_app (c : ascii) (t : string) :
  Py.contains c t = false ->
  forall p, Spec.after_last c (p +:+ String c t) = Some t.
Proof.
  intros Ht. induction p as [|d p IH].
  - change ("" +:+ String c t) with (String c t). cbn [Spec.after_last].
    apply after_last_contains in Ht. rewrite Ht, Ascii.eqb_refl. reflexivity.
  - rewrite app_cons. cbn [Spec.after_last]. rewrite IH. reflexivity.
Qed.

(** C7: [format_from_ident] takes what follows the last dot; an extension
    shorter than five characters is lower-cased and sent through the table
    ([tiff] to [tif], [jpeg] to [jpg], anything else unchanged); no dot or
    a longer extension raises the 404 exception.  In particular
    ["img.tiff"] gives ["tif"], ["img.JPEG"] gives ["jpg"] and ["noext"]
    fails. *)
Theorem format_from_ident_by_extension :
  (forall ident, format_from_ident ident = Spec.fromIdentifier ident) /\
  format_from_ident "img.tiff" = Ok "tif" /\
  format_from_ident "img.JPEG" = Ok "jpg" /\
  format_from_ident "noext"
  = Raise (ResolverException 404 "Format could not be determined for: noext.").
Proof.
  split; [exact format_from_ident_refines|].
  repeat split; vm_compute; reflexivity.
Qed.

(** C9: an identifier that ends in a dot has the empty string as its
    format; [format_from_ident] raises only when there is no dot at all or
    when five or more characters follow the last one, and what it raises
    is then the 404 exception. *)
Theorem format_from_ident_empty_extension :
  (forall s, format_from_ident (s +:+ ".") = Ok "") /\
  (forall ident,
      (exists e, format_from_ident ident = Raise e) <->
      (Py.contains "." ident = false \/
       exists ext, Spec.after_last "." ident = Some ext /\ 5 <= String.length ext)) /\
  (forall ident e,
      format_from_ident ident = Raise e -> e = format_undetermined ident).
Proof.
  split; [|split].
  - intros s. rewrite format_from_ident_refines. unfold Spec.fromIdentifier.
    rewrite (after_last_app "." "" eq_refl s). reflexivity.
  - intros ident. rewrite format_from_ident_refines. unfold Spec.fromIdentifier.
    destruct (Spec.after_last "." ident) as [ext|] eqn:Ha.
    + destruct (String.length ext <? 5)%nat eqn:Hl.
      * split.
        -- intros [e He]. discriminate.
        -- intros [Hc | (ext' & Hext & Hlen)].
           ++ apply after_last_contains in Hc. congruence.
           ++ injection Hext as <-. apply Nat.ltb_lt in Hl. lia.
      * split; [|eauto]. intros _. right. exists ext. split; [reflexivity|].
        apply Nat.ltb_ge in Hl. exact Hl.
    + split; [|eauto]. intros _. left. apply after_last_contains. exact Ha.
  - intros ident e. rewrite format_from_ident_refines. unfold Spec.fromIdentifier.
    destruct (Spec.after_last "." ident) as [ext|];
      [destruct (String.length ext <? 5)%nat|]; congruence.
Qed.

(** ** Running computations *)

Ltac unfold_m :=
  unfold fs_update, exists_, name_lookup, logger in *;
  unfold mbind, M_bind, bind, ret, raise, lift, get_fs, put_fs in *;
  cbv beta in *.

Lemma bind_ok {A B} (m : M A) (k : A -> M B) (w w' : World) (a : A) :
  m w = (Ok a, w') -> (m ≫= k) w = k a w'.
Proof. intros Hm. unfold mbind, M_bind, bind. rewrite Hm. reflexivity. Qed.

Lemma bind_raise {A B} (m : M A) (k : A -> M B) (w w' : World) (e : exn) :
  m w = (Raise e, w') -> (m ≫= k) w = (Raise e, w').
Proof. intros Hm. unfold mbind, M_bind, bind. rewrite Hm. reflexivity. Qed.

(** ** Construction of a [TemplateHTTPResolver] *)

Lemma load_templates_total (config : Config) (names : list string) :
  forall acc w, exists loaded w',
    TemplateHTTPResolver.load_templates config names acc w = (Ok loaded, w').
Proof.
  induction names as [|name rest IH]; intros acc w; simpl.
  - eexists _, _. reflexivity.
  - destruct (config_get config (Py.strip name)) as [cfg|].
    + apply IH.
    + unfold_m. apply IH.
Qed.

(** C10: constructing a [TemplateHTTPResolver] writes [uri_resolvable =
    True] into the caller's mapping before anything else, also when the
    construction then fails; the base constructor therefore never raises
    its second configuration error, and the only exception construction
    can raise is the 500 for a missing [cache_root]. *)
Theorem template_init_sets_uri_resolvable `{Lib} (config : Config) (w : World) :
  let config' := fst (TemplateHTTPResolver.__init__ config) in
  let outcome := fst (snd (TemplateHTTPResolver.__init__ config) w) in
  config' = set_uri_resolvable true config /\
  cfg_uri_resolvable config' = Some true /\
  match cfg_cache_root config with
  | None =>
      outcome = Raise (ResolverException 500 SimpleHTTPResolver.missing_cache_root)
  | Some root =>
      exists self,
        outcome = Ok self /\
        SimpleHTTPResolver.uri_resolvable (TemplateHTTPResolver.super self) = true /\
        SimpleHTTPResolver.cache_root (TemplateHTTPResolver.super self) = root /\
        SimpleHTTPResolver.config (TemplateHTTPResolver.super self) = config'
  end.
Proof.
  cbn zeta. split; [reflexivity|]. split; [reflexivity|].
  unfold TemplateHTTPResolver.__init__. cbn [fst snd].
  destruct (cfg_cache_root config) as [root|] eqn:Hroot.
  - set (config' := set_uri_resolvable true config).
    set (self := SimpleHTTPResolver.Mk config'
                   (default "" (cfg_source_prefix config'))
                   (default "" (cfg_source_suffix config'))
                   (cfg_default_format config')
                   (default false (cfg_head_resolvable config'))
                   true (cfg_user config') (cfg_pw config') (cfg_cert config')
                   (cfg_key config') (default true (cfg_ssl_check config'))
                   (cfg_ident_regex config') root).
    assert (Hinit : SimpleHTTPResolver.__init__ config' w = (Ok self, w)).
    { unfold SimpleHTTPResolver.__init__. subst config'. cbn. rewrite Hroot.
      reflexivity. }
    rewrite (bind_ok _ _ _ _ _ Hinit).
    set (tpl := default "" (cfg_templates (SimpleHTTPResolver.config self))).
    assert (Hwarn : exists w1,
      (if String.eqb tpl "" then logger WARN "No templates specified in configuration"
       else ret tt) w = (Ok tt, w1)).
    { destruct (String.eqb tpl ""); eexists; reflexivity. }
    destruct Hwarn as [w1 Hwarn]. rewrite (bind_ok _ _ _ _ _ Hwarn).
    destruct (load_templates_total (SimpleHTTPResolver.config self)
                (Py.split "," tpl) ∅ w1) as (loaded & w2 & Hload).
    rewrite (bind_ok _ _ _ _ _ Hload).
    exists (TemplateHTTPResolver.Mk self loaded).
    repeat split.
  - unfold SimpleHTTPResolver.__init__. cbn. rewrite Hroot. reflexivity.
Qed.

(** ** [SimpleHTTPResolver._web_request_url] *)

Lemma web_request_url_good (self : SimpleHTTPResolver.t) (ident : string) (w : World) :
  SimpleHTTPResolver.is_http (request_url self ident) = true ->
  SimpleHTTPResolver._web_request_url self ident w
  = (Ok (Some (request_url self ident), SimpleHTTPResolver.request_options self), w).
Proof.
  intros Hurl. unfold SimpleHTTPResolver._web_request_url.
  fold (request_url self ident). rewrite Hurl. reflexivity.
Qed.

Lemma web_request_url_bad (self : SimpleHTTPResolver.t) (ident : string) (w : World) :
  SimpleHTTPResolver.is_http (request_url self ident) = false ->
  SimpleHTTPResolver._web_request_url self ident w
  = (Raise (NameError "global name 'source_url' is not defined"), w).
Proof.
  intros Hurl. unfold SimpleHTTPResolver._web_request_url.
  fold (request_url self ident). rewrite Hurl. cbn [negb].
  unfold SimpleHTTPResolver.web_request_scope.
  assert (Hlook : ({[ "ident" := ident; "url" := request_url self ident ]}
                     : gmap string string) !! "source_url" = None).
  { rewrite lookup_insert_ne by discriminate.
    rewrite lookup_singleton_ne by discriminate. reflexivity. }
  unfold mbind, M_bind, bind, name_lookup. rewrite Hlook. reflexivity.
Qed.

(** C4 (what the code does): when the URL it has built does not start
    with [http://] or [https://], [_web_request_url] raises a [NameError]
    for [source_url], a name its warning reads and nothing binds.  The 404
    exception two lines below is never reached, whatever the identifier,
    and nothing is logged. *)
Theorem web_request_url_bad_url_name_error
    (self : SimpleHTTPResolver.t) (ident : string) (w : World) :
  SimpleHTTPResolver.is_http (request_url self ident) = false ->
  fst (SimpleHTTPResolver._web_request_url self ident w)
  = Raise (NameError "global name 'source_url' is not defined") /\
  fst (SimpleHTTPResolver._web_request_url self ident w)
  <> Raise (ResolverException 404 (SimpleHTTPResolver.bad_url_message ident)) /\
  snd (SimpleHTTPResolver._web_request_url self ident w) = w.
Proof.
  intros Hurl. rewrite (web_request_url_bad self ident w Hurl).
  repeat split. discriminate.
Qed.

Lemma web_request_url_bad_url_witness :
  SimpleHTTPResolver.is_http (request_url ftp_resolver "a.jpg") = false /\
  fst (SimpleHTTPResolver._web_request_url ftp_resolver "a.jpg" empty_world)
  = Raise (NameError "global name 'source_url' is not defined").
Proof.
  split; [reflexivity|].
  apply (web_request_url_bad_url_name_error ftp_resolver "a.jpg" empty_world).
  reflexivity.
Defined.

(** ** Creating the cache directory *)

Lemma mkdir_existing (f : FS.t) (p : FS.path) :
  FS.lexists f p = true -> FS.mkdir f p = Raise (OSError FS.EEXIST (FS.show p)).
Proof. intros Hp. unfold FS.mkdir. rewrite Hp. reflexivity. Qed.

Lemma makedirs_existing (f : FS.t) (p : FS.path) :
  FS.lexists f p = true ->
  FS.lexists f (FS.parent p) = true ->
  FS.makedirs_rev f (rev p) = Raise (OSError FS.EEXIST (FS.show p)).
Proof.
  intros Hp Hparent.
  destruct (rev p) as [|x rhead] eqn:Hrev.
  - apply (f_equal (@rev string)) in Hrev. rewrite rev_involutive in Hrev.
    subst p. simpl. apply mkdir_existing. exact Hp.
  - assert (Hp' : p = (rev rhead ++ [x])%list).
    { rewrite <- (rev_involutive p), Hrev. reflexivity. }
    cbn [FS.makedirs_rev].
    assert (Hhead : FS.parent p = rev rhead).
    { unfold FS.parent. rewrite Hp'. apply removelast_last. }
    rewrite <- Hhead, Hparent. cbn [negb].
    change (rev (x :: rhead)) with (rev rhead ++ [x])%list. rewrite <- Hp'.
    apply mkdir_existing. exact Hp.
Qed.

(** The HTTP strategy forgives [EEXIST]: an existing cache directory is
    left as it is and the call returns. *)
Lemma create_cache_dir_existing (cache_dir : string) (w : World) :
  cache_dir <> "" ->
  FS.lexists (fs w) (FS.of_string cache_dir) = true ->
  FS.lexists (fs w) (FS.parent (FS.of_string cache_dir)) = true ->
  SimpleHTTPResolver._create_cache_dir cache_dir w = (Ok tt, w).
Proof.
  intros Hne Hd Hp. unfold SimpleHTTPResolver._create_cache_dir.
  unfold_m. unfold FS.makedirs.
  destruct (String.eqb_spec cache_dir ""); [congruence|].
  rewrite (makedirs_existing _ _ Hd Hp). reflexivity.
Qed.

(** Whatever the disk looks like, [_create_cache_dir] does not let an
    [EEXIST] through. *)
Lemma create_cache_dir_never_eexist (cache_dir : string) (w : World) (f : string) :
  fst (SimpleHTTPResolver._create_cache_dir cache_dir w)
  <> Raise (OSError FS.EEXIST f).
Proof.
  unfold SimpleHTTPResolver._create_cache_dir. unfold_m.
  destruct (FS.makedirs (fs w) cache_dir) as [f'|e]; cbn; [discriminate|].
  destruct e as [| |errno f0| | | |]; cbn; try discriminate.
  destruct (errno =? FS.EEXIST)%N eqn:E; cbn; [discriminate|].
  intros Heq. injection Heq as -> _. discriminate.
Qed.

(** C6 (what the code does for the mounted-source strategy): when the
    directory that is to hold the cached copy is already there,
    [SourceImageCachingResolver.copy_to_cache] raises [OSError] with
    [EEXIST] out of its unguarded [makedirs], copies nothing and leaves the
    world as it was.  (When the cache path has no directory part at all,
    [makedirs] is handed the empty name and the [OSError] is [ENOENT].) *)
Theorem mounted_copy_to_cache_existing_dir
    (self : SourceImageCachingResolver.t) (ident : string) (w : World) :
  let name := SourceImageCachingResolver.dirname
                (SourceImageCachingResolver.cache_file_path self ident) in
  let dir := FS.of_string name in
  FS.lexists (fs w) dir = true ->
  FS.lexists (fs w) (FS.parent dir) = true ->
  SourceImageCachingResolver.copy_to_cache self ident w
  = (Raise (if String.eqb name "" then OSError FS.ENOENT ""
            else OSError FS.EEXIST (FS.show dir)), w).
Proof.
  intros name dir Hd Hp. unfold SourceImageCachingResolver.copy_to_cache.
  unfold_m. unfold FS.makedirs. fold name.
  destruct (String.eqb_spec name "") as [->|Hname]; [reflexivity|].
  fold dir. rewrite (makedirs_existing _ _ Hd Hp). reflexivity.
Qed.

Lemma mounted_copy_to_cache_existing_dir_witness :
  SourceImageCachingResolver.copy_to_cache mounted_resolver "a.jpg" mounted_world
  = (Raise (OSError FS.EEXIST "/cache"), mounted_world).
Proof.
  apply (mounted_copy_to_cache_existing_dir mounted_resolver "a.jpg" mounted_world);
    vm_compute; reflexivity.
Defined.

Lemma mkdir_raises_oserror (f : FS.t) (p : FS.path) (e : exn) :
  FS.mkdir f p = Raise e -> exists errno fn, e = OSError errno fn.
Proof.
  unfold FS.mkdir.
  destruct (FS.lexists f p); [intros [= <-]; eauto|].
  destruct (FS.is_file f (FS.parent p)); [intros [= <-]; eauto|].
  destruct (negb (FS.is_dir f (FS.parent p))); [intros [= <-]; eauto|].
  discriminate.
Qed.

Lemma makedirs_raises_oserror (rp : list string) :
  forall (f : FS.t) (e : exn),
    FS.makedirs_rev f rp = Raise e -> exists errno fn, e = OSError errno fn.
Proof.
  induction rp as [|x rhead IH]; intros f e; cbn [FS.makedirs_rev].
  - apply mkdir_raises_oserror.
  - destruct (negb (FS.lexists f (rev rhead))); [|apply mkdir_raises_oserror].
    destruct (FS.makedirs_rev f rhead) as [f'|e'] eqn:Hrec;
      [apply mkdir_raises_oserror|].
    destruct (IH _ _ Hrec) as (errno & fn & ->).
    destruct (errno =? FS.EEXIST)%N; [apply mkdir_raises_oserror|].
    intros [= <-]. eauto.
Qed.

Lemma create_cache_dir_cases (cache_dir : string) (w : World) :
  exists w',
    SimpleHTTPResolver._create_cache_dir cache_dir w = (Ok tt, w') \/
    exists errno fn,
      SimpleHTTPResolver._create_cache_dir cache_dir w = (Raise (OSError errno fn), w').
Proof.
  unfold SimpleHTTPResolver._create_cache_dir. unfold_m. unfold FS.makedirs.
  destruct (String.eqb cache_dir "");
    [eexists; right; eexists _, _; reflexivity|].
  destruct (FS.makedirs_rev (fs w) (rev (FS.of_string cache_dir))) as [f'|e] eqn:Hm.
  - eexists. left. reflexivity.
  - destruct (makedirs_raises_oserror _ _ _ Hm) as (errno & fn & ->).
    destruct (errno =? FS.EEXIST)%N; eexists; [left | right; eexists _, _]; reflexivity.
Qed.

(** ** [TemplateHTTPResolver._web_request_url] *)

Section Template.
Context `{Lib}.

(** The quiet half: no colon, or a prefix that names no template, gives
    no URL and the empty options, and changes nothing. *)
Lemma template_web_request_url_none
    (self : TemplateHTTPResolver.t) (ident : string) (w : World) :
  unroutable self ident ->
  TemplateHTTPResolver._web_request_url self ident w = (Ok (None, no_options), w).
Proof.
  intros Hun. unfold TemplateHTTPResolver._web_request_url.
  destruct (Py.contains ":" ident) eqn:Hc; cbn [negb]; [|reflexivity].
  destruct Hun as [Hno | (prefix & rest & Hsplit & Htpl & Hdelim)]; [congruence|].
  rewrite Hsplit.
  destruct (cfg_delimiter _) as [delimiter|].
  - destruct delimiter as [|c d]; [congruence|].
    unfold_m. cbn [Py.split_str]. rewrite Htpl. reflexivity.
  - unfold_m. rewrite Htpl. reflexivity.
Qed.

(** C5 (what the code does): for an identifier the templated strategy
    cannot route, [_web_request_url] does return no URL, but neither caller
    looks at it.  [is_resolvable] hands [None] to the HTTP client, which
    raises [MissingSchema]; [resolve] first creates the cache directory and
    then fails the same way (or on the directory).  Neither outcome is the
    404 [ResolverException], and [is_resolvable] does not return [False]. *)
Theorem template_unroutable_not_quiet
    (self : TemplateHTTPResolver.t) (ident : string) (w : World) :
  unroutable self (Urllib.unquote ident) ->
  SimpleHTTPResolver.ident_regex (TemplateHTTPResolver.super self) = None ->
  FS.exists_ (fs w)
    (join (SimpleHTTPResolver.cache_root (TemplateHTTPResolver.super self))
          (SimpleHTTPResolver._cache_subroot (Urllib.unquote ident))) = false ->
  web_request_url self (Urllib.unquote ident) w = (Ok (None, no_options), w) /\
  is_resolvable self ident w = (Raise missing_schema, w) /\
  exists e, fst (resolve self ident w) = Raise e /\ is_resolver_exception e = false.
Proof.
  intros Hun Hrx Hmiss.
  assert (Hurl : forall w', web_request_url self (Urllib.unquote ident) w'
                            = (Ok (None, no_options), w')).
  { intros w'. apply template_web_request_url_none. exact Hun. }
  split; [apply Hurl|]. split.
  - unfold is_resolvable. cbn [base TemplateHTTPResolver_dispatch].
    rewrite Hrx.
    assert (He : exists_ (join (SimpleHTTPResolver.cache_root (TemplateHTTPResolver.super self))
                   (SimpleHTTPResolver._cache_subroot (Urllib.unquote ident))) w
                 = (Ok false, w)).
    { unfold_m. rewrite Hmiss. reflexivity. }
    rewrite (bind_ok _ _ _ _ _ He).
    rewrite (bind_ok _ _ _ _ _ (Hurl w)).
    destruct (SimpleHTTPResolver.head_resolvable (TemplateHTTPResolver.super self));
      reflexivity.
  - assert (Hc : SimpleHTTPResolver.cached_file_for_ident
                   (TemplateHTTPResolver.super self) ident w = (Ok None, w)).
    { unfold SimpleHTTPResolver.cached_file_for_ident, SimpleHTTPResolver.cache_dir_path.
      unfold_m. rewrite Hmiss. reflexivity. }
    unfold resolve, copy_to_cache, download.
    cbn [base TemplateHTTPResolver_dispatch].
    unfold mbind, M_bind, bind. rewrite Hc. cbv beta iota.
    destruct (create_cache_dir_cases
                (SimpleHTTPResolver.cache_dir_path (TemplateHTTPResolver.super self)
                   (Urllib.unquote ident)) w)
      as (w1 & [Hmk | (errno & fn & Hmk)]); rewrite Hmk; cbv beta iota.
    + exists missing_schema. split; [|reflexivity].
      rewrite (Hurl w1). reflexivity.
    + exists (OSError errno fn). split; reflexivity.
Qed.

End Template.

Lemma template_unroutable_not_quiet_witness :
  let dispatch := @TemplateHTTPResolver_dispatch sample_lib in
  @web_request_url _ dispatch template_resolver (Urllib.unquote "nosuch:42") fresh_cache
  = (Ok (None, no_options), fresh_cache) /\
  @is_resolvable sample_lib _ dispatch template_resolver "nosuch:42" fresh_cache
  = (Raise missing_schema, fresh_cache) /\
  exists e,
    fst (@resolve sample_lib _ dispatch template_resolver "nosuch:42" fresh_cache) = Raise e /\
    is_resolver_exception e = false.
Proof.
  apply (@template_unroutable_not_quiet sample_lib template_resolver "nosuch:42" fresh_cache).
  - right. exists "nosuch", "42". split; [reflexivity|]. split; [reflexivity|]. discriminate.
  - reflexivity.
  - vm_compute. reflexivity.
Defined.

(** ** [os.path.join] on plain components *)

Lemma startswith_slash_no_slash (b : string) :
  no_slash b -> Py.startswith "/" b = false.
Proof.
  unfold no_slash, Py.startswith. destruct b as [|c b]; [reflexivity|].
  cbn [String.prefix Py.contains].
  destruct (ascii_dec "/" c) as [<-|Hne]; [|reflexivity].
  rewrite Ascii.eqb_refl. discriminate.
Qed.

Lemma endswith_slash_no_slash (b : string) :
  no_slash b -> endswith_slash b = false.
Proof.
  unfold no_slash. induction b as [|c b IH]; [reflexivity|].
  cbn [Py.contains endswith_slash].
  destruct (Ascii.eqb c "/") eqn:E; [discriminate|].
  intros Hb. destruct b; [reflexivity | apply IH, Hb].
Qed.

Lemma endswith_slash_app (a b : string) :
  b <> "" -> endswith_slash (a +:+ b) = endswith_slash b.
Proof.
  intros Hb. induction a as [|c a IH]; [reflexivity|].
  rewrite app_cons. cbn [endswith_slash].
  destruct (a +:+ b) eqn:E; [|exact IH].
  destruct a; [change ("" +:+ b) with b in E; congruence | discriminate].
Qed.

Lemma startswith_slash_app (a b : string) :
  a <> "" -> Py.startswith "/" (a +:+ b) = Py.startswith "/" a.
Proof.
  destruct a as [|c a]; [congruence|]. intros _.
  rewrite app_cons. unfold Py.startswith. cbn [String.prefix].
  destruct (ascii_dec "/" c); [|reflexivity].
  destruct (a +:+ b); destruct a; reflexivity.
Qed.

Lemma join_plain (a b : string) :
  a <> "" -> endswith_slash a = false -> no_slash b ->
  join a b = a +:+ "/" +:+ b.
Proof.
  intros Ha Hend Hb. unfold join.
  rewrite (startswith_slash_no_slash b Hb), Hend.
  destruct (String.eqb_spec a ""); [congruence | reflexivity].
Qed.

Lemma join_empty_l (b : string) : no_slash b -> join "" b = b.
Proof.
  intros Hb. unfold join. rewrite (startswith_slash_no_slash b Hb). reflexivity.
Qed.

Lemma concat_cons_app (a p : string) (l : list string) :
  String.concat "/" ((a +:+ "/" +:+ p) :: l) = a +:+ "/" +:+ String.concat "/" (p :: l).
Proof.
  destruct l as [|q l]; cbn [String.concat]; [reflexivity|].
  rewrite !app_assoc_s. reflexivity.
Qed.

Lemma fold_join_from (l : list string) :
  forall acc,
    acc <> "" -> endswith_slash acc = false -> Forall plain l ->
    fold_left join l acc = String.concat "/" (acc :: l).
Proof.
  induction l as [|p l IH]; intros acc Hacc Hend Hall; [reflexivity|].
  apply Forall_cons_iff in Hall as [[Hp Hns] Hall].
  cbn [fold_left]. rewrite (join_plain acc p Hacc Hend Hns).
  rewrite IH; [apply concat_cons_app | | | exact Hall].
  - destruct acc; [congruence | discriminate].
  - rewrite endswith_slash_app by discriminate.
    rewrite endswith_slash_app by exact Hp.
    apply endswith_slash_no_slash, Hns.
Qed.

Lemma fold_join_plain (p : string) (l : list string) :
  Forall plain (p :: l) ->
  fold_left join (p :: l) "" = String.concat "/" (p :: l).
Proof.
  intros Hall. apply Forall_cons_iff in Hall as [[Hp Hns] Hall].
  cbn [fold_left]. rewrite (join_empty_l p Hns).
  apply fold_join_from; [exact Hp | apply endswith_slash_no_slash, Hns | exact Hall].
Qed.

(** ** The digest is 32 lower-case hex digits *)

Lemma hex_digit_not_slash (n : Z) : Ascii.eqb (MD5.hex_digit n) "/" = false.
Proof.
  unfold MD5.hex_digit.
  assert (Hm : (0 <= n mod 16 < 16)%Z) by (apply Z.mod_pos_bound; lia).
  set (m := (n mod 16)%Z) in *. clearbody m.
  assert (Hcases : (m = 0 \/ m = 1 \/ m = 2 \/ m = 3 \/ m = 4 \/ m = 5 \/ m = 6
                    \/ m = 7 \/ m = 8 \/ m = 9 \/ m = 10 \/ m = 11 \/ m = 12
                    \/ m = 13 \/ m = 14 \/ m = 15)%Z) by lia.
  repeat (destruct Hcases as [-> | Hcases]; [reflexivity|]).
  subst m. reflexivity.
Qed.

Lemma hex_word_length (w : Z) (rest : string) :
  String.length (MD5.hex_word w rest) = 8 + String.length rest.
Proof. reflexivity. Qed.

Lemma hex_word_no_slash (w : Z) (rest : string) :
  no_slash rest -> no_slash (MD5.hex_word w rest).
Proof.
  unfold no_slash, MD5.hex_word. intros Hrest.
  cbn [MD5.le_bytes fold_right MD5.hex_byte Py.contains].
  rewrite !hex_digit_not_slash. exact Hrest.
Qed.

Lemma hexdigest_length (s : string) : String.length (MD5.hexdigest s) = 32.
Proof.
  unfold MD5.hexdigest. destruct (MD5.digest s) as [a b c d].
  rewrite !hex_word_length. reflexivity.
Qed.

Lemma hexdigest_no_slash (s : string) : no_slash (MD5.hexdigest s).
Proof.
  unfold MD5.hexdigest. destruct (MD5.digest s) as [a b c d].
  repeat apply hex_word_no_slash. reflexivity.
Qed.

Lemma contains_substring (c : ascii) (s : string) :
  forall i n,
    Py.contains c s = false -> Py.contains c (String.substring i n s) = false.
Proof.
  induction s as [|d s IH]; intros i n Hs.
  - destruct i, n; reflexivity.
  - cbn [Py.contains] in Hs. destruct (Ascii.eqb d c) eqn:E; [discriminate|].
    destruct i as [|i].
    + destruct n as [|n]; [reflexivity|].
      cbn [String.substring Py.contains]. rewrite E. apply IH, Hs.
    + cbn [String.substring]. apply IH, Hs.
Qed.

Lemma length_substring (s : string) :
  forall i n,
    i + n <= String.length s -> String.length (String.substring i n s) = n.
Proof.
  induction s as [|d s IH]; intros i n Hlen; cbn [String.length] in Hlen.
  - assert (i = 0) by lia. assert (n = 0) by lia. subst. reflexivity.
  - destruct i as [|i].
    + destruct n as [|n]; [reflexivity|].
      cbn [String.substring String.length]. rewrite IH by lia. reflexivity.
    + cbn [String.substring]. apply IH. lia.
Qed.

Lemma substring_split (s : string) :
  forall n m,
    String.substring 0 n s +:+ String.substring n m s = String.substring 0 (n + m) s.
Proof.
  induction s as [|d s IH]; intros n m.
  - destruct n, m; reflexivity.
  - destruct n as [|n].
    + reflexivity.
    + cbn [String.substring Nat.add]. rewrite app_cons, IH. reflexivity.
Qed.

Lemma substring_all (s : string) : String.substring 0 (String.length s) s = s.
Proof. induction s as [|d s IH]; [reflexivity|]. simpl. rewrite IH. reflexivity. Qed.

(** ** The sharded chain of the digest *)

Lemma range3_digest : SimpleHTTPResolver.range3 32 2 32 = [2; 5; 8; 11; 14; 17; 20; 23; 26; 29].
Proof. reflexivity. Qed.


Lemma hash_pieces_plain (h : string) :
  String.length h = 32 -> no_slash h -> Forall plain (Spec.hash_pieces h).
Proof.
  intros Hlen Hns.
  assert (Hpiece : forall i n, 0 < n -> i + n <= 32 -> plain (String.substring i n h)).
  { intros i n Hn Hin. split.
    - intros Hempty.
      pose proof (length_substring h i n ltac:(lia)) as Hl.
      rewrite Hempty in Hl. simpl in Hl. lia.
    - apply contains_substring, Hns. }
  unfold Spec.hash_pieces, Py.slice. cbn [map Nat.add Nat.sub].
  repeat (apply Forall_cons_2; [apply Hpiece; lia|]).
  apply Forall_nil_2.
Qed.

Lemma ident_file_structure_chain (ident : string) :
  SimpleHTTPResolver._ident_file_structure ident
  = String.concat "/" (Spec.hash_pieces (MD5.hexdigest (Urllib.quote_plus ident))).
Proof.
  unfold SimpleHTTPResolver._ident_file_structure.
  set (h := MD5.hexdigest (Urllib.quote_plus ident)).
  assert (Hlen : String.length h = 32) by apply hexdigest_length.
  rewrite Hlen, range3_digest.
  change (Py.slice 0 2 h :: map (fun i => Py.slice i (i + 3) h)
            [2; 5; 8; 11; 14; 17; 20; 23; 26; 29])
    with (Spec.hash_pieces h).
  apply (fold_join_plain (Py.slice 0 2 h)).
  apply hash_pieces_plain; [exact Hlen | apply hexdigest_no_slash].
Qed.

Lemma chain_plain_start (h : string) :
  String.length h = 32 -> no_slash h ->
  Py.startswith "/" (String.concat "/" (Spec.hash_pieces h)) = false.
Proof.
  intros Hlen Hns.
  pose proof (hash_pieces_plain h Hlen Hns) as Hall.
  unfold Spec.hash_pieces in *. cbn [map] in *.
  apply Forall_cons_iff in Hall as [[Hne Hp] _].
  cbn [String.concat]. rewrite startswith_slash_app by exact Hne.
  apply startswith_slash_no_slash, Hp.
Qed.

(** ** The cache directory *)

Lemma is_http_is_http_like (d : string) :
  SimpleHTTPResolver.is_http d = true -> SimpleHTTPResolver.is_http_like d = true.
Proof.
  unfold SimpleHTTPResolver.is_http, SimpleHTTPResolver.is_http_like, Py.startswith, Py.slice.
  intros Hd. apply orb_true_iff in Hd as [Hd | Hd].
  - do 7 (destruct d as [|? d]; [discriminate|];
          cbn [String.prefix] in Hd;
          destruct (ascii_dec _ _) as [<-|]; [|discriminate]).
    reflexivity.
  - do 8 (destruct d as [|? d]; [discriminate|];
          cbn [String.prefix] in Hd;
          destruct (ascii_dec _ _) as [<-|]; [|discriminate]).
    reflexivity.
Qed.

Lemma split_length_one (c : ascii) (s : string) :
  (1 <? length (Py.split c s))%nat = false -> removelast (Py.split c s) = [].
Proof.
  unfold Py.split. intros Hlen. apply Nat.ltb_ge in Hlen.
  pose proof (split_acc_nonempty c s "") as Hne.
  destruct (Py.split_acc c "" s) as [|x [|y l]]; [congruence | reflexivity |].
  simpl in Hlen. lia.
Qed.

Lemma cache_subroot_structure (d : string) :
  SimpleHTTPResolver._cache_subroot d
  = join (if SimpleHTTPResolver.is_http_like d then "http"
          else fold_left join (removelast (Py.split ":" d)) "")
         (String.concat "/" (Spec.hash_pieces (MD5.hexdigest (Urllib.quote_plus d)))).
Proof.
  unfold SimpleHTTPResolver._cache_subroot. rewrite ident_file_structure_chain.
  f_equal. unfold SimpleHTTPResolver.is_http_like.
  destruct (String.eqb (Py.slice 0 6 d) "http:/"); [reflexivity|].
  destruct (String.eqb (Py.slice 0 7 d) "https:/"); [reflexivity|].
  cbn [negb andb orb].
  destruct (1 <? length (Py.split ":" d))%nat eqn:Hlen; [reflexivity|].
  rewrite (split_length_one _ _ Hlen). reflexivity.
Qed.

(** [os.path.join] with a second part that is not absolute *)














Example cache_dir_path_pidspace :
  SimpleHTTPResolver.cache_dir_path ftp_resolver "fedora%3Apid:img.jpg"
  = "/cache/fedora/pid/" +:+ "24/b9c/7ec/6f8/fd0/821/930/e56/913/f38/29b".
Proof. vm_compute. reflexivity. Qed.

(** ** Occurrences of a string in another *)

Lemma count_char_app (c : ascii) (s t : string) :
  count_char c (s +:+ t) = count_char c s + count_char c t.
Proof.
  induction s as [|d s IH]; [reflexivity|].
  rewrite app_cons. cbn [count_char]. rewrite IH. lia.
Qed.

Lemma first_occurrence (c : ascii) (l1 : string) :
  forall l2 x y,
    count_char c l1 = 0 -> count_char c l2 = 0 ->
    l1 +:+ String c x = l2 +:+ String c y ->
    l1 = l2 /\ x = y.
Proof.
  induction l1 as [|a l1 IH]; intros [|b l2] x y H1 H2 Heq.
  - injection Heq as ->. split; reflexivity.
  - change ("" +:+ String c x) with (String c x) in Heq.
    rewrite app_cons in Heq. injection Heq as <- _.
    cbn [count_char] in H2. rewrite Ascii.eqb_refl in H2. lia.
  - change ("" +:+ String c y) with (String c y) in Heq.
    rewrite app_cons in Heq. injection Heq as -> _.
    cbn [count_char] in H1. rewrite Ascii.eqb_refl in H1. lia.
  - rewrite !app_cons in Heq. injection Heq as -> Heq.
    cbn [count_char] in H1, H2.
    destruct (IH l2 x y ltac:(lia) ltac:(lia) Heq) as [-> ->].
    split; reflexivity.
Qed.

Lemma count_char_uint (c : ascii) (u : Decimal.uint) :
  Ascii.is_nat c = None -> count_char c (NilEmpty.string_of_uint u) = 0.
Proof.
  intros Hc.
  assert (Hd : forall d : ascii, Ascii.is_nat d <> None -> Ascii.eqb d c = false).
  { intros d Hd. apply Ascii.eqb_neq. intros ->. congruence. }
  induction u; cbn [NilEmpty.string_of_uint count_char];
    try (rewrite Hd by discriminate); try rewrite IHu; reflexivity.
Qed.

Lemma prefix_through_dot (p : string) :
  forall d rest,
    String.prefix p (d +:+ String "." rest) = true ->
    String.prefix p d = false ->
    Py.contains "." p = true.
Proof.
  induction p as [|a p IH]; intros d rest Hfull Hd.
  - destruct d; discriminate.
  - destruct d as [|b d].
    + change ("" +:+ String "." rest) with (String "." rest) in Hfull.
      cbn [String.prefix] in Hfull.
      destruct (ascii_dec a ".") as [->|]; [reflexivity | discriminate].
    + rewrite app_cons in Hfull. cbn [String.prefix] in Hfull, Hd.
      destruct (ascii_dec a b) as [->|]; [|discriminate].
      cbn [Py.contains]. destruct (Ascii.eqb b "."); [reflexivity|].
      apply (IH d rest Hfull Hd).
Qed.

Lemma is_http_through_dot (d rest : string) :
  SimpleHTTPResolver.is_http (d +:+ String "." rest) = true ->
  SimpleHTTPResolver.is_http d = true.
Proof.
  unfold SimpleHTTPResolver.is_http, Py.startswith. intros Hfull.
  destruct (String.prefix "http://" d) eqn:H1; [reflexivity|].
  destruct (String.prefix "https://" d) eqn:H2; [reflexivity|].
  apply orb_true_iff in Hfull as [Hfull | Hfull].
  - pose proof (prefix_through_dot _ _ _ Hfull H1). discriminate.
  - pose proof (prefix_through_dot _ _ _ Hfull H2). discriminate.
Qed.

Lemma is_http_starts_with_h (u : string) :
  SimpleHTTPResolver.is_http u = true -> exists u', u = String "h" u'.
Proof.
  unfold SimpleHTTPResolver.is_http, Py.startswith. intros Hu.
  destruct u as [|c u]; [discriminate|].
  cbn [String.prefix] in Hu.
  destruct (ascii_dec "h" c) as [<-|]; [eauto | discriminate].
Qed.

Lemma app_inv_head_s (s t u : string) : s +:+ t = s +:+ u -> t = u.
Proof.
  induction s as [|c s IH]; [exact (fun H => H)|].
  rewrite !app_cons. intros [= Heq]. exact (IH Heq).
Qed.

(** Where a URL that starts with [h] can sit inside [head ++ d ++ tail]
    when neither [head] nor [tail] has an [h] and the URL is
    [prefix ++ d ++ suffix]: only on top of [d], with an empty prefix and
    a suffix that [tail] starts with. *)
Lemma url_inside_public_message (head prefix d suffix tail l r : string) :
  l +:+ (prefix +:+ d +:+ suffix) +:+ r = head +:+ d +:+ tail ->
  count_char "h" head = 0 ->
  count_char "h" tail = 0 ->
  (exists u', prefix +:+ d +:+ suffix = String "h" u') ->
  prefix = "" /\ exists r', tail = suffix +:+ r'.
Proof.
  intros Heq Hhead Htail [u' Hu].
  pose proof (f_equal (count_char "h") Heq) as Hcount.
  rewrite !count_char_app in Hcount.
  assert (Hp : prefix = "").
  { destruct prefix as [|a prefix]; [reflexivity|].
    rewrite app_cons in Hu. injection Hu as -> _.
    cbn [count_char] in Hcount. rewrite Ascii.eqb_refl in Hcount. lia. }
  subst prefix. split; [reflexivity|].
  change ("" +:+ d +:+ suffix) with (d +:+ suffix) in *.
  change (count_char "h" "") with 0 in Hcount.
  destruct d as [|a d].
  - change ("" +:+ suffix) with suffix in Hu. subst suffix.
    cbn [count_char] in Hcount. rewrite Ascii.eqb_refl in Hcount. lia.
  - rewrite app_cons in Hu. injection Hu as -> _.
    rewrite !app_cons in Heq.
    apply first_occurrence in Heq as [_ Heq]; [| lia | exact Hhead].
    rewrite app_assoc_s in Heq. apply app_inv_head_s in Heq.
    exists r. symmetry. exact Heq.
Qed.

Lemma public_tail_no_h (code : N) :
  count_char "h" (". Status code returned: " +:+ Py.str_of_N code) = 0.
Proof.
  rewrite count_char_app. unfold Py.str_of_N.
  rewrite count_char_uint by reflexivity. reflexivity.
Qed.

(** ** The public message of a failed download *)

Lemma public_message_url_only_verbatim
    (self : SimpleHTTPResolver.t) (d : string) (code : N) :
  SimpleHTTPResolver.uri_resolvable self = true
  \/ SimpleHTTPResolver.source_prefix self <> "" ->
  SimpleHTTPResolver.is_http (request_url self d) = true ->
  Spec.occurs_in (request_url self d) (source_not_found_public d code) ->
  SimpleHTTPResolver.is_http d && SimpleHTTPResolver.uri_resolvable self = true.
Proof.
  intros Hinv Hurl (l & r & Heq).
  unfold request_url in *.
  destruct (SimpleHTTPResolver.is_http d && SimpleHTTPResolver.uri_resolvable self)
    eqn:Hverbatim; [reflexivity|]. exfalso.
  unfold source_not_found_public in Heq. symmetry in Heq.
  apply url_inside_public_message in Heq as [Hprefix [r' Htail]];
    [| reflexivity | apply public_tail_no_h | apply is_http_starts_with_h, Hurl].
  destruct Hinv as [Huri | Hne]; [|congruence].
  rewrite Huri, andb_true_r in Hverbatim.
  rewrite Hprefix in Hurl. change ("" +:+ d +:+ ?s) with (d +:+ s) in Hurl.
  destruct (SimpleHTTPResolver.source_suffix self) as [|c suffix].
  - rewrite app_nil_r_s in Hurl. congruence.
  - rewrite !app_cons in Htail. injection Htail as <- _.
    apply is_http_through_dot in Hurl. congruence.
Qed.

Lemma occurs_in_middle (a u b : string) : Spec.occurs_in u (a +:+ u +:+ b).
Proof. exists a, b. reflexivity. Qed.

Lemma occurs_in_end (a u : string) : Spec.occurs_in u (a +:+ u).
Proof. exists a, "". rewrite app_nil_r_s. reflexivity. Qed.

Lemma occurs_in_inside (u d a b : string) :
  Spec.occurs_in u d -> Spec.occurs_in u (a +:+ d +:+ b).
Proof.
  intros (l & r & ->). exists (a +:+ l), (r +:+ b).
  rewrite !app_assoc_s. reflexivity.
Qed.

Lemma simple_web_request_url_ok (self : SimpleHTTPResolver.t) (d url : string)
    (options : RequestOptions) (w w' : World) :
  SimpleHTTPResolver._web_request_url self d w = (Ok (Some url, options), w') ->
  url = request_url self d /\ SimpleHTTPResolver.is_http url = true.
Proof.
  intros Hurl.
  destruct (SimpleHTTPResolver.is_http (request_url self d)) eqn:Hhttp.
  - rewrite (web_request_url_good self d w Hhttp) in Hurl.
    injection Hurl as <- _ _. split; [reflexivity | exact Hhttp].
  - rewrite (web_request_url_bad self d w Hhttp) in Hurl. discriminate.
Qed.

Section PublicMessage.
Context `{Lib} {S : Type} `{HTTPResolver S}.

(** C8 (amended): for either HTTP strategy, when the GET of
    [copy_to_cache] is answered with a non-success status, the call raises
    the 404 exception whose message is ["Source image not found for
    identifier: <id>. Status code returned: <code>"] for the decoded
    identifier [<id>]; the logger gets the same text with the source URL
    in it.  The public message is made of the identifier and the status
    code alone, so it shows the source URL whenever the identifier contains
    it.  With the plain strategy that is exactly when the identifier is
    the URL, used verbatim ([uri_resolvable] and an http(s) identifier);
    with the templated strategy it is the case whenever the URL the
    template builds is part of the identifier. *)
Theorem copy_to_cache_source_not_found
    (self : S) (ident url : string) (options : RequestOptions) (w w1 w2 : World) :
  let d := Urllib.unquote ident in
  let rq := MkRequest GET url options in
  let response := server w2 (length (sent w2)) rq in
  let code := status_code response in
  SimpleHTTPResolver._create_cache_dir (SimpleHTTPResolver.cache_dir_path (base self) d) w
  = (Ok tt, w1) ->
  web_request_url self d w1 = (Ok (Some url, options), w2) ->
  ok response = false ->
  copy_to_cache self ident w
  = (Raise (ResolverException 404 (source_not_found_public d code)),
     MkWorld (fs w2) (server w2) (rq :: sent w2)
       ((WARN, source_not_found_log url d code) :: logged w2)) /\
  Spec.occurs_in d (source_not_found_public d code) /\
  Spec.occurs_in (Py.str_of_N code) (source_not_found_public d code) /\
  Spec.occurs_in url (source_not_found_log url d code) /\
  (Spec.occurs_in url d -> Spec.occurs_in url (source_not_found_public d code)) /\
  (forall plain_self : SimpleHTTPResolver.t,
     SimpleHTTPResolver.uri_resolvable plain_self = true
     \/ SimpleHTTPResolver.source_prefix plain_self <> "" ->
     SimpleHTTPResolver._web_request_url plain_self d w1 = (Ok (Some url, options), w2) ->
     (Spec.occurs_in url (source_not_found_public d code) <->
      SimpleHTTPResolver.is_http d && SimpleHTTPResolver.uri_resolvable plain_self = true)).
Proof.
  intros d rq response code Hmk Hurl Hbad.
  split; [|split; [|split; [|split; [|split]]]].
  - unfold copy_to_cache, download. fold d.
    unfold mbind, M_bind, bind. rewrite Hmk. cbv beta iota.
    rewrite Hurl. cbv beta iota.
    unfold requests. fold rq response. rewrite Hbad. reflexivity.
  - apply occurs_in_middle.
  - unfold source_not_found_public.
    rewrite <- app_assoc_s, <- app_assoc_s. apply occurs_in_end.
  - apply occurs_in_middle.
  - apply occurs_in_inside.
  - intros plain_self Hinv Hplain.
    destruct (simple_web_request_url_ok _ _ _ _ _ _ Hplain) as [-> Hhttp].
    split.
    + apply public_message_url_only_verbatim; assumption.
    + intros Hverbatim. unfold request_url. rewrite Hverbatim.
      apply occurs_in_middle.
Qed.

End PublicMessage.

Lemma copy_to_cache_source_not_found_witness :
  let dispatch := @TemplateHTTPResolver_dispatch substituting_lib in
  let outcome := @copy_to_cache substituting_lib _ dispatch echo_resolver
                   "site1:http://x/a.jpg" not_found_world in
  fst outcome
  = Raise (ResolverException 404
             "Source image not found for identifier: site1:http://x/a.jpg. Status code returned: 404") /\
  logged (snd outcome)
  = [(WARN, "Source image not found at http://x/a.jpg for identifier: site1:http://x/a.jpg. Status code returned: 404")] /\
  Spec.occurs_in "http://x/a.jpg"
    "Source image not found for identifier: site1:http://x/a.jpg. Status code returned: 404".
Proof.
  intros dispatch outcome.
  destruct (@copy_to_cache_source_not_found substituting_lib _ dispatch echo_resolver
              "site1:http://x/a.jpg" "http://x/a.jpg" (MkOptions None None (Some true))
              not_found_world
              (snd (SimpleHTTPResolver._create_cache_dir
                      (SimpleHTTPResolver.cache_dir_path
                         (TemplateHTTPResolver.super echo_resolver) "site1:http://x/a.jpg")
                      not_found_world))
              (snd (SimpleHTTPResolver._create_cache_dir
                      (SimpleHTTPResolver.cache_dir_path
                         (TemplateHTTPResolver.super echo_resolver) "site1:http://x/a.jpg")
                      not_found_world)))
    as (Hrun & _ & _ & _ & Hshown & _).
  - vm_compute. reflexivity.
  - vm_compute. reflexivity.
  - reflexivity.
  - split; [|split].
    + unfold outcome. rewrite Hrun. reflexivity.
    + unfold outcome. rewrite Hrun. reflexivity.
    + apply Hshown. exists "site1:", "". reflexivity.
Defined.

(** C8 (as stated) fails when the identifier is the URL: the public
    message then shows the very URL the request went to. *)
Lemma public_message_shows_verbatim_url :
  let outcome := @copy_to_cache sample_lib _ _ uri_resolver
                   "http://images.example.org/a.jpg" not_found_world in
  fst outcome
  = Raise (ResolverException 404
             "Source image not found for identifier: http://images.example.org/a.jpg. Status code returned: 404") /\
  sent (snd outcome)
  = [MkRequest GET "http://images.example.org/a.jpg" (MkOptions None None (Some true))] /\
  Spec.occurs_in "http://images.example.org/a.jpg"
    "Source image not found for identifier: http://images.example.org/a.jpg. Status code returned: 404".
Proof.
  cbv zeta. split; [vm_compute; reflexivity|]. split; [vm_compute; reflexivity|].
  exists "Source image not found for identifier: ", ". Status code returned: 404".
  reflexivity.
Qed.

(** ** The three steps of [copy_to_cache] *)

Section Steps.
Context `{Lib} {S : Type} `{HTTPResolver S}.

Lemma run_single (self : S) (p : populator) (rest : list nat) (w : World) :
  run self [p] (0 :: rest) w
  = match step self p w with
    | (Ok p', w') => run self [p'] rest w'
    | (Raise e, w') => (Raise e, w')
    end.
Proof.
  cbn [run]. unfold schedule_step. cbn [lookup list_lookup].
  unfold mbind, M_bind, bind, ret.
  destruct (step self p w) as [[p'|e] w']; reflexivity.
Qed.

Lemma run_done (self : S) (ps : list populator) (w : World) :
  run self ps [] w = (Ok ps, w).
Proof. reflexivity. Qed.

(** Run alone, the three steps are [copy_to_cache]. *)
Lemma copy_to_cache_as_steps (self : S) (ident : string) (w : World) :
  run self [Called ident] [0; 0; 0] w
  = match copy_to_cache self ident w with
    | (Ok local_fp, w') => (Ok [Returned local_fp], w')
    | (Raise e, w') => (Ok [Raised e], w')
    end.
Proof.
  unfold copy_to_cache. rewrite run_single.
  cbn [step]. unfold catch, mbind, M_bind, bind, ret.
  destruct (download self (Urllib.unquote ident) w)
    as [[[[source_url local_fp] tmp_file]|e] w1].
  - rewrite run_single. cbn [step]. unfold mbind, M_bind, bind, ret.
    destruct (exists_ local_fp w1) as [[found|e] w2] eqn:Hex.
    + rewrite run_single. cbn [step]. unfold catch, mbind, M_bind, bind, ret.
      destruct (publish source_url local_fp tmp_file found w2) as [[[]|e] w3];
        reflexivity.
    + unfold exists_, mbind, M_bind, bind, get_fs, ret in Hex. discriminate.
  - rewrite !run_single. reflexivity.
Qed.

End Steps.

(** Without interference the protocol holds: a second [copy_to_cache]
    finds the canonical file, leaves it alone and removes its own
    temporary file. *)
Example copy_to_cache_twice_in_sequence :
  let w1 := snd (@copy_to_cache sample_lib _ _ prefix_resolver "img.jpg" changing_origin) in
  let w2 := snd (@copy_to_cache sample_lib _ _ prefix_resolver "img.jpg" w1) in
  FS.read (fs w1) img_cache_file = Some "first" /\
  fst (@copy_to_cache sample_lib _ _ prefix_resolver "img.jpg" w1) = Ok img_cache_file /\
  map_to_list (FS.files (fs w2)) = [(FS.of_string img_cache_file, "first")].
Proof. cbv zeta. repeat split; vm_compute; reflexivity. Qed.

(** C1 (what the code does under concurrent first access): two populators
    of one identifier both find the canonical file absent; the first
    renames its download into place, and the rename of the second then
    replaces that published file with another download. *)
Theorem concurrent_copy_to_cache_replaces_published_file :
  let run_for := fun schedule =>
    @run sample_lib _ _ prefix_resolver two_populators schedule changing_origin in
  fst (run_for (take 4 racing_schedule))
  = Ok [Checked "http://src/img.jpg" img_cache_file
          "/cache/82/341/a6c/6f0/3e3/af2/61a/95b/a81/050/c0a/tmp______" false;
        Checked "http://src/img.jpg" img_cache_file
          "/cache/82/341/a6c/6f0/3e3/af2/61a/95b/a81/050/c0a/tmp__________" false] /\
  FS.read (fs (snd (run_for (take 5 racing_schedule)))) img_cache_file = Some "first" /\
  fst (run_for racing_schedule) = Ok [Returned img_cache_file; Returned img_cache_file] /\
  FS.read (fs (snd (run_for racing_schedule))) img_cache_file = Some "second".
Proof. cbv zeta. repeat split; vm_compute; reflexivity. Qed.

(** ** Cache hits and misses of [resolve] *)

(** The identifier [img.jpg] behaves as described: one GET on the first
    call, none on the second. *)
Example resolve_twice_plain_identifier :
  let first := @resolve sample_lib _ _ prefix_resolver "img.jpg" fresh_cache in
  let second := @resolve sample_lib _ _ prefix_resolver "img.jpg" (snd first) in
  fst first = Ok (img_cache_file, "jpg") /\
  length (gets (snd first)) = 1 /\
  fst second = Ok (img_cache_file, "jpg") /\
  sent (snd second) = sent (snd first).
Proof. cbv zeta. repeat split; vm_compute; reflexivity. Qed.

(** C2 (what the code does for an identifier with an encoded percent
    sign): [resolve] looks for the cached file under the identifier
    decoded once, but [copy_to_cache] decodes it and then calls
    [cache_dir_path], which decodes again, and publishes under the
    identifier decoded twice.  The published file is never found: the next
    [resolve] of the same identifier misses and sends a second GET. *)
Theorem resolve_double_decoding_never_hits :
  let ident := "img%2541.jpg" in
  let published := "/cache/f2/be0/b88/516/166/80e/10d/8a2/31d/b20/86e/loris_cache.jpg" in
  let first := @resolve sample_lib _ _ prefix_resolver ident fresh_cache in
  let second := @resolve sample_lib _ _ prefix_resolver ident (snd first) in
  SimpleHTTPResolver.cache_dir_path prefix_resolver ident
  <> SimpleHTTPResolver.cache_dir_path prefix_resolver (Urllib.unquote ident) /\
  fst first = Ok (published, "jpg") /\
  length (gets (snd first)) = 1 /\
  FS.read (fs (snd first)) published = Some "image bytes" /\
  fst (SimpleHTTPResolver.cached_file_for_ident prefix_resolver ident (snd first)) = Ok None /\
  fst second = Ok (published, "jpg") /\
  length (gets (snd second)) = 2.
Proof.
  cbv zeta. split; [vm_compute; discriminate|].
  repeat split; vm_compute; reflexivity.
Qed.

(** ** What reaches the network *)

Create HintDb net.

Lemma net_unchanged_ret {A} (a : A) : net_unchanged (ret a).
Proof. intros w. reflexivity. Qed.

Lemma net_unchanged_mret {A} (a : A) : net_unchanged (mret a : M A).
Proof. intros w. reflexivity. Qed.

Lemma net_unchanged_raise {A} (e : exn) : net_unchanged (@raise A e).
Proof. intros w. reflexivity. Qed.

Lemma net_unchanged_lift {A} (r : result A) : net_unchanged (lift r).
Proof. intros w. reflexivity. Qed.

Lemma net_unchanged_logger (lvl : log_level) (msg : string) :
  net_unchanged (logger lvl msg).
Proof. intros w. reflexivity. Qed.

Lemma net_unchanged_get_fs : net_unchanged get_fs.
Proof. intros w. reflexivity. Qed.

Lemma net_unchanged_put_fs (f : FS.t) : net_unchanged (put_fs f).
Proof. intros w. reflexivity. Qed.

Lemma net_unchanged_bind {A B} (m : M A) (k : A -> M B) :
  net_unchanged m -> (forall a, net_unchanged (k a)) -> net_unchanged (m ≫= k).
Proof.
  intros Hm Hk w. unfold mbind, M_bind, bind.
  specialize (Hm w). destruct (m w) as [[a|e] w1]; cbn [snd] in *.
  - rewrite (Hk a w1). exact Hm.
  - exact Hm.
Qed.

#[local] Hint Resolve net_unchanged_ret net_unchanged_mret net_unchanged_raise
  net_unchanged_lift net_unchanged_logger net_unchanged_get_fs
  net_unchanged_put_fs : net.

Ltac net_step :=
  first
    [ apply net_unchanged_bind; [|intros ?]
    | progress auto with net
    | match goal with
      | |- net_unchanged (match ?x with _ => _ end) => destruct x
      | |- net_unchanged (if ?x then _ else _) => destruct x
      | |- net_unchanged (let '(_, _) := ?x in _) => destruct x
      end ].

Ltac net_solve := repeat net_step.

Lemma net_unchanged_fs_update (op : FS.t -> result FS.t) :
  net_unchanged (fs_update op).
Proof. unfold fs_update. net_solve. Qed.

Lemma net_unchanged_exists (p : string) : net_unchanged (exists_ p).
Proof. unfold exists_. net_solve. Qed.

Lemma net_unchanged_name_lookup (scope : gmap string string) (x : string) :
  net_unchanged (name_lookup scope x).
Proof. unfold name_lookup. net_solve. Qed.

#[local] Hint Resolve net_unchanged_fs_update net_unchanged_exists
  net_unchanged_name_lookup : net.

Lemma net_unchanged_tempfile (dir : string) : net_unchanged (NamedTemporaryFile dir).
Proof. unfold NamedTemporaryFile. net_solve. Qed.

Lemma net_unchanged_write_all (name : string) (chunks : list string) :
  net_unchanged (write_all name chunks).
Proof.
  induction chunks as [|chunk rest IH]; cbn [write_all]; [auto with net|].
  apply net_unchanged_bind; [|intros _; exact IH].
  unfold write. net_solve.
Qed.

Lemma net_unchanged_create_cache_dir (cache_dir : string) :
  net_unchanged (SimpleHTTPResolver._create_cache_dir cache_dir).
Proof.
  intros w. unfold SimpleHTTPResolver._create_cache_dir.
  pose proof (net_unchanged_fs_update (fun f => FS.makedirs f cache_dir) w) as Hfs.
  destruct (fs_update _ w) as [[[]|e] w1]; cbn [snd] in *; [exact Hfs|].
  destruct e; try exact Hfs.
  destruct (errno =? FS.EEXIST)%N; exact Hfs.
Qed.

Lemma net_unchanged_web_request_url (self : SimpleHTTPResolver.t) (ident : string) :
  net_unchanged (SimpleHTTPResolver._web_request_url self ident).
Proof. unfold SimpleHTTPResolver._web_request_url. net_solve. Qed.

Lemma net_unchanged_cached_file (self : SimpleHTTPResolver.t) (ident : string) :
  net_unchanged (SimpleHTTPResolver.cached_file_for_ident self ident).
Proof. unfold SimpleHTTPResolver.cached_file_for_ident. net_solve. Qed.

#[local] Hint Resolve net_unchanged_tempfile net_unchanged_write_all
  net_unchanged_create_cache_dir net_unchanged_web_request_url
  net_unchanged_cached_file : net.

Lemma net_unchanged_extension `{Lib} (self : SimpleHTTPResolver.t)
    (ident : string) (response : Response) :
  net_unchanged (SimpleHTTPResolver.cache_file_extension self ident response).
Proof. unfold SimpleHTTPResolver.cache_file_extension. net_solve. Qed.

Lemma net_unchanged_publish (source_url local_fp tmp_file : string) (found : bool) :
  net_unchanged (publish source_url local_fp tmp_file found).
Proof. unfold publish. net_solve. Qed.

#[local] Hint Resolve net_unchanged_extension net_unchanged_publish : net.

Lemma sent_after_bind {A B} (m : M A) (k : A -> M B) (w : World) :
  (forall a, net_unchanged (k a)) ->
  sent (snd ((m ≫= k) w)) = sent (snd (m w)) /\
  (is_ok (fst ((m ≫= k) w)) = true -> is_ok (fst (m w)) = true).
Proof.
  intros Hk. unfold mbind, M_bind, bind.
  destruct (m w) as [[a|e] w1]; cbn [fst snd is_ok].
  - split; [apply Hk | reflexivity].
  - split; [reflexivity | exact (fun H => H)].
Qed.

Section Requests.
Context `{Lib}.

(** [copy_to_cache] of the plain HTTP strategy sends one GET, to the URL
    built from the decoded identifier, or fails before sending anything. *)
Lemma download_sends (self : SimpleHTTPResolver.t) (d : string) (w : World) :
  let rq := MkRequest GET (request_url self d) (SimpleHTTPResolver.request_options self) in
  let r := download self d w in
  (sent (snd r) = sent w /\ is_ok (fst r) = false) \/ sent (snd r) = rq :: sent w.
Proof.
  cbv zeta. unfold download.
  cbn [base web_request_url SimpleHTTPResolver_dispatch].
  pose proof (net_unchanged_create_cache_dir
                (SimpleHTTPResolver.cache_dir_path self d) w) as Hsent.
  destruct (SimpleHTTPResolver._create_cache_dir
              (SimpleHTTPResolver.cache_dir_path self d) w) as [[[]|e] w1] eqn:Hmk;
    cbn [snd] in Hsent.
  - rewrite (bind_ok _ _ _ _ _ Hmk).
    destruct (SimpleHTTPResolver.is_http (request_url self d)) eqn:Hurl.
    + rewrite (bind_ok _ _ _ _ _ (web_request_url_good self d w1 Hurl)).
      right. rewrite <- Hsent.
      match goal with
      | |- sent (snd ((?m ≫= ?k) w1)) = _ =>
          destruct (sent_after_bind m k w1) as [-> _]; [|reflexivity]
      end.
      intros response. net_solve.
    + rewrite (bind_raise _ _ _ _ _ (web_request_url_bad self d w1 Hurl)).
      left. split; [exact Hsent | reflexivity].
  - rewrite (bind_raise _ _ _ _ _ Hmk). left. split; [exact Hsent | reflexivity].
Qed.

Lemma copy_to_cache_sends (self : SimpleHTTPResolver.t) (ident : string) (w : World) :
  let rq := MkRequest GET (request_url self (Urllib.unquote ident))
              (SimpleHTTPResolver.request_options self) in
  let r := copy_to_cache self ident w in
  (sent (snd r) = sent w /\ is_ok (fst r) = false) \/ sent (snd r) = rq :: sent w.
Proof.
  cbv zeta. unfold copy_to_cache.
  match goal with
  | |- context [(?m ≫= ?k) w] =>
      destruct (sent_after_bind m k w) as [Hsent Hok]
  end.
  { intros [[source_url local_fp] tmp_file]. net_solve. }
  rewrite Hsent.
  destruct (download_sends self (Urllib.unquote ident) w) as [[Hs Hfail] | Hs].
  - left. split; [exact Hs|].
    match goal with
    | |- is_ok ?x = false => destruct (is_ok x); [|reflexivity]
    end.
    rewrite Hok in Hfail by reflexivity. discriminate.
  - right. exact Hs.
Qed.

(** A cache hit returns the file found and leaves the world as it was:
    nothing is sent, nothing is written. *)
Lemma resolve_cache_hit (self : SimpleHTTPResolver.t) (ident p : string) (w : World) :
  SimpleHTTPResolver.cached_file_for_ident self ident w = (Ok (Some p), w) ->
  p <> "" ->
  resolve self ident w
  = (match SimpleHTTPResolver.get_format self p None with
     | Ok format_ => Ok (p, format_)
     | Raise e => Raise e
     end, w).
Proof.
  intros Hhit Hp. unfold resolve. cbn [base SimpleHTTPResolver_dispatch].
  rewrite (bind_ok _ _ _ _ _ Hhit).
  destruct (String.eqb_spec p ""); [congruence|].
  unfold mbind, M_bind, bind, ret, lift.
  destruct (SimpleHTTPResolver.get_format self p None); reflexivity.
Qed.

(** The look-up itself only reads. *)
Lemma cached_file_for_ident_reads (self : SimpleHTTPResolver.t) (ident : string) (w : World) :
  exists found, SimpleHTTPResolver.cached_file_for_ident self ident w = (Ok found, w).
Proof.
  unfold SimpleHTTPResolver.cached_file_for_ident. unfold_m.
  destruct (FS.exists_ (fs w) _); [|eauto].
  destruct (Glob.glob (fs w) _); eauto.
Qed.

(** A cache miss sends one GET or fails before sending; a successful
    [resolve] after a miss has sent exactly one. *)
Lemma resolve_cache_miss (self : SimpleHTTPResolver.t) (ident : string) (w : World) :
  SimpleHTTPResolver.cached_file_for_ident self ident w = (Ok None, w) ->
  let rq := MkRequest GET (request_url self (Urllib.unquote ident))
              (SimpleHTTPResolver.request_options self) in
  let r := resolve self ident w in
  (sent (snd r) = sent w /\ is_ok (fst r) = false) \/ sent (snd r) = rq :: sent w.
Proof.
  intros Hmiss. cbv zeta. unfold resolve. cbn [base SimpleHTTPResolver_dispatch].
  rewrite (bind_ok _ _ _ _ _ Hmiss).
  match goal with
  | |- context [(?m ≫= ?k) w] =>
      destruct (sent_after_bind m k w) as [Hsent Hok]
  end.
  { intros cached_file_path. net_solve. }
  rewrite Hsent.
  destruct (copy_to_cache_sends self ident w) as [[Hs Hfail] | Hs].
  - left. split; [exact Hs|].
    match goal with
    | |- is_ok ?x = false => destruct (is_ok x); [|reflexivity]
    end.
    rewrite Hok in Hfail by reflexivity. discriminate.
  - right. exact Hs.
Qed.

End Requests.

(** ** What [publish] does to the canonical file *)

(** When the test found the canonical file, it is left as it is. *)
Lemma publish_found_keeps (source_url local_fp tmp_file : string) (w : World) :
  FS.of_string tmp_file <> FS.of_string local_fp ->
  FS.read (fs (snd (publish source_url local_fp tmp_file true w))) local_fp
  = FS.read (fs w) local_fp.
Proof.
  intros Hne. unfold publish, FS.remove. unfold_m. cbn [fs snd].
  destruct (FS.is_file (fs w) (FS.of_string tmp_file)); cbn [fs snd].
  - unfold FS.read. cbn [FS.files]. apply lookup_delete_ne. exact Hne.
  - destruct (FS.is_dir (fs w) (FS.of_string tmp_file)); reflexivity.
Qed.

(** When the test did not find it, the rename puts the download there,
    whatever has appeared at that name since the test. *)
Lemma publish_not_found_replaces
    (source_url local_fp tmp_file body : string) (w : World) :
  FS.read (fs w) tmp_file = Some body ->
  FS.is_dir (fs w) (FS.of_string local_fp) = false ->
  FS.is_dir (fs w) (FS.parent (FS.of_string local_fp)) = true ->
  FS.read (fs (snd (publish source_url local_fp tmp_file false w))) local_fp
  = Some body.
Proof.
  intros Htmp Hfile Hparent. unfold publish, FS.rename. unfold_m.
  unfold FS.read in Htmp. rewrite Htmp, Hfile, Hparent. cbn.
  unfold FS.read. cbn [FS.files]. apply lookup_insert_eq.
Qed.

(** Two populators that both missed need not even race inside
    [copy_to_cache]: when the origin labels its two answers differently,
    the canonical names differ and both downloads are published. *)
Example two_labels_two_published_files :
  let w1 := snd (@copy_to_cache media_lib _ _ prefix_resolver "img" relabelling_origin) in
  let w2 := snd (@copy_to_cache media_lib _ _ prefix_resolver "img" w1) in
  (map_to_list (FS.files (fs w2))).*1
  = [FS.of_string "/cache/b7/98a/be6/e1b/131/8ee/36b/0dc/b3f/b9e/4d3/loris_cache.jpg";
      FS.of_string "/cache/b7/98a/be6/e1b/131/8ee/36b/0dc/b3f/b9e/4d3/loris_cache.png"].
Proof. cbv zeta. vm_compute. reflexivity. Qed.

(** The base constructor, by contrast with C10, does insist on
    [uri_resolvable] or [source_prefix]. *)
Example simple_init_requires_source :
  fst (SimpleHTTPResolver.__init__ only_cache_root empty_world)
  = Raise (ResolverException 500 SimpleHTTPResolver.missing_source) /\
  is_ok (fst (snd (@TemplateHTTPResolver.__init__ sample_lib only_cache_root) empty_world))
  = true.
Proof. split; vm_compute; reflexivity. Qed.

(** ** Streaming the body into the temporary file *)

Lemma concat_empty_cons (x : string) (l : list string) :
  String.concat "" (x :: l) = x +:+ String.concat "" l.
Proof.
  destruct l as [|y l]; cbn [String.concat]; [rewrite app_nil_r_s|]; reflexivity.
Qed.

Lemma substring_beyond (s : string) :
  forall m, String.length s <= m -> String.substring 0 m s = s.
Proof.
  induction s as [|c s IH]; intros m Hm.
  - destruct m; reflexivity.
  - destruct m as [|m]; cbn [String.length] in Hm; [lia|].
    cbn [String.substring]. rewrite IH by lia. reflexivity.
Qed.

Lemma length_substring_le (s : string) :
  forall i n, String.length (String.substring i n s) <= String.length s - i.
Proof.
  induction s as [|c s IH]; intros i n.
  - destruct i, n; cbn; lia.
  - destruct i as [|i].
    + destruct n as [|n]; cbn [String.substring String.length]; [lia|].
      specialize (IH 0 n). lia.
    + cbn [String.substring String.length]. specialize (IH i n). lia.
Qed.

(** The chunks of [iter_content], put together again, are the body. *)
Lemma iter_content_fuel_concat (n : nat) :
  0 < n ->
  forall fuel body,
    String.length body <= fuel ->
    String.concat "" (iter_content_fuel fuel n body) = body.
Proof.
  intros Hn. induction fuel as [|fuel IH]; intros body Hlen.
  - destruct body; [reflexivity | cbn in Hlen; lia].
  - destruct body as [|c body]; [reflexivity|].
    cbn [iter_content_fuel]. rewrite concat_empty_cons.
    set (s := String c body) in *.
    rewrite IH.
    + rewrite substring_split. apply substring_beyond. lia.
    + pose proof (length_substring_le s n (String.length s - n)).
      assert (0 < String.length s) by (subst s; cbn; lia). lia.
Qed.

Lemma iter_content_concat (n : nat) (body : string) :
  0 < n -> String.concat "" (iter_content n body) = body.
Proof. intros Hn. apply iter_content_fuel_concat; [exact Hn | lia]. Qed.

Lemma write_all_appends (name : string) (chunks : list string) :
  forall (w : World) (old : string),
    FS.read (fs w) name = Some old ->
    fst (write_all name chunks w) = Ok tt /\
    FS.read (fs (snd (write_all name chunks w))) name
    = Some (old +:+ String.concat "" chunks).
Proof.
  induction chunks as [|chunk rest IH]; intros w old Hold.
  - cbn. rewrite app_nil_r_s. split; [reflexivity | exact Hold].
  - cbn [write_all]. rewrite concat_empty_cons, <- app_assoc_s.
    unfold mbind, M_bind, bind, write, get_fs, put_fs. cbv beta iota.
    apply IH. unfold FS.read, FS.append in *. cbn [fs FS.files].
    rewrite lookup_alter_eq, Hold. reflexivity.
Qed.

(** ** String paths and their components *)

Lemma split_acc_app (c : ascii) (a b : string) :
  forall acc,
    Py.split_acc c acc (a +:+ String c b)
    = (Py.split_acc c acc a ++ Py.split_acc c "" b)%list.
Proof.
  induction a as [|d a IH]; intros acc.
  - change ("" +:+ String c b) with (String c b).
    cbn [Py.split_acc]. rewrite Ascii.eqb_refl. reflexivity.
  - rewrite app_cons. cbn [Py.split_acc].
    destruct (Ascii.eqb d c); rewrite IH; reflexivity.
Qed.

Lemma split_acc_no_sep (c : ascii) (s : string) :
  forall acc, Py.contains c s = false -> Py.split_acc c acc s = [acc +:+ s].
Proof.
  induction s as [|d s IH]; intros acc Hs.
  - rewrite app_nil_r_s. reflexivity.
  - cbn [Py.contains] in Hs. cbn [Py.split_acc].
    destruct (Ascii.eqb d c); [discriminate|].
    rewrite IH by exact Hs. rewrite app_assoc_s. reflexivity.
Qed.

Lemma endswith_slash_split (a : string) :
  endswith_slash a = true -> exists a', a = a' +:+ "/".
Proof.
  induction a as [|c a IH]; [discriminate|].
  cbn [endswith_slash]. destruct a as [|d a].
  - intros Hc. apply Ascii.eqb_eq in Hc as ->. exists "". reflexivity.
  - intros Ha. destruct (IH Ha) as [a' ->]. exists (String c a'). reflexivity.
Qed.

(** Joining a plain name onto a directory adds one component. *)
Lemma of_string_join (dir name : string) :
  no_slash name -> FS.keep_component name = true ->
  FS.of_string (join dir name) = (FS.of_string dir ++ [name])%list.
Proof.
  intros Hns Hkeep. unfold join.
  rewrite (startswith_slash_no_slash name Hns).
  assert (Hname : Py.split_acc "/" "" name = [name])
    by (apply split_acc_no_sep; exact Hns).
  destruct (String.eqb_spec dir "") as [->|Hdir]; cbn [orb].
  - unfold FS.of_string, Py.split.
    change ("" +:+ name) with name. rewrite Hname. cbn. rewrite Hkeep. reflexivity.
  - destruct (endswith_slash dir) eqn:Hend.
    + destruct (endswith_slash_split dir Hend) as [a' ->].
      unfold FS.of_string, Py.split.
      rewrite app_assoc_s. change ("/" +:+ name) with (String "/" name).
      rewrite !split_acc_app, Hname, !List.filter_app.
      cbn. rewrite Hkeep, List.app_nil_r. reflexivity.
    + unfold FS.of_string, Py.split.
      change ("/" +:+ name) with (String "/" name).
      rewrite split_acc_app, Hname, List.filter_app.
      cbn. rewrite Hkeep. reflexivity.
Qed.

(** ** The name [mkstemp] picks *)

Lemma underscores_no_slash (k : nat) :
  Py.contains "/" (String.concat "" (repeat "_" k)) = false.
Proof.
  induction k as [|k IH]; [reflexivity|].
  cbn [repeat]. rewrite concat_empty_cons.
  change ("_" +:+ ?s) with (String "_" s). cbn [Py.contains]. exact IH.
Qed.

Lemma underscores_length (k : nat) :
  String.length (String.concat "" (repeat "_" k)) = k.
Proof.
  induction k as [|k IH]; [reflexivity|].
  cbn [repeat]. rewrite concat_empty_cons.
  change ("_" +:+ ?s) with (String "_" s). cbn [String.length]. rewrite IH. reflexivity.
Qed.

Lemma fresh_name_plain (f : FS.t) :
  no_slash (FS.fresh_name f) /\ FS.keep_component (FS.fresh_name f) = true.
Proof.
  unfold FS.fresh_name, no_slash.
  change ("tmp" +:+ ?s) with (String "t" (String "m" (String "p" s))).
  split; [|reflexivity].
  cbn [Py.contains]. apply underscores_no_slash.
Qed.

Lemma fresh_name_longer (f : FS.t) (p : FS.path) :
  p ∈ FS.entries f ->
  String.length (Py.last_piece p) < String.length (FS.fresh_name f).
Proof.
  intros Hp. unfold FS.fresh_name.
  rewrite length_app_s, underscores_length. cbn [String.length].
  unfold FS.longest.
  assert (Hle : String.length (Py.last_piece p)
                <= list_max (map (fun p => String.length (Py.last_piece p)) (FS.entries f))).
  { pose proof (proj1 (list_max_le _ _) (Nat.le_refl
      (list_max (map (fun p => String.length (Py.last_piece p)) (FS.entries f))))) as Hall.
    rewrite List.Forall_forall in Hall. apply Hall.
    apply in_map_iff. exists p. split; [reflexivity|].
    apply list_elem_of_In. exact Hp. }
  lia.
Qed.

Lemma fresh_name_fresh (f : FS.t) (d : FS.path) :
  (d ++ [FS.fresh_name f])%list ∉ FS.entries f.
Proof.
  intros Hin. apply fresh_name_longer in Hin.
  unfold Py.last_piece in Hin. rewrite List.last_last in Hin. lia.
Qed.

Lemma file_in_entries (f : FS.t) (p : FS.path) :
  FS.is_file f p = true -> p ∈ FS.entries f.
Proof.
  unfold FS.is_file, FS.entries. intros Hp.
  destruct (FS.files f !! p) as [c|] eqn:Hc; [|discriminate].
  apply elem_of_app. right.
  apply list_elem_of_fmap. exists (p, c). split; [reflexivity|].
  apply elem_of_map_to_list. exact Hc.
Qed.

(** ** What reaches the disk *)

Lemma write_all_alter (name : string) (chunks : list string) :
  forall w,
    write_all name chunks w
    = (Ok tt,
       MkWorld (FS.Mk (FS.dirs (fs w))
                  (alter (fun old => old +:+ String.concat "" chunks)
                     (FS.of_string name) (FS.files (fs w))))
         (server w) (sent w) (logged w)).
Proof.
  induction chunks as [|chunk rest IH]; intros [[dirs files] srv snt lg].
  - cbn. rewrite alter_id; [reflexivity|]. intros x _. apply app_nil_r_s.
  - cbn [write_all]. unfold write. unfold mbind, M_bind, bind, get_fs, put_fs, ret.
    cbv beta iota. rewrite IH. cbn [fs server sent logged FS.append FS.dirs FS.files].
    rewrite alter_alter_eq. do 3 f_equal.
    apply alter_ext. intros x _. cbn [compose].
    rewrite concat_empty_cons, app_assoc_s. reflexivity.
Qed.

Create HintDb disk.

Lemma fs_unchanged_ret {A} (a : A) : fs_unchanged (ret a).
Proof. intros w. reflexivity. Qed.

Lemma fs_unchanged_mret {A} (a : A) : fs_unchanged (mret a : M A).
Proof. intros w. reflexivity. Qed.

Lemma fs_unchanged_raise {A} (e : exn) : fs_unchanged (@raise A e).
Proof. intros w. reflexivity. Qed.

Lemma fs_unchanged_lift {A} (r : result A) : fs_unchanged (lift r).
Proof. intros w. reflexivity. Qed.

Lemma fs_unchanged_logger (lvl : log_level) (msg : string) :
  fs_unchanged (logger lvl msg).
Proof. intros w. reflexivity. Qed.

Lemma fs_unchanged_get_fs : fs_unchanged get_fs.
Proof. intros w. reflexivity. Qed.

Lemma fs_unchanged_requests (method : http_method) (url : option string)
    (options : RequestOptions) :
  fs_unchanged (requests method url options).
Proof. intros w. destruct url; reflexivity. Qed.

Lemma fs_unchanged_bind {A B} (m : M A) (k : A -> M B) :
  fs_unchanged m -> (forall a, fs_unchanged (k a)) -> fs_unchanged (m ≫= k).
Proof.
  intros Hm Hk w. unfold mbind, M_bind, bind.
  specialize (Hm w). destruct (m w) as [[a|e] w1]; cbn [snd] in *.
  - rewrite (Hk a w1). exact Hm.
  - exact Hm.
Qed.

#[local] Hint Resolve fs_unchanged_ret fs_unchanged_mret fs_unchanged_raise
  fs_unchanged_lift fs_unchanged_logger fs_unchanged_get_fs
  fs_unchanged_requests : disk.

Ltac disk_step :=
  first
    [ apply fs_unchanged_bind; [|intros ?]
    | progress auto with disk
    | match goal with
      | |- fs_unchanged (match ?x with _ => _ end) => destruct x
      | |- fs_unchanged (if ?x then _ else _) => destruct x
      end ].

Ltac disk_solve := repeat disk_step.

Lemma fs_unchanged_exists (p : string) : fs_unchanged (exists_ p).
Proof. unfold exists_. disk_solve. Qed.

Lemma fs_unchanged_name_lookup (scope : gmap string string) (x : string) :
  fs_unchanged (name_lookup scope x).
Proof. unfold name_lookup. disk_solve. Qed.

#[local] Hint Resolve fs_unchanged_exists fs_unchanged_name_lookup : disk.

Lemma fs_unchanged_web_request_url (self : SimpleHTTPResolver.t) (ident : string) :
  fs_unchanged (SimpleHTTPResolver._web_request_url self ident).
Proof. unfold SimpleHTTPResolver._web_request_url. disk_solve. Qed.

Lemma fs_unchanged_extension `{Lib} (self : SimpleHTTPResolver.t)
    (ident : string) (response : Response) :
  fs_unchanged (SimpleHTTPResolver.cache_file_extension self ident response).
Proof. unfold SimpleHTTPResolver.cache_file_extension. disk_solve. Qed.

Lemma mkdir_files (f f' : FS.t) (p : FS.path) :
  FS.mkdir f p = Ok f' -> FS.files f' = FS.files f.
Proof.
  unfold FS.mkdir.
  repeat match goal with |- context [if ?b then _ else _] => destruct b end;
    try discriminate.
  intros [= <-]. reflexivity.
Qed.

Lemma makedirs_files (rp : list string) :
  forall f f', FS.makedirs_rev f rp = Ok f' -> FS.files f' = FS.files f.
Proof.
  induction rp as [|x rhead IH]; intros f f'; cbn [FS.makedirs_rev].
  - apply mkdir_files.
  - destruct (negb (FS.lexists f (rev rhead))); [|apply mkdir_files].
    destruct (FS.makedirs_rev f rhead) as [f1|e] eqn:Hrec.
    + intros Hmk. apply mkdir_files in Hmk. rewrite Hmk. apply (IH _ _ Hrec).
    + destruct e; try discriminate.
      destruct (errno =? FS.EEXIST)%N; [apply mkdir_files | discriminate].
Qed.

(** Creating the cache directory adds directories only. *)
Lemma create_cache_dir_files (cache_dir : string) (w : World) :
  FS.files (fs (snd (SimpleHTTPResolver._create_cache_dir cache_dir w)))
  = FS.files (fs w).
Proof.
  unfold SimpleHTTPResolver._create_cache_dir. unfold_m. unfold FS.makedirs.
  destruct (String.eqb cache_dir ""); [reflexivity|].
  destruct (FS.makedirs_rev (fs w) (rev (FS.of_string cache_dir))) as [f'|e] eqn:Hmk.
  - cbn. apply (makedirs_files _ _ _ Hmk).
  - destruct e; try reflexivity.
    destruct (errno =? FS.EEXIST)%N; reflexivity.
Qed.

(** Creating the cache directory neither sends anything nor changes
    what the origin will answer. *)
Lemma create_cache_dir_net (cache_dir : string) (w : World) :
  server (snd (SimpleHTTPResolver._create_cache_dir cache_dir w)) = server w /\
  sent (snd (SimpleHTTPResolver._create_cache_dir cache_dir w)) = sent w.
Proof.
  unfold SimpleHTTPResolver._create_cache_dir. unfold_m. unfold FS.makedirs.
  destruct (String.eqb cache_dir ""); [split; reflexivity|].
  destruct (FS.makedirs_rev (fs w) (rev (FS.of_string cache_dir))) as [f'|e].
  - split; reflexivity.
  - destruct e; try (split; reflexivity).
    destruct (errno =? FS.EEXIST)%N; split; reflexivity.
Qed.

Section Sequential.
Context `{Lib}.

(** What a successful [download] has done: directories may have been
    added, one GET was answered with success, and one new file, the
    temporary one, holds the whole body. *)
Lemma download_ok (self : SimpleHTTPResolver.t) (d : string) (w w1 : World)
    (source_url local_fp tmp_file : string) :
  download self d w = (Ok (source_url, local_fp, tmp_file), w1) ->
  let cache_dir := SimpleHTTPResolver.cache_dir_path self d in
  exists (w0 : World) (response : Response) (extension : string),
    FS.files (fs w0) = FS.files (fs w) /\
    FS.is_dir (fs w0) (FS.of_string cache_dir) = true /\
    ok response = true /\
    response = server w (length (sent w))
                 (MkRequest GET (request_url self d)
                    (SimpleHTTPResolver.request_options self)) /\
    source_url = request_url self d /\
    local_fp = join cache_dir ("loris_cache." +:+ extension) /\
    tmp_file = join cache_dir (FS.fresh_name (fs w0)) /\
    fs w1 = FS.Mk (FS.dirs (fs w0))
              (<[(FS.of_string cache_dir ++ [FS.fresh_name (fs w0)])%list
                 := content response]> (FS.files (fs w0))).
Proof.
  intros Hd cache_dir. unfold download in Hd.
  cbn [base web_request_url SimpleHTTPResolver_dispatch] in Hd.
  fold cache_dir in Hd.
  pose proof (create_cache_dir_files cache_dir w) as Hfiles.
  pose proof (create_cache_dir_net cache_dir w) as [Hserver Hsent].
  destruct (SimpleHTTPResolver._create_cache_dir cache_dir w) as [[[]|e] wa] eqn:Hmk;
    [rewrite (bind_ok _ _ _ _ _ Hmk) in Hd
    | rewrite (bind_raise _ _ _ _ _ Hmk) in Hd; discriminate].
  cbn [snd] in Hfiles, Hserver, Hsent.
  destruct (SimpleHTTPResolver.is_http (request_url self d)) eqn:Hurl;
    [rewrite (bind_ok _ _ _ _ _ (web_request_url_good self d wa Hurl)) in Hd
    | rewrite (bind_raise _ _ _ _ _ (web_request_url_bad self d wa Hurl)) in Hd;
      discriminate].
  set (rq := MkRequest GET (request_url self d) (SimpleHTTPResolver.request_options self)) in *.
  set (response := server wa (length (sent wa)) rq).
  set (wb := MkWorld (fs wa) (server wa) (rq :: sent wa) (logged wa)).
  assert (Hreq : requests GET (Some (request_url self d))
                   (SimpleHTTPResolver.request_options self) wa = (Ok response, wb))
    by reflexivity.
  rewrite (bind_ok _ _ _ _ _ Hreq) in Hd.
  destruct (ok response) eqn:Hok; cbn [negb] in Hd;
    [|unfold mbind, M_bind, bind, logger, raise in Hd; discriminate].
  pose proof (fs_unchanged_extension self d response wb) as Hfs.
  destruct (SimpleHTTPResolver.cache_file_extension self d response wb)
    as [[extension|e] wc] eqn:Hext;
    [rewrite (bind_ok _ _ _ _ _ Hext) in Hd
    | rewrite (bind_raise _ _ _ _ _ Hext) in Hd; discriminate].
  cbn [snd] in Hfs. change (fs wb) with (fs wa) in Hfs.
  unfold NamedTemporaryFile, FS.mkstemp in Hd.
  unfold mbind, M_bind, bind, get_fs, put_fs, lift, ret in Hd. cbv beta iota in Hd.
  destruct (FS.is_dir (fs wc) (FS.of_string cache_dir)) eqn:Hdir; cbn [negb] in Hd;
    [|discriminate].
  rewrite write_all_alter in Hd.
  cbn [fs server sent logged FS.dirs FS.files default] in Hd.
  injection Hd as <- <- <- <-.
  exists wc, response, extension.
  repeat split; try reflexivity; try assumption.
  - rewrite Hfs. exact Hfiles.
  - unfold response. rewrite Hserver, Hsent. reflexivity.
  - cbn [fs]. f_equal.
    rewrite (of_string_join cache_dir (FS.fresh_name (fs wc)))
      by apply fresh_name_plain.
    rewrite alter_insert_eq. f_equal.
    change ("" +:+ ?s) with s. apply iter_content_concat. lia.
Qed.

End Sequential.

Lemma join_nonempty (a b : string) : b <> "" -> join a b <> "".
Proof.
  intros Hb. unfold join.
  destruct (Py.startswith "/" b); [exact Hb|].
  destruct (String.eqb a "" || endswith_slash a).
  - destruct a; [exact Hb | discriminate].
  - destruct a; discriminate.
Qed.

Lemma fresh_path_not_a_file (f : FS.t) (d : FS.path) :
  FS.is_file f (d ++ [FS.fresh_name f])%list = false.
Proof.
  destruct (FS.is_file f (d ++ [FS.fresh_name f])%list) eqn:Hc; [|reflexivity].
  exfalso. apply (fresh_name_fresh f d). apply file_in_entries. exact Hc.
Qed.

Lemma is_file_false (f : FS.t) (p : FS.path) :
  FS.is_file f p = false -> FS.files f !! p = None.
Proof.
  unfold FS.is_file. destruct (FS.files f !! p); [discriminate | reflexivity].
Qed.

Lemma is_file_insert (dirs : gset FS.path) (files : gmap FS.path string)
    (p q : FS.path) (body : string) :
  FS.is_file (FS.Mk dirs (<[p := body]> files)) q
  = if decide (p = q) then true else FS.is_file (FS.Mk dirs files) q.
Proof.
  unfold FS.is_file. cbn [FS.files]. rewrite lookup_insert.
  destruct (decide (p = q)); reflexivity.
Qed.

Section Unraced.
Context `{Lib}.

(** Run without interference, [copy_to_cache] never touches a canonical
    file that is already there: it returns its path, and afterwards the
    files on disk are exactly those from before the call (the temporary
    file is gone again). *)
Lemma copy_to_cache_keeps_existing (self : SimpleHTTPResolver.t) (ident : string)
    (w w1 : World) (source_url local_fp tmp_file : string) :
  download self (Urllib.unquote ident) w = (Ok (source_url, local_fp, tmp_file), w1) ->
  FS.is_file (fs w) (FS.of_string local_fp) = true ->
  exists w2,
    copy_to_cache self ident w = (Ok local_fp, w2) /\
    FS.files (fs w2) = FS.files (fs w) /\
    sent w2 = sent w1.
Proof.
  intros Hd Hfile.
  destruct (download_ok self _ w w1 _ _ _ Hd)
    as (w0 & response & extension & Hfiles & Hdir & Hok & _ & -> & Hfp & Htmp & Hfs).
  set (cache_dir := SimpleHTTPResolver.cache_dir_path self (Urllib.unquote ident)) in *.
  set (p := (FS.of_string cache_dir ++ [FS.fresh_name (fs w0)])%list) in *.
  assert (Hp : FS.of_string tmp_file = p).
  { rewrite Htmp. apply of_string_join; apply fresh_name_plain. }
  assert (Hnew : FS.files (fs w0) !! p = None)
    by apply is_file_false, fresh_path_not_a_file.
  assert (Hstill : FS.is_file (fs w1) (FS.of_string local_fp) = true).
  { rewrite Hfs, is_file_insert. case_decide; [reflexivity|].
    unfold FS.is_file in *. cbn [FS.files]. rewrite Hfiles. exact Hfile. }
  assert (Hfound : FS.exists_ (fs w1) local_fp = true).
  { unfold FS.exists_, FS.lexists. rewrite Hstill, orb_true_r, andb_true_r.
    destruct (String.eqb_spec local_fp "") as [Hempty|]; [|reflexivity].
    exfalso. rewrite Hfp in Hempty. revert Hempty. apply join_nonempty. discriminate. }
  unfold copy_to_cache. rewrite (bind_ok _ _ _ _ _ Hd). cbv beta iota.
  unfold publish, FS.remove. unfold_m. rewrite Hfound. cbv beta iota.
  cbn [fs]. rewrite Hp.
  assert (Htmpfile : FS.is_file (fs w1) p = true).
  { rewrite Hfs, is_file_insert. case_decide; [reflexivity | congruence]. }
  rewrite Htmpfile. cbv beta iota.
  eexists. split; [reflexivity|]. cbn [fs sent FS.files]. split; [|reflexivity].
  rewrite Hfs. cbn [FS.files].
  rewrite delete_insert_id by exact Hnew. exact Hfiles.
Qed.

(** Run without interference and with the canonical file absent, the
    temporary file becomes the canonical one. *)
Lemma copy_to_cache_publishes_absent (self : SimpleHTTPResolver.t) (ident : string)
    (w w1 : World) (source_url local_fp tmp_file : string) :
  download self (Urllib.unquote ident) w = (Ok (source_url, local_fp, tmp_file), w1) ->
  FS.exists_ (fs w1) local_fp = false ->
  FS.is_dir (fs w1) (FS.parent (FS.of_string local_fp)) = true ->
  exists w2 body,
    copy_to_cache self ident w = (Ok local_fp, w2) /\
    FS.read (fs w1) tmp_file = Some body /\
    FS.read (fs w2) local_fp = Some body /\
    FS.read (fs w2) tmp_file = None.
Proof.
  intros Hd Habsent Hparent.
  destruct (download_ok self _ w w1 _ _ _ Hd)
    as (w0 & response & extension & Hfiles & Hdir & Hok & _ & -> & Hfp & Htmp & Hfs).
  set (cache_dir := SimpleHTTPResolver.cache_dir_path self (Urllib.unquote ident)) in *.
  set (p := (FS.of_string cache_dir ++ [FS.fresh_name (fs w0)])%list) in *.
  assert (Hp : FS.of_string tmp_file = p).
  { rewrite Htmp. apply of_string_join; apply fresh_name_plain. }
  assert (Hbody : FS.read (fs w1) tmp_file = Some (content response)).
  { unfold FS.read. rewrite Hp, Hfs. cbn [FS.files]. apply lookup_insert_eq. }
  assert (Hgone : FS.lexists (fs w1) (FS.of_string local_fp) = false).
  { unfold FS.exists_ in Habsent.
    destruct (String.eqb_spec local_fp "") as [Hempty|]; [|exact Habsent].
    exfalso. rewrite Hfp in Hempty. revert Hempty. apply join_nonempty. discriminate. }
  apply orb_false_iff in Hgone as [Hnodir Hnofile].
  assert (Hne : FS.of_string tmp_file <> FS.of_string local_fp).
  { intros Heq. unfold FS.read in Hbody. rewrite Heq in Hbody.
    apply is_file_false in Hnofile. congruence. }
  unfold copy_to_cache. rewrite (bind_ok _ _ _ _ _ Hd). cbv beta iota.
  unfold publish, FS.rename. unfold_m. rewrite Habsent. cbv beta iota.
  pose proof Hbody as Hread.
  unfold FS.read in Hbody. rewrite Hbody, Hnodir, Hparent. cbv beta iota. cbn [negb].
  eexists _, (content response). split; [reflexivity|].
  split; [exact Hread|]. unfold FS.read. cbn [fs FS.files]. split.
  - apply lookup_insert_eq.
  - rewrite lookup_insert_ne by (intros Heq; apply Hne; symmetry; exact Heq).
    apply lookup_delete_eq.
Qed.

End Unraced.

(** ** [SimpleFSResolver] *)

Lemma first_existing_find (roots : list string) (ident : string) (w : World) :
  SimpleFSResolver.first_existing roots ident w
  = (Ok (List.find (FS.exists_ (fs w)) (map (fun d => join d ident) roots)), w).
Proof.
  induction roots as [|d rest IH]; [reflexivity|].
  cbn [SimpleFSResolver.first_existing map List.find]. unfold_m.
  destruct (FS.exists_ (fs w) (join d ident)); [reflexivity | exact IH].
Qed.

Lemma find_skips_prefix {A} (p : A -> bool) (before : list A) (x : A) (after : list A) :
  Forall (fun y => p y = false) before -> p x = true ->
  List.find p (before ++ x :: after) = Some x.
Proof.
  intros Hbefore Hx. induction Hbefore as [|y before Hy _ IH]; cbn.
  - rewrite Hx. reflexivity.
  - rewrite Hy. exact IH.
Qed.

Lemma find_none_all {A} (p : A -> bool) (l : list A) :
  Forall (fun y => p y = false) l -> List.find p l = None.
Proof.
  intros Hall. induction Hall as [|y l Hy _ IH]; cbn; [reflexivity|].
  rewrite Hy. exact IH.
Qed.

(** X1: the direct file-system strategy searches its roots in order:
    when the decoded identifier is missing under the roots listed first
    and present under the next one, [resolve] returns the path under that
    root with the format of the identifier as given, logs the path at
    debug level, and neither writes to disk nor sends anything. *)
Theorem simple_fs_resolve_first_root
    (self : SimpleFSResolver.t) (ident : string) (w : World)
    (before after : list string) (root format_ : string) :
  SimpleFSResolver.source_roots self = (before ++ root :: after)%list ->
  Forall (fun d => FS.exists_ (fs w) (join d (Urllib.unquote ident)) = false) before ->
  FS.exists_ (fs w) (join root (Urllib.unquote ident)) = true ->
  format_from_ident ident = Ok format_ ->
  SimpleFSResolver.resolve self ident w
  = (Ok (Some (join root (Urllib.unquote ident)), format_),
     MkWorld (fs w) (server w) (sent w)
       ((DEBUG, "src image: " +:+ join root (Urllib.unquote ident)) :: logged w)).
Proof.
  intros Hroots Hbefore Hroot Hformat.
  assert (Hfind : SimpleFSResolver.source_file_path self ident w
                  = (Ok (Some (join root (Urllib.unquote ident))), w)).
  { unfold SimpleFSResolver.source_file_path. rewrite first_existing_find, Hroots.
    rewrite map_app. cbn [map]. rewrite find_skips_prefix; [reflexivity | | exact Hroot].
    apply Forall_map. exact Hbefore. }
  unfold SimpleFSResolver.resolve, SimpleFSResolver.is_resolvable.
  unfold mbind, M_bind, bind. rewrite Hfind. cbv beta iota.
  unfold ret at 1 2. cbv beta iota. rewrite Hfind. cbv beta iota.
  unfold logger, lift, ret. rewrite Hformat. reflexivity.
Qed.

Lemma simple_fs_resolve_first_root_witness :
  SimpleFSResolver.resolve two_roots "img.jpg" two_roots_world
  = (Ok (Some "/b/img.jpg", "jpg"),
     MkWorld (fs two_roots_world) (server two_roots_world) []
       [(DEBUG, "src image: /b/img.jpg")]).
Proof.
  apply (simple_fs_resolve_first_root two_roots "img.jpg" two_roots_world ["/a"] [] "/b" "jpg").
  - reflexivity.
  - repeat constructor.
  - vm_compute. reflexivity.
  - vm_compute. reflexivity.
Defined.

(** X2: when the decoded identifier exists under none of the roots,
    [resolve] of the direct file-system strategy raises the 404 exception
    whose message names the identifier as it was given (not decoded),
    logs that same message as a warning, and leaves disk and network
    alone; the format is not even looked at. *)
Theorem simple_fs_resolve_not_found
    (self : SimpleFSResolver.t) (ident : string) (w : World) :
  Forall (fun d => FS.exists_ (fs w) (join d (Urllib.unquote ident)) = false)
    (SimpleFSResolver.source_roots self) ->
  SimpleFSResolver.resolve self ident w
  = (Raise (ResolverException 404
              ("Source image not found for identifier: " +:+ ident +:+ ".")),
     MkWorld (fs w) (server w) (sent w)
       ((WARN, "Source image not found for identifier: " +:+ ident +:+ ".") :: logged w)).
Proof.
  intros Hnone.
  assert (Hfind : SimpleFSResolver.source_file_path self ident w = (Ok None, w)).
  { unfold SimpleFSResolver.source_file_path. rewrite first_existing_find.
    rewrite find_none_all; [reflexivity|]. apply Forall_map. exact Hnone. }
  unfold SimpleFSResolver.resolve, SimpleFSResolver.is_resolvable.
  unfold mbind, M_bind, bind. rewrite Hfind. reflexivity.
Qed.

Lemma simple_fs_resolve_not_found_witness :
  fst (SimpleFSResolver.resolve two_roots "missing%2Ejpg" two_roots_world)
  = Raise (ResolverException 404 "Source image not found for identifier: missing%2Ejpg.").
Proof.
  rewrite (simple_fs_resolve_not_found two_roots "missing%2Ejpg" two_roots_world).
  - reflexivity.
  - repeat constructor.
Defined.

(** X3: the roots do not confine the direct file-system strategy: a
    decoded identifier that starts with a slash is joined onto no root at
    all, so whenever that absolute path exists, [source_file_path] returns
    it and [is_resolvable] answers [True], whatever the roots are. *)
Theorem simple_fs_absolute_identifier
    (self : SimpleFSResolver.t) (ident : string) (w : World) :
  SimpleFSResolver.source_roots self <> [] ->
  Py.startswith "/" (Urllib.unquote ident) = true ->
  FS.exists_ (fs w) (Urllib.unquote ident) = true ->
  SimpleFSResolver.source_file_path self ident w = (Ok (Some (Urllib.unquote ident)), w) /\
  SimpleFSResolver.is_resolvable self ident w = (Ok true, w).
Proof.
  intros Hroots Habs Hexists.
  assert (Hfind : SimpleFSResolver.source_file_path self ident w
                  = (Ok (Some (Urllib.unquote ident)), w)).
  { unfold SimpleFSResolver.source_file_path.
    destruct (SimpleFSResolver.source_roots self) as [|d rest]; [congruence|].
    cbn [SimpleFSResolver.first_existing]. unfold_m.
    unfold join. rewrite Habs, Hexists. reflexivity. }
  split; [exact Hfind|].
  unfold SimpleFSResolver.is_resolvable, mbind, M_bind, bind. rewrite Hfind. reflexivity.
Qed.

Lemma simple_fs_absolute_identifier_witness :
  SimpleFSResolver.source_file_path two_roots "%2Fetc%2Fsecret.jpg" two_roots_world
  = (Ok (Some "/etc/secret.jpg"), two_roots_world) /\
  SimpleFSResolver.is_resolvable two_roots "%2Fetc%2Fsecret.jpg" two_roots_world
  = (Ok true, two_roots_world).
Proof.
  apply (simple_fs_absolute_identifier two_roots "%2Fetc%2Fsecret.jpg" two_roots_world).
  - discriminate.
  - reflexivity.
  - vm_compute. reflexivity.
Defined.

(** ** [TemplateHTTPResolver._web_request_url] on a known template *)

Lemma split_once_acc_app (c : ascii) (p r : string) :
  Py.contains c p = false ->
  forall acc, Py.split_once_acc c acc (p +:+ String c r) = Some (acc +:+ p, r).
Proof.
  induction p as [|d p IH]; intros Hp acc.
  - change ("" +:+ String c r) with (String c r). cbn [Py.split_once_acc].
    rewrite Ascii.eqb_refl, app_nil_r_s. reflexivity.
  - cbn [Py.contains] in Hp. rewrite app_cons. cbn [Py.split_once_acc].
    destruct (Ascii.eqb d c); [discriminate|].
    rewrite IH by exact Hp. rewrite app_assoc_s. reflexivity.
Qed.

Lemma contains_app_sep (c : ascii) (p r : string) :
  Py.contains c (p +:+ String c r) = true.
Proof.
  induction p as [|d p IH].
  - change ("" +:+ String c r) with (String c r). cbn. rewrite Ascii.eqb_refl. reflexivity.
  - rewrite app_cons. cbn [Py.contains]. destruct (Ascii.eqb d c); [reflexivity | exact IH].
Qed.

Section Routed.
Context `{Lib}.

(** X4: the templated strategy cuts the identifier at its first colon
    only, so the part after it may itself contain colons.  For a
    configured template the URL is the template's pattern filled with that
    part (cut at the delimiter when one is configured), and the request
    options are the resolver's own with the template's overriding them:
    its certificate pair and its credentials when it has both halves, its
    [ssl_check] when it has one.  Nothing is logged, written or sent. *)
Theorem template_web_request_url_routed
    (self : TemplateHTTPResolver.t) (prefix rest pattern url : string)
    (conf : TemplateConf) (w : World) :
  let me := TemplateHTTPResolver.super self in
  let delimiter := cfg_delimiter (SimpleHTTPResolver.config me) in
  Py.contains ":" prefix = false ->
  delimiter <> Some "" ->
  TemplateHTTPResolver.templates self !! prefix = Some (VSection conf) ->
  t_url conf = Some pattern ->
  percent_format pattern (template_arguments delimiter rest) = Ok url ->
  exists options,
    TemplateHTTPResolver._web_request_url self (prefix +:+ ":" +:+ rest) w
    = (Ok (Some url, options), w) /\
    opt_verify options
    = Some (default (SimpleHTTPResolver.ssl_check me) (t_ssl_check conf)) /\
    opt_cert options
    = match t_cert conf, t_key conf with
      | Some c, Some k => Some (c, k)
      | _, _ => opt_cert (SimpleHTTPResolver.request_options me)
      end /\
    opt_auth options
    = match t_user conf, t_pw conf with
      | Some u, Some p => Some (u, p)
      | _, _ => opt_auth (SimpleHTTPResolver.request_options me)
      end.
Proof.
  intros me delimiter Hprefix Hdelim Htpl Hurl Hfmt.
  unfold TemplateHTTPResolver._web_request_url.
  change (":" +:+ rest) with (String ":" rest).
  rewrite contains_app_sep. cbn [negb].
  unfold Py.split_once. rewrite (split_once_acc_app ":" prefix rest Hprefix "").
  change ("" +:+ prefix) with prefix.
  fold me. fold delimiter. rewrite Htpl.
  assert (Hfill :
    (match delimiter with
     | Some delimiter0 =>
         ident_components ← lift (Py.split_str delimiter0 rest);
         pattern0 ← lift (TemplateHTTPResolver.template_url (VSection conf));
         u ← lift (percent_format pattern0 ident_components);
         ret (Some u)
     | None =>
         pattern0 ← lift (TemplateHTTPResolver.template_url (VSection conf));
         u ← lift (percent_format pattern0 [rest]);
         ret (Some u)
     end) w = (Ok (Some url), w)).
  { unfold TemplateHTTPResolver.template_url. rewrite Hurl.
    unfold template_arguments in Hfmt.
    destruct delimiter as [[|c d]|]; [congruence| |];
      unfold_m; cbn [Py.split_str]; rewrite Hfmt; reflexivity. }
  rewrite (bind_ok _ _ _ _ _ Hfill).
  eexists. split; [reflexivity|].
  destruct (t_cert conf), (t_key conf), (t_user conf), (t_pw conf), (t_ssl_check conf);
    repeat split.
Qed.

End Routed.

Lemma template_web_request_url_routed_witness :
  exists options,
    @TemplateHTTPResolver._web_request_url substituting_lib
      credentialed_template_resolver "site2:a:b" empty_world
    = (Ok (Some "http://ex.org/a:b", options), empty_world) /\
    opt_verify options = Some false /\
    opt_cert options = Some ("gc", "gk") /\
    opt_auth options = Some ("tu", "tp").
Proof.
  apply (@template_web_request_url_routed substituting_lib
           credentialed_template_resolver "site2" "a:b" "http://ex.org/%s"
           "http://ex.org/a:b" site2 empty_world);
    first [reflexivity | discriminate].
Defined.

Section Misrouted.
Context `{Lib}.


End Misrouted.


(** ** The template table built by [TemplateHTTPResolver.__init__] *)

Lemma load_templates_lookup (config : Config) (names : list string) :
  forall acc w loaded w',
    TemplateHTTPResolver.load_templates config names acc w = (Ok loaded, w') ->
    forall name,
      loaded !! name
      = match (if bool_decide (name ∈ Py.strip <$> names)
               then config_get config name else None) with
        | Some cfg => Some cfg
        | None => acc !! name
        end.
Proof.
  induction names as [|n rest IH]; intros acc w loaded w' Hload name.
  - cbn in Hload. injection Hload as <- _. reflexivity.
  - cbn [TemplateHTTPResolver.load_templates] in Hload.
    rewrite fmap_cons.
    destruct (config_get config (Py.strip n)) as [cfg|] eqn:Hsec.
    + rewrite (IH _ _ _ _ Hload name).
      destruct (decide (name = Py.strip n)) as [->|Hne].
      * rewrite (bool_decide_eq_true_2
                   (Py.strip n ∈ Py.strip n :: (Py.strip <$> rest))) by left.
        rewrite Hsec, lookup_insert_eq.
        destruct (bool_decide _); reflexivity.
      * rewrite lookup_insert_ne by congruence.
        assert (Hmem : bool_decide (name ∈ Py.strip n :: (Py.strip <$> rest))
                       = bool_decide (name ∈ Py.strip <$> rest)).
        { apply bool_decide_ext. rewrite elem_of_cons. tauto. }
        rewrite Hmem. reflexivity.
    + unfold mbind, M_bind, bind, logger in Hload. cbv beta iota in Hload.
      rewrite (IH _ _ _ _ Hload name).
      destruct (decide (name = Py.strip n)) as [->|Hne].
      * rewrite (bool_decide_eq_true_2
                   (Py.strip n ∈ Py.strip n :: (Py.strip <$> rest))) by left.
        rewrite Hsec.
        destruct (bool_decide _); reflexivity.
      * assert (Hmem : bool_decide (name ∈ Py.strip n :: (Py.strip <$> rest))
                       = bool_decide (name ∈ Py.strip <$> rest)).
        { apply bool_decide_ext. rewrite elem_of_cons. tauto. }
        rewrite Hmem. reflexivity.
Qed.

Lemma template_init_loads `{Lib} (config : Config) (w w' : World)
    (self : TemplateHTTPResolver.t) :
  snd (TemplateHTTPResolver.__init__ config) w = (Ok self, w') ->
  exists w1 w2,
    TemplateHTTPResolver.load_templates (set_uri_resolvable true config)
      (Py.split "," (default "" (cfg_templates config))) ∅ w1
    = (Ok (TemplateHTTPResolver.templates self), w2).
Proof.
  unfold TemplateHTTPResolver.__init__. cbn [snd]. intros Hinit.
  unfold mbind, M_bind, bind in Hinit.
  destruct (SimpleHTTPResolver.__init__ (set_uri_resolvable true config) w)
    as [[base0|e] wa] eqn:Hbase; [|discriminate].
  assert (Hcfg : SimpleHTTPResolver.config base0 = set_uri_resolvable true config).
  { unfold SimpleHTTPResolver.__init__ in Hbase. cbn in Hbase.
    destruct (cfg_cache_root config); [|discriminate].
    injection Hbase as <- _. reflexivity. }
  rewrite Hcfg in Hinit. cbn [cfg_templates set_uri_resolvable] in Hinit.
  match type of Hinit with
  | context [if ?b then ?x else ?y] => destruct ((if b then x else y) wa) as [[[]|e] wb]
  end; [|discriminate].
  match type of Hinit with
  | context [TemplateHTTPResolver.load_templates ?c ?n ?a ?x] =>
      destruct (TemplateHTTPResolver.load_templates c n a x) as [[loaded|e] wc] eqn:Hload
  end; [|discriminate].
  unfold logger, ret in Hinit. injection Hinit as <- _.
  exists wb, wc. exact Hload.
Qed.

(** X5: a constructed [TemplateHTTPResolver] holds exactly the names that
    are listed in [templates] (comma-separated, surrounding blanks
    ignored) and are keys of the configuration mapping as the constructor
    has left it ([uri_resolvable] set), each with whatever the mapping
    holds under that key.  That is the sub-section of a template, but just
    as well the value of a setting: listing [cache_root] registers the
    cache root's path as a template.  A listed name that is no key is
    skipped; a key that is not listed is ignored. *)
Theorem template_init_table `{Lib} (config : Config) (w w' : World)
    (self : TemplateHTTPResolver.t) (name : string) (held : value) :
  snd (TemplateHTTPResolver.__init__ config) w = (Ok self, w') ->
  TemplateHTTPResolver.templates self !! name = Some held <->
  name ∈ Py.strip <$> Py.split "," (default "" (cfg_templates config)) /\
  config_get (set_uri_resolvable true config) name = Some held.
Proof.
  intros Hinit. destruct (template_init_loads _ _ _ _ Hinit) as (w1 & w2 & Hload).
  rewrite (load_templates_lookup _ _ _ _ _ _ Hload name).
  rewrite lookup_empty.
  destruct (bool_decide _) eqn:Hmem.
  - apply bool_decide_eq_true_1 in Hmem.
    destruct (config_get (set_uri_resolvable true config) name) as [c|]; split.
    + intros [= ->]. split; [exact Hmem | reflexivity].
    + intros [_ Heq]. exact Heq.
    + discriminate.
    + intros [_ Heq]. discriminate.
  - apply bool_decide_eq_false_1 in Hmem.
    split; [discriminate | intros [Hin _]; contradiction].
Qed.

Lemma template_init_table_witness :
  match snd (@TemplateHTTPResolver.__init__ sample_lib listed_names) empty_world with
  | (Ok self, _) =>
      TemplateHTTPResolver.templates self !! "site2" = Some (VSection site2) /\
      TemplateHTTPResolver.templates self !! "cache_root" = Some (VStr "/cache") /\
      TemplateHTTPResolver.templates self !! "ghost" = None /\
      TemplateHTTPResolver.templates self !! "unlisted" = None
  | (Raise _, _) => False
  end.
Proof.
  destruct (snd (@TemplateHTTPResolver.__init__ sample_lib listed_names) empty_world)
    as [[self|e] w'] eqn:Hinit.
  - pose proof (fun name held =>
        @template_init_table sample_lib listed_names empty_world w' self name held Hinit)
      as Htable.
    split; [|split; [|split]].
    + apply Htable. split; [|reflexivity].
      vm_compute. repeat constructor.
    + apply Htable. split; [|reflexivity].
      vm_compute. repeat constructor.
    + destruct (TemplateHTTPResolver.templates self !! "ghost") as [held|] eqn:Hheld;
        [|reflexivity].
      apply Htable in Hheld as [_ Hget]. discriminate Hget.
    + destruct (TemplateHTTPResolver.templates self !! "unlisted") as [held|] eqn:Hheld;
        [|reflexivity].
      apply Htable in Hheld as [Hin _].
      apply (bool_decide_pack _) in Hin. vm_compute in Hin. destruct Hin.
  - vm_compute in Hinit. discriminate.
Defined.

(** ** The format read back from the name of the cache file *)

Lemma join_ends_with (a b : string) : exists x, join a b = x +:+ b.
Proof.
  unfold join. destruct (Py.startswith "/" b); [exists ""; reflexivity|].
  destruct (String.eqb a "" || endswith_slash a).
  - exists a. reflexivity.
  - exists (a +:+ "/"). rewrite app_assoc_s. reflexivity.
Qed.

Lemma after_last_none_after (c : ascii) (s t : string) :
  Spec.after_last c s = Some t -> Py.contains c t = false.
Proof.
  revert t. induction s as [|d s IH]; intros t; cbn [Spec.after_last]; [discriminate|].
  destruct (Spec.after_last c s) as [t'|] eqn:Hs.
  - intros [= <-]. apply IH. reflexivity.
  - destruct (Ascii.eqb d c); [|discriminate].
    intros [= <-]. apply after_last_contains. exact Hs.
Qed.

Lemma lower_char_idempotent (c : ascii) :
  Py.lower_char (Py.lower_char c) = Py.lower_char c.
Proof. destruct c as [[] [] [] [] [] [] [] []]; reflexivity. Qed.

Lemma lower_char_dot (c : ascii) :
  Ascii.eqb (Py.lower_char c) "." = Ascii.eqb c ".".
Proof. destruct c as [[] [] [] [] [] [] [] []]; reflexivity. Qed.

Lemma lower_idempotent (s : string) : Py.lower (Py.lower s) = Py.lower s.
Proof.
  induction s as [|c s IH]; [reflexivity|].
  cbn [Py.lower]. rewrite lower_char_idempotent, IH. reflexivity.
Qed.

Lemma lower_length (s : string) : String.length (Py.lower s) = String.length s.
Proof. induction s as [|c s IH]; [reflexivity|]. cbn. rewrite IH. reflexivity. Qed.

Lemma lower_contains_dot (s : string) :
  Py.contains "." (Py.lower s) = Py.contains "." s.
Proof.
  induction s as [|c s IH]; [reflexivity|].
  cbn [Py.lower Py.contains]. rewrite lower_char_dot, IH. reflexivity.
Qed.

(** A format that [format_from_ident] has produced: no dot in it, fewer
    than five characters, and the table and lower-casing leave it alone. *)
Lemma format_is_normal (ident format_ : string) :
  format_from_ident ident = Ok format_ ->
  Py.contains "." format_ = false /\
  String.length format_ < 5 /\
  Spec.extension_table (Py.lower format_) = format_.
Proof.
  rewrite format_from_ident_refines. unfold Spec.fromIdentifier.
  destruct (Spec.after_last "." ident) as [ext|] eqn:Hext; [|discriminate].
  destruct (String.length ext <? 5)%nat eqn:Hlen; [|discriminate].
  intros [= <-]. apply Nat.ltb_lt in Hlen.
  apply after_last_none_after in Hext.
  rewrite <- lower_contains_dot in Hext. rewrite <- lower_length in Hlen.
  set (e := Py.lower ext) in *.
  assert (He : Py.lower e = e) by apply lower_idempotent.
  unfold Spec.extension_table.
  destruct (String.eqb_spec e "tiff") as [->|Ht]; [repeat split; cbn; lia|].
  destruct (String.eqb_spec e "jpeg") as [->|Hj]; [repeat split; cbn; lia|].
  rewrite He.
  destruct (String.eqb_spec e "tiff"); [congruence|].
  destruct (String.eqb_spec e "jpeg"); [congruence|].
  repeat split; assumption.
Qed.

(** X7: the format survives the trip through the cache.  On a miss the
    cache file is named [loris_cache.] plus the format; on a later hit
    [resolve] has only that file name and reads the format back from it.
    Whenever the format stored was one [format_from_ident] derived from
    the identifier, reading it back from the cache file's path gives the
    same format, in whatever directory the file is. *)
Theorem cache_file_name_keeps_format (ident format_ cache_dir : string) :
  format_from_ident ident = Ok format_ ->
  format_from_ident (join cache_dir ("loris_cache." +:+ format_)) = Ok format_.
Proof.
  intros Hformat.
  destruct (format_is_normal ident format_ Hformat) as (Hdot & Hlen & Hfix).
  destruct (join_ends_with cache_dir ("loris_cache." +:+ format_)) as [x ->].
  rewrite format_from_ident_refines. unfold Spec.fromIdentifier.
  change ("loris_cache." +:+ format_) with ("loris_cache" +:+ String "." format_).
  rewrite <- app_assoc_s.
  rewrite (after_last_app "." format_ Hdot).
  apply Nat.ltb_lt in Hlen. rewrite Hlen, Hfix. reflexivity.
Qed.

Lemma cache_file_name_keeps_format_witness :
  format_from_ident "scan.TIFF" = Ok "tif" /\
  format_from_ident (join "/cache/ab/cde" ("loris_cache." +:+ "tif")) = Ok "tif".
Proof.
  split; [reflexivity|].
  apply (cache_file_name_keeps_format "scan.TIFF" "tif" "/cache/ab/cde").
  reflexivity.
Defined.

(** ** The components of the cache directory *)

Lemma of_string_app_sep (a b : string) :
  FS.of_string (a +:+ String "/" b) = (FS.of_string a ++ FS.of_string b)%list.
Proof.
  unfold FS.of_string, Py.split. rewrite split_acc_app, List.filter_app. reflexivity.
Qed.

Lemma of_string_join_relative (a b : string) :
  Py.startswith "/" b = false ->
  FS.of_string (join a b) = (FS.of_string a ++ FS.of_string b)%list.
Proof.
  intros Hb. unfold join. rewrite Hb.
  destruct (String.eqb_spec a "") as [->|Ha]; cbn [orb]; [reflexivity|].
  destruct (endswith_slash a) eqn:Hend.
  - destruct (endswith_slash_split a Hend) as [a' ->].
    rewrite app_assoc_s. change ("/" +:+ b) with (String "/" b).
    rewrite of_string_app_sep.
    change (a' +:+ "/") with (a' +:+ String "/" ""). rewrite of_string_app_sep.
    cbn. rewrite List.app_nil_r. reflexivity.
  - change ("/" +:+ b) with (String "/" b). apply of_string_app_sep.
Qed.

Lemma startswith_slash_join (a b : string) :
  Py.startswith "/" a = false -> Py.startswith "/" b = false ->
  Py.startswith "/" (join a b) = false.
Proof.
  intros Ha Hb. unfold join. rewrite Hb.
  destruct (String.eqb_spec a "") as [->|Hne]; cbn [orb]; [exact Hb|].
  destruct (endswith_slash a); rewrite startswith_slash_app by exact Hne; exact Ha.
Qed.

Lemma of_string_fold_join (segments : list string) :
  Forall (fun s => Py.startswith "/" s = false) segments ->
  forall acc,
    Py.startswith "/" acc = false ->
    Py.startswith "/" (fold_left join segments acc) = false /\
    FS.of_string (fold_left join segments acc)
    = (FS.of_string acc ++ flat_map FS.of_string segments)%list.
Proof.
  intros Hall. induction Hall as [|s segments Hs _ IH]; intros acc Hacc.
  - cbn. rewrite List.app_nil_r. split; [exact Hacc | reflexivity].
  - cbn [fold_left flat_map].
    destruct (IH (join acc s) (startswith_slash_join acc s Hacc Hs)) as [Hstart Hcomp].
    split; [exact Hstart|].
    rewrite Hcomp, (of_string_join_relative acc s Hs), <- List.app_assoc. reflexivity.
Qed.

Lemma of_string_plain (p : string) :
  no_slash p -> FS.keep_component p = true -> FS.of_string p = [p].
Proof.
  intros Hns Hkeep. unfold FS.of_string, Py.split.
  rewrite (split_acc_no_sep "/" p "" Hns). change ("" +:+ p) with p.
  cbn. rewrite Hkeep. reflexivity.
Qed.

Lemma keep_component_long (p : string) :
  2 <= String.length p -> FS.keep_component p = true.
Proof.
  destruct p as [|c [|d p]]; cbn [String.length]; try lia. intros _.
  unfold FS.keep_component. cbn.
  destruct (Ascii.eqb c "."); reflexivity.
Qed.

Lemma flat_map_singletons {A} (f : A -> list A) (l : list A) :
  Forall (fun x => f x = [x]) l -> flat_map f l = l.
Proof.
  intros Hall. induction Hall as [|x l Hx _ IH]; [reflexivity|].
  cbn [flat_map]. rewrite Hx, IH. reflexivity.
Qed.

Lemma of_string_chain (h : string) :
  String.length h = 32 -> no_slash h ->
  FS.of_string (String.concat "/" (Spec.hash_pieces h)) = Spec.hash_pieces h.
Proof.
  intros Hlen Hns.
  pose proof (hash_pieces_plain h Hlen Hns) as Hplain.
  assert (Hpiece : forall i n, 2 <= n -> i + n <= 32 ->
                     FS.of_string (String.substring i n h) = [String.substring i n h]).
  { intros i n Hn Hin. apply of_string_plain.
    - apply contains_substring, Hns.
    - apply keep_component_long. rewrite length_substring by lia. lia. }
  assert (Hcomp : Forall (fun p => FS.of_string p = [p]) (Spec.hash_pieces h)).
  { unfold Spec.hash_pieces, Py.slice. cbn [map Nat.add Nat.sub].
    repeat (apply Forall_cons_2; [apply Hpiece; lia|]).
    apply Forall_nil_2. }
  unfold Spec.hash_pieces in Hplain |- *. cbn [map] in Hplain |- *.
  rewrite <- (fold_join_plain _ _ Hplain).
  destruct (of_string_fold_join _ (Forall_impl _ _ _ Hplain
              (fun p Hp => startswith_slash_no_slash p (proj2 Hp))) "" eq_refl)
    as [_ ->].
  change (FS.of_string "") with (@nil string). cbn [app].
  apply (flat_map_singletons FS.of_string (Spec.hash_pieces h) Hcomp).
Qed.

(** X8: the cache directory lies below the cache root.  Unless a
    pidspace segment of the decoded identifier starts with a slash, the
    path [cache_dir_path] returns consists of the components of the cache
    root, then [http] for an http(s)-like identifier or else the
    components of the colon-delimited segments before the last, then the
    eleven pieces of the digest, and nothing else. *)
Theorem cache_dir_path_components (self : SimpleHTTPResolver.t) (ident : string) :
  let d := Urllib.unquote ident in
  let h := MD5.hexdigest (Urllib.quote_plus d) in
  (SimpleHTTPResolver.is_http_like d = false ->
   Forall (fun s => Py.startswith "/" s = false) (removelast (Py.split ":" d))) ->
  FS.of_string (SimpleHTTPResolver.cache_dir_path self ident)
  = (FS.of_string (SimpleHTTPResolver.cache_root self)
       ++ (if SimpleHTTPResolver.is_http_like d then ["http"]
           else flat_map FS.of_string (removelast (Py.split ":" d)))
       ++ Spec.hash_pieces h)%list.
Proof.
  intros d h Hsegments.
  assert (Hlen : String.length h = 32) by apply hexdigest_length.
  assert (Hns : no_slash h) by apply hexdigest_no_slash.
  unfold SimpleHTTPResolver.cache_dir_path. fold d.
  rewrite cache_subroot_structure. fold h.
  pose proof (chain_plain_start h Hlen Hns) as Hchain.
  assert (Hprefix :
    Py.startswith "/" (if SimpleHTTPResolver.is_http_like d then "http"
                       else fold_left join (removelast (Py.split ":" d)) "") = false /\
    FS.of_string (if SimpleHTTPResolver.is_http_like d then "http"
                  else fold_left join (removelast (Py.split ":" d)) "")
    = (if SimpleHTTPResolver.is_http_like d then ["http"]
       else flat_map FS.of_string (removelast (Py.split ":" d)))).
  { destruct (SimpleHTTPResolver.is_http_like d); [split; reflexivity|].
    apply (of_string_fold_join _ (Hsegments eq_refl) "" eq_refl). }
  destruct Hprefix as [Hstart Hcomp].
  rewrite of_string_join_relative by (apply startswith_slash_join; assumption).
  rewrite of_string_join_relative by exact Hchain.
  rewrite Hcomp, (of_string_chain h Hlen Hns). reflexivity.
Qed.

Lemma cache_dir_path_components_witness :
  FS.of_string (SimpleHTTPResolver.cache_dir_path prefix_resolver "fedora:pid%3Aimg.jpg")
  = ["cache"; "fedora"; "pid";
     "24"; "b9c"; "7ec"; "6f8"; "fd0"; "821"; "930"; "e56"; "913"; "f38"; "29b"].
Proof.
  rewrite (cache_dir_path_components prefix_resolver "fedora:pid%3Aimg.jpg").
  - vm_compute. reflexivity.
  - intros _. repeat constructor.
Defined.

(** X9: the cache root does not confine the HTTP strategies.  When the
    last pidspace segment of the decoded identifier (the one before the
    final colon) starts with a slash, [cache_dir_path] is that segment
    joined with the digest chain: an absolute path in which the cache root
    and the earlier segments do not appear. *)
Theorem cache_dir_path_absolute_segment
    (self : SimpleHTTPResolver.t) (ident : string)
    (segments : list string) (segment : string) :
  let d := Urllib.unquote ident in
  let chain := String.concat "/" (Spec.hash_pieces (MD5.hexdigest (Urllib.quote_plus d))) in
  SimpleHTTPResolver.is_http_like d = false ->
  removelast (Py.split ":" d) = (segments ++ [segment])%list ->
  Py.startswith "/" segment = true ->
  SimpleHTTPResolver.cache_dir_path self ident = join segment chain /\
  Py.startswith "/" (SimpleHTTPResolver.cache_dir_path self ident) = true.
Proof.
  intros d chain Hlike Hsplit Habs.
  assert (Hchain : Py.startswith "/" chain = false).
  { apply chain_plain_start; [apply hexdigest_length | apply hexdigest_no_slash]. }
  assert (Hne : segment <> "") by (intros ->; discriminate).
  assert (Hstart : Py.startswith "/" (join segment chain) = true).
  { unfold join. rewrite Hchain.
    destruct (String.eqb segment "" || endswith_slash segment);
      rewrite startswith_slash_app by exact Hne; exact Habs. }
  assert (Hdir : SimpleHTTPResolver.cache_dir_path self ident = join segment chain).
  { unfold SimpleHTTPResolver.cache_dir_path. fold d.
    rewrite cache_subroot_structure, Hlike, Hsplit. fold chain.
    rewrite fold_left_app. cbn [fold_left].
    assert (Hseg : join (fold_left join segments "") segment = segment)
      by (unfold join; rewrite Habs; reflexivity).
    rewrite Hseg. unfold join at 1. rewrite Hstart. reflexivity. }
  split; [exact Hdir | rewrite Hdir; exact Hstart].
Qed.

Lemma cache_dir_path_absolute_segment_witness :
  SimpleHTTPResolver.cache_dir_path prefix_resolver "a:%2Fetc:x"
  = "/etc/" +:+ "92/aeb/41b/f84/a22/079/a54/28b/aa0/32e/fe9" /\
  Py.startswith "/" (SimpleHTTPResolver.cache_dir_path prefix_resolver "a:%2Fetc:x") = true.
Proof.
  destruct (cache_dir_path_absolute_segment prefix_resolver "a:%2Fetc:x" ["a"] "/etc")
    as [Hdir Hstart]; try reflexivity.
  split; [rewrite Hdir; vm_compute; reflexivity | exact Hstart].
Defined.

(** ** [quote_plus] loses nothing *)

Lemma map_join_safe (safe s : string) :
  Urllib.all_chars (fun c => Py.contains c Urllib.always_safe || Py.contains c safe) s = true ->
  Urllib.map_join (Urllib.quoter safe) s = s.
Proof.
  induction s as [|c s IH]; [reflexivity|].
  cbn [Urllib.all_chars Urllib.map_join]. intros Hall.
  apply andb_true_iff in Hall as [Hc Hs].
  unfold Urllib.quoter at 1. rewrite Hc, IH by exact Hs. reflexivity.
Qed.

Lemma quote_map_join (s safe : string) :
  Urllib.quote s safe = Urllib.map_join (Urllib.quoter safe) s.
Proof.
  unfold Urllib.quote. destruct s as [|c s]; [reflexivity|].
  destruct (Urllib.all_chars _ (String c s)) eqn:Hall; [|reflexivity].
  symmetry. apply map_join_safe. exact Hall.
Qed.

Lemma replace_char_app (a b : ascii) (s t : string) :
  Urllib.replace_char a b (s +:+ t)
  = Urllib.replace_char a b s +:+ Urllib.replace_char a b t.
Proof.
  induction s as [|c s IH]; [reflexivity|].
  rewrite app_cons. cbn [Urllib.replace_char]. rewrite IH. reflexivity.
Qed.

Lemma replace_quoter_space (c : ascii) :
  Urllib.replace_char " " "+" (Urllib.quoter " " c) = quote_plus_char c.
Proof. destruct c as [[] [] [] [] [] [] [] []]; reflexivity. Qed.

Lemma quote_plus_char_no_space (c : ascii) :
  Ascii.eqb c " " = false -> Urllib.quoter "" c = quote_plus_char c.
Proof. unfold quote_plus_char. intros ->. reflexivity. Qed.

Lemma quote_plus_by_char (s : string) :
  Urllib.quote_plus s = Urllib.map_join quote_plus_char s.
Proof.
  unfold Urllib.quote_plus. rewrite !quote_map_join.
  destruct (Py.contains " " s) eqn:Hspace.
  - clear Hspace. induction s as [|c s IH]; [reflexivity|].
    cbn [Urllib.map_join]. rewrite replace_char_app, replace_quoter_space, IH.
    reflexivity.
  - induction s as [|c s IH]; [reflexivity|].
    cbn [Py.contains] in Hspace. cbn [Urllib.map_join].
    destruct (Ascii.eqb c " ") eqn:Hc; [discriminate|].
    rewrite (quote_plus_char_no_space c Hc), IH by exact Hspace. reflexivity.
Qed.

Lemma unquote_plus_front_char (c : ascii) (rest : string) :
  unquote_plus_front (quote_plus_char c +:+ rest) = Some (c, rest).
Proof. destruct c as [[] [] [] [] [] [] [] []]; reflexivity. Qed.

Lemma map_join_quote_plus_injective (s1 : string) :
  forall s2,
    Urllib.map_join quote_plus_char s1 = Urllib.map_join quote_plus_char s2 ->
    s1 = s2.
Proof.
  induction s1 as [|c1 s1 IH]; intros [|c2 s2] Heq; cbn [Urllib.map_join] in Heq.
  - reflexivity.
  - apply (f_equal unquote_plus_front) in Heq.
    rewrite unquote_plus_front_char in Heq. discriminate.
  - apply (f_equal unquote_plus_front) in Heq.
    rewrite unquote_plus_front_char in Heq. discriminate.
  - apply (f_equal unquote_plus_front) in Heq.
    rewrite !unquote_plus_front_char in Heq.
    injection Heq as -> Heq. rewrite (IH s2 Heq). reflexivity.
Qed.

(** X10: the string that [_ident_file_structure] hashes determines the
    decoded identifier: [quote_plus] maps different strings to different
    strings (a space becomes [+], a literal [+] becomes [%2B]).  Two
    decoded identifiers therefore share a digest chain only if their MD5
    digests collide. *)
Theorem quote_plus_injective (s1 s2 : string) :
  Urllib.quote_plus s1 = Urllib.quote_plus s2 <-> s1 = s2.
Proof.
  split; [|intros ->; reflexivity].
  rewrite !quote_plus_by_char. apply map_join_quote_plus_injective.
Qed.

(** ** What a successful population leaves behind *)

Lemma split_acc_head (c : ascii) (s : string) :
  forall acc, exists x rest, Py.split_acc c acc s = (acc +:+ x) :: rest.
Proof.
  induction s as [|d s IH]; intros acc; cbn [Py.split_acc].
  - exists "", []. rewrite app_nil_r_s. reflexivity.
  - destruct (Ascii.eqb d c).
    + exists "", (Py.split_acc c "" s). rewrite app_nil_r_s. reflexivity.
    + destruct (IH (acc +:+ String d "")) as (x & rest & ->).
      exists (String d x), rest. rewrite app_assoc_s. reflexivity.
Qed.

(** The canonical file and the temporary file never have the same name. *)
Lemma canonical_is_not_temporary (cache_dir extension : string) (f : FS.t) :
  FS.of_string (join cache_dir ("loris_cache." +:+ extension))
  <> (FS.of_string cache_dir ++ [FS.fresh_name f])%list.
Proof.
  rewrite of_string_join_relative by reflexivity.
  intros Heq. apply List.app_inv_head in Heq. revert Heq.
  unfold FS.of_string, Py.split.
  change ("loris_cache." +:+ extension) with (String "l" ("oris_cache." +:+ extension)).
  cbn [Py.split_acc Ascii.eqb Bool.eqb].
  change ("" +:+ "l") with "l".
  destruct (split_acc_head "/" ("oris_cache." +:+ extension) "l") as (x & rest & ->).
  change ("l" +:+ x) with (String "l" x).
  cbn [List.filter FS.keep_component String.eqb Ascii.eqb Bool.eqb andb negb].
  unfold FS.fresh_name. change ("tmp" +:+ ?s) with (String "t" (String "m" (String "p" s))).
  intros [= Hl _].
Qed.

Section Populated.
Context `{Lib}.

(** X11: whenever [copy_to_cache] of the HTTP strategy returns, it has
    sent exactly one GET, to the URL of the decoded identifier; the path
    it returns is [loris_cache.<extension>] in the cache directory of the
    decoded identifier and exists; and the files on disk are those from
    before the call, with at most the returned path added, holding the
    body of the answer.  In particular no temporary file is left. *)
Theorem http_copy_to_cache_postcondition
    (self : SimpleHTTPResolver.t) (ident path : string) (w w' : World) :
  copy_to_cache self ident w = (Ok path, w') ->
  let d := Urllib.unquote ident in
  let rq := MkRequest GET (request_url self d) (SimpleHTTPResolver.request_options self) in
  let response := server w (length (sent w)) rq in
  (exists extension,
     path = join (SimpleHTTPResolver.cache_dir_path self d) ("loris_cache." +:+ extension)) /\
  FS.exists_ (fs w') path = true /\
  sent w' = rq :: sent w /\
  ok response = true /\
  (FS.files (fs w') = FS.files (fs w) \/
   FS.files (fs w') = <[FS.of_string path := content response]> (FS.files (fs w))).
Proof.
  intros Hrun d rq response.
  assert (Hsent : sent w' = rq :: sent w).
  { destruct (copy_to_cache_sends self ident w) as [[_ Hfail] | Hs];
      rewrite Hrun in *; [discriminate | exact Hs]. }
  unfold copy_to_cache in Hrun. fold d in Hrun.
  destruct (download self d w) as [[[[source_url local_fp] tmp_file]|e] w1] eqn:Hd;
    [rewrite (bind_ok _ _ _ _ _ Hd) in Hrun
    | rewrite (bind_raise _ _ _ _ _ Hd) in Hrun; discriminate].
  destruct (download_ok self _ w w1 _ _ _ Hd)
    as (w0 & response' & extension & Hfiles & Hdir & Hok & Hresp & _ & Hfp & Htmp & Hfs).
  fold rq in Hresp. fold response in Hresp. subst response'.
  set (cache_dir := SimpleHTTPResolver.cache_dir_path self d) in *.
  set (p := (FS.of_string cache_dir ++ [FS.fresh_name (fs w0)])%list) in *.
  assert (Hp : FS.of_string tmp_file = p).
  { rewrite Htmp. apply of_string_join; apply fresh_name_plain. }
  assert (Hnew : FS.files (fs w0) !! p = None)
    by apply is_file_false, fresh_path_not_a_file.
  assert (Hne : FS.of_string local_fp <> p).
  { rewrite Hfp. apply canonical_is_not_temporary. }
  assert (Hnonempty : String.eqb local_fp "" = false).
  { destruct (String.eqb_spec local_fp "") as [Hempty|]; [|reflexivity].
    exfalso. rewrite Hfp in Hempty. revert Hempty. apply join_nonempty. discriminate. }
  assert (Hbody : FS.read (fs w1) tmp_file = Some (content response)).
  { unfold FS.read. rewrite Hp, Hfs. cbn [FS.files]. apply lookup_insert_eq. }
  assert (Htmpfile : FS.is_file (fs w1) (FS.of_string tmp_file) = true).
  { unfold FS.is_file. unfold FS.read in Hbody. rewrite Hbody. reflexivity. }
  revert Hrun. cbv beta iota. unfold publish.
  destruct (FS.exists_ (fs w1) local_fp) eqn:Hfound.
  - (* the canonical path is there already: the temporary file is removed *)
    unfold FS.remove. unfold_m. rewrite Hfound. cbv beta iota.
    cbn [fs]. rewrite Htmpfile. cbv beta iota.
    intros [= <- <-]. cbn [fs sent FS.files]. rewrite Hp.
    split; [exists extension; exact Hfp|].
    split; [|split; [exact Hsent | split; [exact Hok|]]].
    + unfold FS.exists_ in *. rewrite Hnonempty in *. cbn [negb andb] in *.
      unfold FS.lexists in *. apply orb_true_iff in Hfound as [Hisdir | Hisfile].
      * apply orb_true_iff. left.
        destruct (FS.of_string local_fp); [reflexivity | exact Hisdir].
      * apply orb_true_iff. right. unfold FS.is_file in *. cbn [FS.files].
        rewrite lookup_delete_ne by (intros Heq; apply Hne; symmetry; exact Heq).
        exact Hisfile.
    + left. rewrite Hfs. cbn [FS.files].
      rewrite delete_insert_id by exact Hnew. exact Hfiles.
  - (* the canonical path is free: the temporary file is renamed onto it *)
    unfold FS.rename. unfold_m. rewrite Hfound. cbv beta iota.
    cbn [fs]. unfold FS.read in Hbody. rewrite Hbody.
    destruct (FS.is_dir (fs w1) (FS.of_string local_fp)) eqn:Hisdir;
      [discriminate|].
    destruct (FS.is_dir (fs w1) (FS.parent (FS.of_string local_fp))) eqn:Hparent;
      cbn [negb]; [|discriminate].
    cbv beta iota. intros [= <- <-]. cbn [fs sent FS.files]. rewrite Hp.
    split; [exists extension; exact Hfp|].
    split; [|split; [exact Hsent | split; [exact Hok|]]].
    + unfold FS.exists_. rewrite Hnonempty. cbn [negb andb].
      unfold FS.lexists. apply orb_true_iff. right.
      unfold FS.is_file. cbn [FS.files]. rewrite lookup_insert_eq. reflexivity.
    + right. rewrite Hfs. cbn [FS.files].
      rewrite delete_insert_eq, delete_id by exact Hnew.
      rewrite Hfiles. reflexivity.
Qed.

End Populated.

Lemma http_copy_to_cache_postcondition_witness :
  let w' := snd (@copy_to_cache sample_lib _ _ prefix_resolver "img.jpg" fresh_cache) in
  FS.exists_ (fs w') img_cache_file = true /\
  sent w' = [MkRequest GET "http://src/img.jpg" (MkOptions None None (Some true))] /\
  (FS.files (fs w') = FS.files (fs fresh_cache) \/
   FS.files (fs w') = <[FS.of_string img_cache_file := "image bytes"]> (FS.files (fs fresh_cache))).
Proof.
  intros w'.
  destruct (@http_copy_to_cache_postcondition sample_lib prefix_resolver "img.jpg"
              img_cache_file fresh_cache w')
    as (_ & Hexists & Hsent & _ & Hfiles).
  - vm_compute. reflexivity.
  - split; [exact Hexists|]. split; [exact Hsent | exact Hfiles].
Defined.

(** ** What [makedirs] leaves behind *)

Lemma is_dir_nonempty (f : FS.t) (p : FS.path) :
  p <> [] -> FS.is_dir f p = bool_decide (p ∈ FS.dirs f).
Proof. destruct p; [congruence | reflexivity]. Qed.

Lemma mkdir_result (f : FS.t) (p : FS.path) :
  match FS.mkdir f p with
  | Ok f' => FS.dirs f' = {[p]} ∪ FS.dirs f /\ FS.files f' = FS.files f
  | Raise (OSError errno _) => errno = FS.EEXIST -> FS.lexists f p = true
  | Raise _ => True
  end.
Proof.
  unfold FS.mkdir.
  destruct (FS.lexists f p); [intros _; reflexivity|].
  destruct (FS.is_file f (FS.parent p)); [discriminate|].
  destruct (negb (FS.is_dir f (FS.parent p))); [discriminate|].
  split; reflexivity.
Qed.

(** A successful [makedirs] ends with the directory in place, touches no
    file and adds no directory deeper than the one asked for; when it
    fails with [EEXIST], the path was there before the call. *)
Lemma makedirs_rev_result (rp : list string) :
  forall f,
    match FS.makedirs_rev f rp with
    | Ok f' =>
        FS.is_dir f' (rev rp) = true /\
        FS.files f' = FS.files f /\
        (forall q, q ∈ FS.dirs f' -> q ∈ FS.dirs f \/ length q <= length rp)
    | Raise (OSError errno _) => errno = FS.EEXIST -> FS.lexists f (rev rp) = true
    | Raise _ => True
    end.
Proof.
  assert (Hleaf : forall (f f1 : FS.t) (x : string) (rhead : list string),
    FS.files f1 = FS.files f ->
    (forall q, q ∈ FS.dirs f1 -> q ∈ FS.dirs f \/ length q <= length rhead) ->
    match FS.mkdir f1 (rev (x :: rhead)) with
    | Ok f' =>
        FS.is_dir f' (rev (x :: rhead)) = true /\
        FS.files f' = FS.files f /\
        (forall q, q ∈ FS.dirs f' -> q ∈ FS.dirs f \/ length q <= length (x :: rhead))
    | Raise (OSError errno _) =>
        errno = FS.EEXIST -> FS.lexists f (rev (x :: rhead)) = true
    | Raise _ => True
    end).
  { intros f f1 x rhead Hfiles Hdirs.
    assert (Hne : rev (x :: rhead) <> []).
    { cbn [rev]. intros Hnil. apply app_eq_nil in Hnil as [_ Hnil]. discriminate. }
    pose proof (mkdir_result f1 (rev (x :: rhead))) as Hmk.
    destruct (FS.mkdir f1 (rev (x :: rhead))) as [f'|e].
    - destruct Hmk as [Hd Hf]. split; [|split].
      + rewrite is_dir_nonempty by exact Hne. apply bool_decide_eq_true_2.
        rewrite Hd. apply elem_of_union_l, elem_of_singleton. reflexivity.
      + rewrite Hf. exact Hfiles.
      + intros q Hq. rewrite Hd in Hq. apply elem_of_union in Hq as [Hq | Hq].
        * apply elem_of_singleton in Hq as ->. right.
          rewrite length_rev. reflexivity.
        * destruct (Hdirs q Hq) as [Hin | Hlen]; [left; exact Hin|].
          right. cbn [length]. lia.
    - destruct e; try exact I. intros Herr. specialize (Hmk Herr).
      unfold FS.lexists in *. apply orb_true_iff in Hmk as [Hisdir | Hisfile].
      + rewrite is_dir_nonempty in Hisdir by exact Hne.
        apply bool_decide_eq_true_1 in Hisdir.
        destruct (Hdirs _ Hisdir) as [Hin | Hlen].
        * apply orb_true_iff. left. rewrite is_dir_nonempty by exact Hne.
          apply bool_decide_eq_true_2. exact Hin.
        * rewrite length_rev in Hlen. cbn [length] in Hlen. lia.
      + apply orb_true_iff. right. unfold FS.is_file in *.
        rewrite <- Hfiles. exact Hisfile. }
  induction rp as [|x rhead IH]; intros f.
  - cbn [FS.makedirs_rev rev]. unfold FS.mkdir, FS.lexists. cbn [FS.is_dir orb].
    intros _. reflexivity.
  - cbn [FS.makedirs_rev].
    destruct (negb (FS.lexists f (rev rhead)));
      [|apply Hleaf; [reflexivity | intros q Hq; left; exact Hq]].
    specialize (IH f).
    destruct (FS.makedirs_rev f rhead) as [f1|e].
    + destruct IH as (_ & Hfiles & Hdirs). apply Hleaf; assumption.
    + destruct e; try exact I.
      destruct (errno =? FS.EEXIST)%N eqn:Herrno.
      * apply Hleaf; [reflexivity | intros q Hq; left; exact Hq].
      * intros ->. discriminate.
Qed.

(** When [_create_cache_dir] returns, the cache directory exists. *)
Lemma create_cache_dir_exists (cache_dir : string) (w w1 : World) :
  SimpleHTTPResolver._create_cache_dir cache_dir w = (Ok tt, w1) ->
  FS.lexists (fs w1) (FS.of_string cache_dir) = true.
Proof.
  unfold SimpleHTTPResolver._create_cache_dir. unfold_m. unfold FS.makedirs.
  destruct (String.eqb cache_dir ""); [discriminate|].
  pose proof (makedirs_rev_result (rev (FS.of_string cache_dir)) (fs w)) as Hmk.
  rewrite rev_involutive in Hmk.
  destruct (FS.makedirs_rev (fs w) (rev (FS.of_string cache_dir))) as [f'|e].
  - intros [= <-]. cbn [fs]. destruct Hmk as (Hdir & _).
    unfold FS.lexists. rewrite Hdir. reflexivity.
  - destruct e; try discriminate.
    destruct (errno =? FS.EEXIST)%N eqn:Herrno; [|discriminate].
    intros [= <-]. apply Hmk. apply N.eqb_eq. exact Herrno.
Qed.

Lemma chain_nonempty (h : string) :
  String.concat "/" (Spec.hash_pieces h) <> "".
Proof.
  unfold Spec.hash_pieces. cbn [map String.concat].
  destruct h as [|a [|b h]]; discriminate.
Qed.

Lemma cache_dir_path_nonempty (self : SimpleHTTPResolver.t) (ident : string) :
  SimpleHTTPResolver.cache_dir_path self ident <> "".
Proof.
  unfold SimpleHTTPResolver.cache_dir_path. apply join_nonempty.
  rewrite cache_subroot_structure. apply join_nonempty, chain_nonempty.
Qed.

Section AfterFailure.
Context `{Lib}.

(** X12: a population that fails because the origin answered with a
    non-success status has already created the cache directory and leaves
    it in place.  [is_resolvable] looks at that directory first, so from
    then on it answers [True] for the identifier without asking the
    origin again (identifiers that decode the same once and twice; the
    identifier pattern, if any, accepts the decoded identifier). *)
Theorem failed_population_marks_resolvable
    (self : SimpleHTTPResolver.t) (ident : string) (w w1 : World) :
  let d := Urllib.unquote ident in
  let url := request_url self d in
  let rq := MkRequest GET url (SimpleHTTPResolver.request_options self) in
  let response := server w1 (length (sent w1)) rq in
  Urllib.unquote d = d ->
  (forall rx, SimpleHTTPResolver.ident_regex self = Some rx ->
              rx = "" \/ re_match rx d = true) ->
  SimpleHTTPResolver._create_cache_dir (SimpleHTTPResolver.cache_dir_path self d) w
  = (Ok tt, w1) ->
  SimpleHTTPResolver.is_http url = true ->
  ok response = false ->
  exists w',
    copy_to_cache self ident w
    = (Raise (ResolverException 404
                (source_not_found_public d (status_code response))), w') /\
    sent w' = rq :: sent w1 /\
    is_resolvable self ident w' = (Ok true, w').
Proof.
  intros d url rq response Hidem Hregex Hmk Hurl Hbad.
  eexists. split; [|split].
  - unfold copy_to_cache, download.
    cbn [base web_request_url SimpleHTTPResolver_dispatch]. fold d.
    unfold mbind, M_bind, bind. rewrite Hmk. cbv beta iota.
    rewrite (web_request_url_good self d w1 Hurl). cbv beta iota.
    unfold requests. fold url rq response. rewrite Hbad. reflexivity.
  - reflexivity.
  - unfold is_resolvable. cbn [base SimpleHTTPResolver_dispatch]. fold d.
    assert (Haccepted :
      match SimpleHTTPResolver.ident_regex self with
      | Some rx => negb (String.eqb rx "") && negb (re_match rx d)
      | None => false
      end = false).
    { destruct (SimpleHTTPResolver.ident_regex self) as [rx|]; [|reflexivity].
      destruct (Hregex rx eq_refl) as [-> | ->]; [reflexivity|].
      apply andb_false_r. }
    rewrite Haccepted.
    assert (Hdir : SimpleHTTPResolver.cache_dir_path self d
                   = join (SimpleHTTPResolver.cache_root self)
                       (SimpleHTTPResolver._cache_subroot d)).
    { unfold SimpleHTTPResolver.cache_dir_path. rewrite Hidem. reflexivity. }
    rewrite <- Hdir.
    unfold exists_, mbind, M_bind, bind, get_fs, ret. cbv beta iota. cbn [fs].
    unfold FS.exists_. rewrite (create_cache_dir_exists _ _ _ Hmk).
    destruct (String.eqb_spec (SimpleHTTPResolver.cache_dir_path self d) "") as [Hempty|].
    + exfalso. revert Hempty. apply cache_dir_path_nonempty.
    + reflexivity.
Qed.

End AfterFailure.

Lemma failed_population_marks_resolvable_witness :
  let w' := snd (@copy_to_cache sample_lib _ _ prefix_resolver "a.jpg" not_found_world) in
  sent w' = [MkRequest GET "http://src/a.jpg" (MkOptions None None (Some true))] /\
  @is_resolvable sample_lib _ _ prefix_resolver "a.jpg" w' = (Ok true, w').
Proof.
  intros w'.
  destruct (@failed_population_marks_resolvable sample_lib prefix_resolver "a.jpg"
              not_found_world
              (snd (SimpleHTTPResolver._create_cache_dir
                      (SimpleHTTPResolver.cache_dir_path prefix_resolver "a.jpg")
                      not_found_world)))
    as (w2 & Hrun & Hsent & Hres).
  - reflexivity.
  - intros rx Hrx. discriminate Hrx.
  - vm_compute. reflexivity.
  - reflexivity.
  - reflexivity.
  - assert (Hw : w' = w2) by (unfold w'; rewrite Hrun; reflexivity).
    rewrite Hw. split; [exact Hsent | exact Hres].
Defined.

Section Probe.
Context `{Lib}.

(** X13: [is_resolvable] of the HTTP strategy only probes: it never
    changes the disk or the log, and it sends at most one request, a
    HEAD when [head_resolvable] is set and a GET otherwise, to the URL of
    the decoded identifier.  It answers [True] only if the cache directory
    of the identifier exists or the request it sent was answered with
    success. *)
Theorem http_is_resolvable_probes
    (self : SimpleHTTPResolver.t) (ident : string) (w : World) :
  let d := Urllib.unquote ident in
  let method := if SimpleHTTPResolver.head_resolvable self then HEAD else GET in
  let rq := MkRequest method (request_url self d)
              (SimpleHTTPResolver.request_options self) in
  let r := is_resolvable self ident w in
  fs (snd r) = fs w /\
  logged (snd r) = logged w /\
  (sent (snd r) = sent w \/ sent (snd r) = rq :: sent w) /\
  (fst r = Ok true ->
   (FS.exists_ (fs w) (SimpleHTTPResolver.cache_dir_path self ident) = true /\
    sent (snd r) = sent w) \/
   (sent (snd r) = rq :: sent w /\ ok (server w (length (sent w)) rq) = true)).
Proof.
  cbv zeta. unfold is_resolvable. cbn [base web_request_url SimpleHTTPResolver_dispatch].
  set (d := Urllib.unquote ident).
  change (join (SimpleHTTPResolver.cache_root self) (SimpleHTTPResolver._cache_subroot d))
    with (SimpleHTTPResolver.cache_dir_path self ident).
  destruct (match SimpleHTTPResolver.ident_regex self with
            | Some rx => negb (String.eqb rx "") && negb (re_match rx d)
            | None => false
            end).
  { cbn. split; [reflexivity|]. split; [reflexivity|].
    split; [left; reflexivity | discriminate]. }
  assert (Hex : exists_ (SimpleHTTPResolver.cache_dir_path self ident) w
                = (Ok (FS.exists_ (fs w) (SimpleHTTPResolver.cache_dir_path self ident)), w))
    by reflexivity.
  rewrite (bind_ok _ _ _ _ _ Hex). clear Hex.
  destruct (FS.exists_ (fs w) (SimpleHTTPResolver.cache_dir_path self ident)) eqn:Hdir.
  { cbn. split; [reflexivity|]. split; [reflexivity|].
    split; [left; reflexivity | intros _; left; split; reflexivity]. }
  destruct (SimpleHTTPResolver.is_http (request_url self d)) eqn:Hurl.
  - rewrite (bind_ok _ _ _ _ _ (web_request_url_good self d w Hurl)).
    cbv beta iota.
    destruct (SimpleHTTPResolver.head_resolvable self);
      unfold requests, mbind, M_bind, bind, ret; cbv beta iota;
      match goal with
      | |- context [ok ?resp] => destruct (ok resp) eqn:Hok
      end;
      cbn [fst snd fs sent logged];
      (split; [reflexivity|]); (split; [reflexivity|]);
      (split; [right; reflexivity|]);
      intros Htrue; try discriminate Htrue;
      right; split; reflexivity.
  - rewrite (bind_raise _ _ _ _ _ (web_request_url_bad self d w Hurl)).
    cbn. split; [reflexivity|]. split; [reflexivity|].
    split; [left; reflexivity | discriminate].
Qed.

End Probe.

(** ** The mounted-source strategy *)

(** X14: when the source file of the decoded identifier does not exist,
    [resolve] of the mounted-source strategy raises the 404 exception,
    whether or not a copy is in the cache.  The public message names the
    identifier as it was given; the path of the source file appears only
    in the warning that is logged.  Disk and network are left alone. *)
Theorem mounted_resolve_not_found
    (self : SourceImageCachingResolver.t) (ident : string) (w : World) :
  FS.exists_ (fs w) (join (SourceImageCachingResolver.source_root self)
                       (Urllib.unquote ident)) = false ->
  SourceImageCachingResolver.resolve self ident w
  = (Raise (ResolverException 404
              ("Source image not found for identifier: " +:+ ident +:+ ".")),
     MkWorld (fs w) (server w) (sent w)
       ((WARN, "Source image not found at "
                 +:+ join (SourceImageCachingResolver.source_root self)
                       (Urllib.unquote ident)
                 +:+ " for identifier: " +:+ ident +:+ ".") :: logged w)).
Proof.
  intros Hmissing.
  unfold SourceImageCachingResolver.resolve, SourceImageCachingResolver.is_resolvable,
    SourceImageCachingResolver.raise_404_for_ident,
    SourceImageCachingResolver.source_file_path.
  unfold_m. rewrite Hmissing. reflexivity.
Qed.

Lemma mounted_resolve_not_found_witness :
  fst (SourceImageCachingResolver.resolve mounted_resolver "b%2Ejpg" mounted_world)
  = Raise (ResolverException 404 "Source image not found for identifier: b%2Ejpg.") /\
  logged (snd (SourceImageCachingResolver.resolve mounted_resolver "b%2Ejpg" mounted_world))
  = [(WARN, "Source image not found at /src/b.jpg for identifier: b%2Ejpg.")].
Proof.
  rewrite (mounted_resolve_not_found mounted_resolver "b%2Ejpg" mounted_world).
  - split; reflexivity.
  - vm_compute. reflexivity.
Defined.

Lemma mounted_resolve_hit
    (self : SourceImageCachingResolver.t) (ident format_ : string) (w : World) :
  FS.exists_ (fs w) (SourceImageCachingResolver.source_file_path self ident) = true ->
  FS.exists_ (fs w) (SourceImageCachingResolver.cache_file_path self ident) = true ->
  format_from_ident ident = Ok format_ ->
  SourceImageCachingResolver.resolve self ident w
  = (Ok (SourceImageCachingResolver.cache_file_path self ident, format_),
     MkWorld (fs w) (server w) (sent w)
       ((DEBUG, "Image Served from local cache: "
                  +:+ SourceImageCachingResolver.cache_file_path self ident) :: logged w)).
Proof.
  intros Hsource Hcache Hformat.
  unfold SourceImageCachingResolver.resolve, SourceImageCachingResolver.is_resolvable,
    SourceImageCachingResolver.in_cache.
  unfold_m. rewrite Hsource. cbv beta iota. cbn [fs]. rewrite Hcache. cbv beta iota.
  rewrite Hformat. reflexivity.
Qed.

(** What a [resolve] that returned has found and done. *)
Lemma mounted_resolve_ok
    (self : SourceImageCachingResolver.t) (ident : string) (r : string * string)
    (w w' : World) :
  SourceImageCachingResolver.resolve self ident w = (Ok r, w') ->
  let source_fp := SourceImageCachingResolver.source_file_path self ident in
  let cache_fp := SourceImageCachingResolver.cache_file_path self ident in
  exists format_,
    r = (cache_fp, format_) /\
    format_from_ident ident = Ok format_ /\
    FS.exists_ (fs w) source_fp = true /\
    sent w' = sent w /\
    ((FS.exists_ (fs w) cache_fp = true /\ fs w' = fs w) \/
     (FS.exists_ (fs w) cache_fp = false /\
      exists f1,
        FS.makedirs (fs w) (SourceImageCachingResolver.dirname cache_fp) = Ok f1 /\
        FS.copy f1 source_fp cache_fp = Ok (fs w'))).
Proof.
  intros Hrun source_fp cache_fp. revert Hrun.
  unfold SourceImageCachingResolver.resolve, SourceImageCachingResolver.is_resolvable,
    SourceImageCachingResolver.in_cache, SourceImageCachingResolver.copy_to_cache,
    SourceImageCachingResolver.raise_404_for_ident.
  fold source_fp cache_fp. unfold_m.
  destruct (FS.exists_ (fs w) source_fp) eqn:Hsource; cbv beta iota; [|discriminate].
  cbn [fs].
  destruct (FS.exists_ (fs w) cache_fp) eqn:Hcache; cbv beta iota.
  - destruct (format_from_ident ident) as [format_|e]; [|discriminate].
    intros [= <- <-]. exists format_. cbn [fs sent].
    repeat (split; [reflexivity|]). left. split; reflexivity.
  - destruct (FS.makedirs (fs w) (SourceImageCachingResolver.dirname cache_fp))
      as [f1|e] eqn:Hmk; cbv beta iota; [|discriminate].
    cbn [fs].
    destruct (FS.copy f1 source_fp cache_fp) as [f2|e] eqn:Hcopy; cbv beta iota;
      [|discriminate].
    destruct (format_from_ident ident) as [format_|e]; [|discriminate].
    intros [= <- <-]. exists format_. cbn [fs sent].
    repeat (split; [reflexivity|]). right. split; [reflexivity|].
    exists f1. split; [reflexivity | exact Hcopy].
Qed.

Lemma makedirs_nonempty (f f1 : FS.t) (s : string) :
  FS.makedirs f s = Ok f1 -> s <> "".
Proof.
  intros Hmk ->. discriminate Hmk.
Qed.

(** After [shutil.copy] the destination exists, the source is still a
    file, and no directory was added or removed. *)
Lemma copy_result (f1 f2 : FS.t) (src dst : string) :
  FS.copy f1 src dst = Ok f2 ->
  FS.lexists f2 (FS.of_string dst) = true /\
  FS.is_file f2 (FS.of_string src) = true.
Proof.
  unfold FS.copy.
  destruct (FS.is_file f1 (FS.of_string src)) eqn:Hsrc; unfold FS.is_file in Hsrc;
    destruct (FS.files f1 !! FS.of_string src) as [body|] eqn:Hbody;
    try discriminate.
  assert (Hkept : forall d, FS.is_file (FS.Mk (FS.dirs f1) (<[d := body]> (FS.files f1)))
                              (FS.of_string src) = true).
  { intros d. rewrite is_file_insert. case_decide; [reflexivity|].
    unfold FS.is_file. cbn [FS.files]. rewrite Hbody. reflexivity. }
  destruct (FS.is_dir f1 (FS.of_string dst)) eqn:Hdst.
  - match goal with
    | |- (if ?b then _ else _) = _ -> _ => destruct b; [discriminate|]
    end.
    match goal with
    | |- (if ?b then _ else _) = _ -> _ => destruct b; [discriminate|]
    end.
    intros [= <-]. split; [|apply Hkept].
    unfold FS.lexists. apply orb_true_iff. left. exact Hdst.
  - rewrite Hdst.
    match goal with
    | |- (if ?b then _ else _) = _ -> _ => destruct b; [discriminate|]
    end.
    intros [= <-]. split; [|apply Hkept].
    unfold FS.lexists. apply orb_true_iff. right.
    rewrite is_file_insert. case_decide; [reflexivity | congruence].
Qed.

(** X15: the mounted-source strategy is stable once it has answered: when
    [resolve] has returned a path and a format, resolving the same
    identifier again returns the same pair straight from the cache,
    changing neither disk nor network and logging only the line that
    says so. *)
Theorem mounted_resolve_again
    (self : SourceImageCachingResolver.t) (ident : string) (r : string * string)
    (w w' : World) :
  SourceImageCachingResolver.resolve self ident w = (Ok r, w') ->
  SourceImageCachingResolver.resolve self ident w'
  = (Ok r,
     MkWorld (fs w') (server w') (sent w')
       ((DEBUG, "Image Served from local cache: " +:+ fst r) :: logged w')).
Proof.
  intros Hrun.
  destruct (mounted_resolve_ok self ident r w w' Hrun)
    as (format_ & -> & Hformat & Hsource & _ & Hcases).
  cbn [fst]. apply mounted_resolve_hit; [| |exact Hformat].
  - destruct Hcases as [[_ Hfs] | (_ & f1 & _ & Hcopy)].
    + rewrite Hfs. exact Hsource.
    + unfold FS.exists_ in *. apply andb_true_iff in Hsource as [Hne _].
      rewrite Hne. cbn [andb].
      unfold FS.lexists. rewrite (proj2 (copy_result _ _ _ _ Hcopy)).
      apply orb_true_r.
  - destruct Hcases as [[Hcache Hfs] | (_ & f1 & Hmk & Hcopy)].
    + rewrite Hfs. exact Hcache.
    + unfold FS.exists_. rewrite (proj1 (copy_result _ _ _ _ Hcopy)), andb_true_r.
      destruct (String.eqb_spec (SourceImageCachingResolver.cache_file_path self ident) "")
        as [Hempty|]; [|reflexivity].
      exfalso. rewrite Hempty in Hmk. exact (makedirs_nonempty _ _ _ Hmk eq_refl).
Qed.

Lemma mounted_resolve_again_witness :
  let w' := snd (SourceImageCachingResolver.resolve mounted_resolver "d/a.jpg"
                   nested_source_world) in
  FS.read (fs w') "/cache/d/a.jpg" = Some "image bytes" /\
  SourceImageCachingResolver.resolve mounted_resolver "d/a.jpg" w'
  = (Ok ("/cache/d/a.jpg", "jpg"),
     MkWorld (fs w') (server w') (sent w')
       ((DEBUG, "Image Served from local cache: /cache/d/a.jpg") :: logged w')).
Proof.
  intros w'. split; [vm_compute; reflexivity|].
  apply (mounted_resolve_again mounted_resolver "d/a.jpg" ("/cache/d/a.jpg", "jpg")
           nested_source_world w').
  vm_compute. reflexivity.
Defined.

(** ** Constructing the HTTP strategy *)

(** X6: [SimpleHTTPResolver.__init__] either returns a resolver, and then
    the configuration had a [cache_root], the resolver has
    [uri_resolvable] set or a non-empty [source_prefix], and nothing was
    logged; or it raises the 500 exception, and then exactly the message
    it raises was logged as an error.  It touches neither disk nor
    network. *)
Theorem simple_init_outcomes (config : Config) (w : World) :
  match SimpleHTTPResolver.__init__ config w with
  | (Ok self, w') =>
      w' = w /\
      cfg_cache_root config = Some (SimpleHTTPResolver.cache_root self) /\
      (SimpleHTTPResolver.uri_resolvable self = true \/
       SimpleHTTPResolver.source_prefix self <> "")
  | (Raise e, w') =>
      exists message,
        e = ResolverException 500 message /\
        w' = MkWorld (fs w) (server w) (sent w) ((ERROR, message) :: logged w) /\
        (cfg_cache_root config = None \/
         (cfg_uri_resolvable config <> Some true /\
          default "" (cfg_source_prefix config) = ""))
  end.
Proof.
  unfold SimpleHTTPResolver.__init__.
  destruct (cfg_cache_root config) as [cache_root|].
  - destruct (default false (cfg_uri_resolvable config)) eqn:Huri; cbn [negb andb].
    + cbn. split; [reflexivity|]. split; [reflexivity|]. left. reflexivity.
    + destruct (String.eqb_spec (default "" (cfg_source_prefix config)) "") as [Hp|Hp].
      * cbn. eexists. split; [reflexivity|]. split; [reflexivity|].
        right. split; [|exact Hp].
        intros Hset. rewrite Hset in Huri. discriminate.
      * cbn. split; [reflexivity|]. split; [reflexivity|]. right. exact Hp.
  - cbn. eexists. split; [reflexivity|]. split; [reflexivity|]. left. reflexivity.
Qed.
